(** * vue-use-fixed-header: the visibility decision engine of [useFixedHeader]

    A shallow embedding of [src/index.ts].  The composable is a set of
    closures over a few mutable variables; the browser invokes them as
    discrete, non-preemptive turns (scroll events, animation-frame callbacks,
    resize-observer callbacks, transition-end events, watcher jobs).  The
    embedding is therefore a record [State] holding the closure variables
    together with the part of the host the code reads and writes, one Rocq
    function per source function, and a [step] function that dispatches one
    host event. *)

From Stdlib Require Import ZArith Lia Floats.SpecFloat.
From stdpp Require Import base option list gmap sets strings.


(** ** JavaScript numbers

    A JS [number] is an IEEE-754 binary64 value.  [spec_float] is the
    Standard Library's executable specification of such values; the
    operations below are its operations at precision 53 and maximal
    exponent 1024.  Comparisons involving NaN are false, as in JS. *)

Module Num.
Definition num := spec_float.

Definition prec : Z := 53.
Definition emax : Z := 1024.

Definition zero : num := S754_zero false.
Definition nan : num := S754_nan.
Definition infinity : num := S754_infinity false.
Definition neg_infinity : num := S754_infinity true.

(** The literal [1.2]: the binary64 value nearest to 6/5. *)
Definition one_point_two : num := S754_finite false 5404319552844595 (-52).

(** An integer literal. *)
Definition of_Z (z : Z) : num := binary_normalize prec emax z 0 false.

Definition add : num -> num -> num := SFadd prec emax.
Definition sub : num -> num -> num := SFsub prec emax.
Definition mul : num -> num -> num := SFmul prec emax.
Definition div : num -> num -> num := SFdiv prec emax.
Definition abs : num -> num := SFabs.

(** [a < b], [a <= b], [a > b], [a >= b], [a === b], [a !== b]. *)
Definition lt (a b : num) : bool := SFltb a b.
Definition le (a b : num) : bool := SFleb a b.
Definition gt (a b : num) : bool := SFltb b a.
Definition ge (a b : num) : bool := SFleb b a.
Definition strict_eq (a b : num) : bool := SFeqb a b.
Definition strict_ne (a b : num) : bool := negb (SFeqb a b).

Definition is_nan (a : num) : bool :=
  match a with S754_nan => true | _ => false end.
End Num.
Export Num.

(** ** The DOM fragment the composable touches *)

(** A [CSSProperties] object / the inline [style] of an element: a map from
    property names to values. *)
Abbreviation Styles := (gmap string string).

(** [{ ...a, ...b }]: the keys of [b] win. *)
Definition spread (a b : Styles) : Styles := b ∪ a.

(** [el.ontransitionend]: [null], or the arrow function that [onHidden]
    installs.  That closure captures the element it is installed on, so it
    carries no further data. *)
Inductive TransitionHandler := HiddenAfterTransition.

(** An element.  [marginTop] and [marginBottom] hold
    [parseFloat(getComputedStyle(el).marginTop)] and its sibling, the only
    form in which the source reads the margins; [position] and [display] are
    the computed values. *)
Record Element := {
  scrollTop : num;
  scrollHeight : num;
  marginTop : num;
  marginBottom : num;
  position : string;
  display : string;
  style : Styles;
  ontransitionend : option TransitionHandler
}.

Definition set_style (v : Styles) (e : Element) : Element :=
  {| scrollTop := scrollTop e; scrollHeight := scrollHeight e;
     marginTop := marginTop e; marginBottom := marginBottom e;
     position := position e; display := display e;
     style := v; ontransitionend := ontransitionend e |}.

Definition set_ontransitionend (v : option TransitionHandler) (e : Element) : Element :=
  {| scrollTop := scrollTop e; scrollHeight := scrollHeight e;
     marginTop := marginTop e; marginBottom := marginBottom e;
     position := position e; display := display e;
     style := style e; ontransitionend := v |}.

Definition set_scrollTop (v : num) (e : Element) : Element :=
  {| scrollTop := v; scrollHeight := scrollHeight e;
     marginTop := marginTop e; marginBottom := marginBottom e;
     position := position e; display := display e;
     style := style e; ontransitionend := ontransitionend e |}.

(** What the layout engine decides about an element. *)
Record Layout := {
  l_scrollHeight : num;
  l_marginTop : num;
  l_marginBottom : num;
  l_position : string;
  l_display : string
}.

Definition set_layout (l : Layout) (e : Element) : Element :=
  {| scrollTop := scrollTop e; scrollHeight := l_scrollHeight l;
     marginTop := l_marginTop l; marginBottom := l_marginBottom l;
     position := l_position l; display := l_display l;
     style := style e; ontransitionend := ontransitionend e |}.

(** An element nobody has touched yet. *)
Definition blank : Element :=
  {| scrollTop := zero; scrollHeight := zero; marginTop := zero;
     marginBottom := zero; position := "static"; display := "block";
     style := ∅; ontransitionend := None |}.

#[global] Instance Element_inhabited : Inhabited Element := populate blank.

(** Elements are named by numbers; [document.documentElement] is number 0. *)
Definition documentElement : nat := 0%nat.

(** Where a scroll listener can be registered: [window] or an element. *)
Inductive EventTarget := Window | Node (n : nat).

#[global] Instance EventTarget_eq_dec : EqDecision EventTarget.
Proof. solve_decision. Defined.

#[global] Instance EventTarget_countable : Countable EventTarget.
Proof.
  refine (inj_countable'
            (fun t => match t with Window => None | Node n => Some n end)
            (fun o => match o with None => Window | Some n => Node n end) _).
  by intros [].
Defined.

(** ** Animation-frame callbacks

    The source passes two closures to [requestAnimationFrame]: the arrow
    function of [onInstantScrollRestoration], and [rafDelta], which closes
    over the variables of one [captureDelta] call.  [Direction] tells
    which of the two [onCaptured] callbacks of the scroll handler the
    sampler reports to. *)

Inductive Direction := Enter | Leave.

#[global] Instance Direction_eq_dec : EqDecision Direction.
Proof. solve_decision. Defined.

Inductive RafTask :=
| RestoreCheck
| RafDelta (dir : Direction) (rafId : nat) (startMs startY : num) (frameCount : nat).

(** ** Configuration *)

(** [mergedOptions], without [root] and [watch]: these two are reactive and
    live in the state and in the events. *)
Record Options := {
  enterStyles : Styles;
  leaveStyles : Styles;
  enterDelta : num;
  leaveDelta : num
}.

(** Modelled from the spec: [VISIBILITY_VISIBLE] and [VISIBILITY_HIDDEN] are
    declared in [./constants], which is missing; the spec calls them the
    explicit visible-visibility override and the [hidden] visibility
    value. *)
Definition VISIBILITY_VISIBLE : Styles := {[ "visibility" := "visible" ]}.
Definition VISIBILITY_HIDDEN : Styles := {[ "visibility" := "hidden" ]}.

(** ** State *)

Record State := {
  (** the host *)
  hasWindow : bool;                    (* typeof window !== 'undefined' *)
  nodes : gmap nat Element;            (* the elements, by number *)
  clock : num;                         (* performance.now() *)
  target : option nat;                 (* unref(target) *)
  root : option nat;                   (* unref(mergedOptions.root) *)
  scrollListeners : gset EventTarget;  (* where onScroll is registered *)
  rafQueue : list (nat * RafTask);     (* callbacks requested for the next frame *)
  rafRunning : list (nat * RafTask);   (* callbacks of the current frame, not yet run *)
  nextRaf : nat;                       (* next requestAnimationFrame handle *)
  observed : gmap nat nat;             (* resize observers and the element each observes *)
  nextObserver : nat;
  (** variables of [useFixedHeader] *)
  isVisible : bool;
  isListeningScroll : bool;
  (** variables of [createScrollHandler], which is called once *)
  captureEnterDelta : bool;
  captureLeaveDelta : bool;
  prevTop : num;
  (** *)
  skipInitial : bool;
  resizeObserver : option nat;
  (** the watchers *)
  cleanup : bool;                      (* onCleanup(resetListeners) is registered *)
  watchedVisible : bool;               (* the value the isVisible watcher saw last *)
  mounted : bool;
  (** history of the [onCaptured] calls: sampler, direction, value *)
  captured : list (nat * Direction * num)
}.

Definition set_nodes (v : gmap nat Element) (s : State) : State :=
  {|
     hasWindow := hasWindow s; nodes := v; clock := clock s; target := target s; root := root s;
     scrollListeners := scrollListeners s; rafQueue := rafQueue s; rafRunning := rafRunning s;
     nextRaf := nextRaf s; observed := observed s; nextObserver := nextObserver s; isVisible :=
     isVisible s; isListeningScroll := isListeningScroll s; captureEnterDelta := captureEnterDelta
     s; captureLeaveDelta := captureLeaveDelta s; prevTop := prevTop s; skipInitial := skipInitial
     s; resizeObserver := resizeObserver s; cleanup := cleanup s; watchedVisible := watchedVisible
     s; mounted := mounted s; captured := captured s
  |}.

Definition set_clock (v : num) (s : State) : State :=
  {|
     hasWindow := hasWindow s; nodes := nodes s; clock := v; target := target s; root := root s;
     scrollListeners := scrollListeners s; rafQueue := rafQueue s; rafRunning := rafRunning s;
     nextRaf := nextRaf s; observed := observed s; nextObserver := nextObserver s; isVisible :=
     isVisible s; isListeningScroll := isListeningScroll s; captureEnterDelta := captureEnterDelta
     s; captureLeaveDelta := captureLeaveDelta s; prevTop := prevTop s; skipInitial := skipInitial
     s; resizeObserver := resizeObserver s; cleanup := cleanup s; watchedVisible := watchedVisible
     s; mounted := mounted s; captured := captured s
  |}.

Definition set_target (v : option nat) (s : State) : State :=
  {|
     hasWindow := hasWindow s; nodes := nodes s; clock := clock s; target := v; root := root s;
     scrollListeners := scrollListeners s; rafQueue := rafQueue s; rafRunning := rafRunning s;
     nextRaf := nextRaf s; observed := observed s; nextObserver := nextObserver s; isVisible :=
     isVisible s; isListeningScroll := isListeningScroll s; captureEnterDelta := captureEnterDelta
     s; captureLeaveDelta := captureLeaveDelta s; prevTop := prevTop s; skipInitial := skipInitial
     s; resizeObserver := resizeObserver s; cleanup := cleanup s; watchedVisible := watchedVisible
     s; mounted := mounted s; captured := captured s
  |}.

Definition set_root (v : option nat) (s : State) : State :=
  {|
     hasWindow := hasWindow s; nodes := nodes s; clock := clock s; target := target s; root := v;
     scrollListeners := scrollListeners s; rafQueue := rafQueue s; rafRunning := rafRunning s;
     nextRaf := nextRaf s; observed := observed s; nextObserver := nextObserver s; isVisible :=
     isVisible s; isListeningScroll := isListeningScroll s; captureEnterDelta := captureEnterDelta
     s; captureLeaveDelta := captureLeaveDelta s; prevTop := prevTop s; skipInitial := skipInitial
     s; resizeObserver := resizeObserver s; cleanup := cleanup s; watchedVisible := watchedVisible
     s; mounted := mounted s; captured := captured s
  |}.

Definition set_scrollListeners (v : gset EventTarget) (s : State) : State :=
  {|
     hasWindow := hasWindow s; nodes := nodes s; clock := clock s; target := target s; root := root
     s; scrollListeners := v; rafQueue := rafQueue s; rafRunning := rafRunning s; nextRaf := nextRaf
     s; observed := observed s; nextObserver := nextObserver s; isVisible := isVisible s;
     isListeningScroll := isListeningScroll s; captureEnterDelta := captureEnterDelta s;
     captureLeaveDelta := captureLeaveDelta s; prevTop := prevTop s; skipInitial := skipInitial s;
     resizeObserver := resizeObserver s; cleanup := cleanup s; watchedVisible := watchedVisible s;
     mounted := mounted s; captured := captured s
  |}.

Definition set_rafQueue (v : list (nat * RafTask)) (s : State) : State :=
  {|
     hasWindow := hasWindow s; nodes := nodes s; clock := clock s; target := target s; root := root
     s; scrollListeners := scrollListeners s; rafQueue := v; rafRunning := rafRunning s; nextRaf :=
     nextRaf s; observed := observed s; nextObserver := nextObserver s; isVisible := isVisible s;
     isListeningScroll := isListeningScroll s; captureEnterDelta := captureEnterDelta s;
     captureLeaveDelta := captureLeaveDelta s; prevTop := prevTop s; skipInitial := skipInitial s;
     resizeObserver := resizeObserver s; cleanup := cleanup s; watchedVisible := watchedVisible s;
     mounted := mounted s; captured := captured s
  |}.

Definition set_rafRunning (v : list (nat * RafTask)) (s : State) : State :=
  {|
     hasWindow := hasWindow s; nodes := nodes s; clock := clock s; target := target s; root := root
     s; scrollListeners := scrollListeners s; rafQueue := rafQueue s; rafRunning := v; nextRaf :=
     nextRaf s; observed := observed s; nextObserver := nextObserver s; isVisible := isVisible s;
     isListeningScroll := isListeningScroll s; captureEnterDelta := captureEnterDelta s;
     captureLeaveDelta := captureLeaveDelta s; prevTop := prevTop s; skipInitial := skipInitial s;
     resizeObserver := resizeObserver s; cleanup := cleanup s; watchedVisible := watchedVisible s;
     mounted := mounted s; captured := captured s
  |}.

Definition set_nextRaf (v : nat) (s : State) : State :=
  {|
     hasWindow := hasWindow s; nodes := nodes s; clock := clock s; target := target s; root := root
     s; scrollListeners := scrollListeners s; rafQueue := rafQueue s; rafRunning := rafRunning s;
     nextRaf := v; observed := observed s; nextObserver := nextObserver s; isVisible := isVisible s;
     isListeningScroll := isListeningScroll s; captureEnterDelta := captureEnterDelta s;
     captureLeaveDelta := captureLeaveDelta s; prevTop := prevTop s; skipInitial := skipInitial s;
     resizeObserver := resizeObserver s; cleanup := cleanup s; watchedVisible := watchedVisible s;
     mounted := mounted s; captured := captured s
  |}.

Definition set_observed (v : gmap nat nat) (s : State) : State :=
  {|
     hasWindow := hasWindow s; nodes := nodes s; clock := clock s; target := target s; root := root
     s; scrollListeners := scrollListeners s; rafQueue := rafQueue s; rafRunning := rafRunning s;
     nextRaf := nextRaf s; observed := v; nextObserver := nextObserver s; isVisible := isVisible s;
     isListeningScroll := isListeningScroll s; captureEnterDelta := captureEnterDelta s;
     captureLeaveDelta := captureLeaveDelta s; prevTop := prevTop s; skipInitial := skipInitial s;
     resizeObserver := resizeObserver s; cleanup := cleanup s; watchedVisible := watchedVisible s;
     mounted := mounted s; captured := captured s
  |}.

Definition set_nextObserver (v : nat) (s : State) : State :=
  {|
     hasWindow := hasWindow s; nodes := nodes s; clock := clock s; target := target s; root := root
     s; scrollListeners := scrollListeners s; rafQueue := rafQueue s; rafRunning := rafRunning s;
     nextRaf := nextRaf s; observed := observed s; nextObserver := v; isVisible := isVisible s;
     isListeningScroll := isListeningScroll s; captureEnterDelta := captureEnterDelta s;
     captureLeaveDelta := captureLeaveDelta s; prevTop := prevTop s; skipInitial := skipInitial s;
     resizeObserver := resizeObserver s; cleanup := cleanup s; watchedVisible := watchedVisible s;
     mounted := mounted s; captured := captured s
  |}.

Definition set_isVisible (v : bool) (s : State) : State :=
  {|
     hasWindow := hasWindow s; nodes := nodes s; clock := clock s; target := target s; root := root
     s; scrollListeners := scrollListeners s; rafQueue := rafQueue s; rafRunning := rafRunning s;
     nextRaf := nextRaf s; observed := observed s; nextObserver := nextObserver s; isVisible := v;
     isListeningScroll := isListeningScroll s; captureEnterDelta := captureEnterDelta s;
     captureLeaveDelta := captureLeaveDelta s; prevTop := prevTop s; skipInitial := skipInitial s;
     resizeObserver := resizeObserver s; cleanup := cleanup s; watchedVisible := watchedVisible s;
     mounted := mounted s; captured := captured s
  |}.

Definition set_isListeningScroll (v : bool) (s : State) : State :=
  {|
     hasWindow := hasWindow s; nodes := nodes s; clock := clock s; target := target s; root := root
     s; scrollListeners := scrollListeners s; rafQueue := rafQueue s; rafRunning := rafRunning s;
     nextRaf := nextRaf s; observed := observed s; nextObserver := nextObserver s; isVisible :=
     isVisible s; isListeningScroll := v; captureEnterDelta := captureEnterDelta s;
     captureLeaveDelta := captureLeaveDelta s; prevTop := prevTop s; skipInitial := skipInitial s;
     resizeObserver := resizeObserver s; cleanup := cleanup s; watchedVisible := watchedVisible s;
     mounted := mounted s; captured := captured s
  |}.

Definition set_captureEnterDelta (v : bool) (s : State) : State :=
  {|
     hasWindow := hasWindow s; nodes := nodes s; clock := clock s; target := target s; root := root
     s; scrollListeners := scrollListeners s; rafQueue := rafQueue s; rafRunning := rafRunning s;
     nextRaf := nextRaf s; observed := observed s; nextObserver := nextObserver s; isVisible :=
     isVisible s; isListeningScroll := isListeningScroll s; captureEnterDelta := v;
     captureLeaveDelta := captureLeaveDelta s; prevTop := prevTop s; skipInitial := skipInitial s;
     resizeObserver := resizeObserver s; cleanup := cleanup s; watchedVisible := watchedVisible s;
     mounted := mounted s; captured := captured s
  |}.

Definition set_captureLeaveDelta (v : bool) (s : State) : State :=
  {|
     hasWindow := hasWindow s; nodes := nodes s; clock := clock s; target := target s; root := root
     s; scrollListeners := scrollListeners s; rafQueue := rafQueue s; rafRunning := rafRunning s;
     nextRaf := nextRaf s; observed := observed s; nextObserver := nextObserver s; isVisible :=
     isVisible s; isListeningScroll := isListeningScroll s; captureEnterDelta := captureEnterDelta
     s; captureLeaveDelta := v; prevTop := prevTop s; skipInitial := skipInitial s; resizeObserver
     := resizeObserver s; cleanup := cleanup s; watchedVisible := watchedVisible s; mounted :=
     mounted s; captured := captured s
  |}.

Definition set_prevTop (v : num) (s : State) : State :=
  {|
     hasWindow := hasWindow s; nodes := nodes s; clock := clock s; target := target s; root := root
     s; scrollListeners := scrollListeners s; rafQueue := rafQueue s; rafRunning := rafRunning s;
     nextRaf := nextRaf s; observed := observed s; nextObserver := nextObserver s; isVisible :=
     isVisible s; isListeningScroll := isListeningScroll s; captureEnterDelta := captureEnterDelta
     s; captureLeaveDelta := captureLeaveDelta s; prevTop := v; skipInitial := skipInitial s;
     resizeObserver := resizeObserver s; cleanup := cleanup s; watchedVisible := watchedVisible s;
     mounted := mounted s; captured := captured s
  |}.

Definition set_skipInitial (v : bool) (s : State) : State :=
  {|
     hasWindow := hasWindow s; nodes := nodes s; clock := clock s; target := target s; root := root
     s; scrollListeners := scrollListeners s; rafQueue := rafQueue s; rafRunning := rafRunning s;
     nextRaf := nextRaf s; observed := observed s; nextObserver := nextObserver s; isVisible :=
     isVisible s; isListeningScroll := isListeningScroll s; captureEnterDelta := captureEnterDelta
     s; captureLeaveDelta := captureLeaveDelta s; prevTop := prevTop s; skipInitial := v;
     resizeObserver := resizeObserver s; cleanup := cleanup s; watchedVisible := watchedVisible s;
     mounted := mounted s; captured := captured s
  |}.

Definition set_resizeObserver (v : option nat) (s : State) : State :=
  {|
     hasWindow := hasWindow s; nodes := nodes s; clock := clock s; target := target s; root := root
     s; scrollListeners := scrollListeners s; rafQueue := rafQueue s; rafRunning := rafRunning s;
     nextRaf := nextRaf s; observed := observed s; nextObserver := nextObserver s; isVisible :=
     isVisible s; isListeningScroll := isListeningScroll s; captureEnterDelta := captureEnterDelta
     s; captureLeaveDelta := captureLeaveDelta s; prevTop := prevTop s; skipInitial := skipInitial
     s; resizeObserver := v; cleanup := cleanup s; watchedVisible := watchedVisible s; mounted :=
     mounted s; captured := captured s
  |}.

Definition set_cleanup (v : bool) (s : State) : State :=
  {|
     hasWindow := hasWindow s; nodes := nodes s; clock := clock s; target := target s; root := root
     s; scrollListeners := scrollListeners s; rafQueue := rafQueue s; rafRunning := rafRunning s;
     nextRaf := nextRaf s; observed := observed s; nextObserver := nextObserver s; isVisible :=
     isVisible s; isListeningScroll := isListeningScroll s; captureEnterDelta := captureEnterDelta
     s; captureLeaveDelta := captureLeaveDelta s; prevTop := prevTop s; skipInitial := skipInitial
     s; resizeObserver := resizeObserver s; cleanup := v; watchedVisible := watchedVisible s;
     mounted := mounted s; captured := captured s
  |}.

Definition set_watchedVisible (v : bool) (s : State) : State :=
  {|
     hasWindow := hasWindow s; nodes := nodes s; clock := clock s; target := target s; root := root
     s; scrollListeners := scrollListeners s; rafQueue := rafQueue s; rafRunning := rafRunning s;
     nextRaf := nextRaf s; observed := observed s; nextObserver := nextObserver s; isVisible :=
     isVisible s; isListeningScroll := isListeningScroll s; captureEnterDelta := captureEnterDelta
     s; captureLeaveDelta := captureLeaveDelta s; prevTop := prevTop s; skipInitial := skipInitial
     s; resizeObserver := resizeObserver s; cleanup := cleanup s; watchedVisible := v; mounted :=
     mounted s; captured := captured s
  |}.

Definition set_mounted (v : bool) (s : State) : State :=
  {|
     hasWindow := hasWindow s; nodes := nodes s; clock := clock s; target := target s; root := root
     s; scrollListeners := scrollListeners s; rafQueue := rafQueue s; rafRunning := rafRunning s;
     nextRaf := nextRaf s; observed := observed s; nextObserver := nextObserver s; isVisible :=
     isVisible s; isListeningScroll := isListeningScroll s; captureEnterDelta := captureEnterDelta
     s; captureLeaveDelta := captureLeaveDelta s; prevTop := prevTop s; skipInitial := skipInitial
     s; resizeObserver := resizeObserver s; cleanup := cleanup s; watchedVisible := watchedVisible
     s; mounted := v; captured := captured s
  |}.

Definition set_captured (v : list (nat * Direction * num)) (s : State) : State :=
  {|
     hasWindow := hasWindow s; nodes := nodes s; clock := clock s; target := target s; root := root
     s; scrollListeners := scrollListeners s; rafQueue := rafQueue s; rafRunning := rafRunning s;
     nextRaf := nextRaf s; observed := observed s; nextObserver := nextObserver s; isVisible :=
     isVisible s; isListeningScroll := isListeningScroll s; captureEnterDelta := captureEnterDelta
     s; captureLeaveDelta := captureLeaveDelta s; prevTop := prevTop s; skipInitial := skipInitial
     s; resizeObserver := resizeObserver s; cleanup := cleanup s; watchedVisible := watchedVisible
     s; mounted := mounted s; captured := v
  |}.


(** ** The functions of [useFixedHeader] *)

Section UseFixedHeader.

Variable mergedOptions : Options.

(** [CAPTURE_DELTA_FRAME_COUNT] is imported from [./constants], which is
    missing: the number of frames a velocity sample spans. *)
Variable CAPTURE_DELTA_FRAME_COUNT : nat.

(** *** Utils *)

Definition getRoot (s : State) : option nat :=
  if hasWindow s then
    match root s with
    | Some r => Some r
    | None => Some documentElement
    end
  else None.

Definition getScrollTop (s : State) : num :=
  match getRoot s with
  | None => zero
  | Some r => scrollTop (nodes s !!! r)
  end.

Definition isFixed (s : State) : bool :=
  match target s with
  | None => false
  | Some el =>
      let e := nodes s !!! el in
      (String.eqb (position e) "fixed" || String.eqb (position e) "sticky")
      && negb (String.eqb (display e) "none")
  end.

Definition getHeaderHeight (s : State) : num :=
  match target s with
  | None => zero
  | Some el =>
      let e := nodes s !!! el in
      add (scrollHeight e) (add (marginTop e) (marginBottom e))
  end.

(** [Object.assign(el.style, styles)] on the element [el]. *)
Definition assignStyle (el : nat) (styles : Styles) (s : State) : State :=
  let e := nodes s !!! el in
  set_nodes (<[ el := set_style (styles ∪ style e) e ]> (nodes s)) s.

Definition setStyles (styles : Styles) (s : State) : State :=
  match target s with
  | Some el => assignStyle el styles s
  | None => s
  end.

(** The keys of [{ ...enterStyles, ...leaveStyles }] and ['visibility'] are
    removed from the inline style. *)
Definition removeStyles (s : State) : State :=
  match target s with
  | Some el =>
      let e := nodes s !!! el in
      let managed := spread (enterStyles mergedOptions) (leaveStyles mergedOptions) in
      set_nodes
        (<[ el := set_style (delete "visibility" (style e ∖ managed)) e ]> (nodes s)) s
  | None => s
  end.

(** *** The host's animation-frame interface *)

(** The handle returned is [nextRaf s]. *)
Definition requestAnimationFrame (t : RafTask) (s : State) : State :=
  set_nextRaf (S (nextRaf s)) (set_rafQueue (rafQueue s ++ [(nextRaf s, t)]) s).

Definition cancelAnimationFrame (id : nat) (s : State) : State :=
  let keep := filter (fun jt : nat * RafTask => jt.1 ≠ id) in
  set_rafRunning (keep (rafRunning s)) (set_rafQueue (keep (rafQueue s)) s).

(** *** Scroll restoration, [onVisible], [onHidden] *)

(** The arrow function passed to [requestAnimationFrame]. *)
Definition restorationCheck (s : State) : State :=
  let isBelowHeader := gt (getScrollTop s) (mul (getHeaderHeight s) one_point_two) in
  if isBelowHeader then
    setStyles (spread (leaveStyles mergedOptions) VISIBILITY_HIDDEN)
              (set_isVisible false s)
  else s.

Definition onInstantScrollRestoration (s : State) : State :=
  requestAnimationFrame RestoreCheck s.

Definition onVisible (s : State) : State :=
  setStyles (spread (enterStyles mergedOptions) VISIBILITY_VISIBLE) s.

Definition armTransitionEnd (el : nat) (h : option TransitionHandler) (s : State) : State :=
  set_nodes (<[ el := set_ontransitionend h (nodes s !!! el) ]> (nodes s)) s.

Definition onHidden (s : State) : State :=
  let s1 := setStyles (leaveStyles mergedOptions) s in
  match target s1 with
  | Some el => armTransitionEnd el (Some HiddenAfterTransition) s1
  | None => s1
  end.

(** The arrow function that [onHidden] stores in [el.ontransitionend]. *)
Definition hiddenAfterTransition (el : nat) (s : State) : State :=
  let s1 := if negb (isVisible s) then setStyles VISIBILITY_HIDDEN s else s in
  armTransitionEnd el None s1.

(** *** The scroll handler *)

(** The two [onCaptured] callbacks. *)
Definition onCaptured (d : Direction) (value : num) (s : State) : State :=
  match d with
  | Enter =>
      let s1 := if ge value (enterDelta mergedOptions) then set_isVisible true s else s in
      set_captureEnterDelta true s1
  | Leave =>
      let s1 := if ge value (leaveDelta mergedOptions) then set_isVisible false s else s in
      set_captureLeaveDelta true s1
  end.

Definition captureDelta (d : Direction) (s : State) : State :=
  let frameCount := 0%nat in
  let startMs := clock s in
  let startY := getScrollTop s in
  let rafId := nextRaf s in
  requestAnimationFrame (RafDelta d rafId startMs startY frameCount) s.

(** The value a sampler reports when it finishes in state [s]. *)
Definition sampledSpeed (startMs startY : num) (s : State) : num :=
  let nextY := getScrollTop s in
  div (abs (sub startY nextY)) (sub (clock s) startMs).

Definition rafDelta (d : Direction) (rafId : nat) (startMs startY : num)
    (frameCount : nat) (s : State) : State :=
  if Nat.eqb frameCount CAPTURE_DELTA_FRAME_COUNT then
    let value := sampledSpeed startMs startY s in
    let s1 := onCaptured d value (set_captured (captured s ++ [(rafId, d, value)]) s) in
    cancelAnimationFrame rafId s1
  else
    requestAnimationFrame (RafDelta d rafId startMs startY (S frameCount)) s.

Definition onScroll (s : State) : State :=
  let isTopReached := le (getScrollTop s) (getHeaderHeight s) in
  let isScrollingUp := lt (getScrollTop s) (prevTop s) in
  let isScrollingDown := gt (getScrollTop s) (prevTop s) in
  let s1 :=
    if isTopReached then set_isVisible true s
    else if strict_ne (prevTop s) zero then
      if isScrollingUp && captureEnterDelta s then
        captureDelta Enter (set_captureEnterDelta false s)
      else if isScrollingDown && captureLeaveDelta s then
        captureDelta Leave (set_captureLeaveDelta false s)
      else s
    else s in
  set_prevTop (getScrollTop s1) s1.

(** *** Listener lifecycle *)

Definition scrollRootOf (r : nat) : EventTarget :=
  if Nat.eqb r documentElement then Window else Node r.

Definition toggleScollListener (isRemove : bool) (s : State) : State :=
  match getRoot s with
  | None => s
  | Some r =>
      let scrollRoot := scrollRootOf r in
      let listeners :=
        if isRemove then scrollListeners s ∖ {[ scrollRoot ]}
        else scrollListeners s ∪ {[ scrollRoot ]} in
      set_isListeningScroll (negb isRemove) (set_scrollListeners listeners s)
  end.

Definition toggleFunctionalities (s : State) : State :=
  let isValid := isFixed s in
  if isListeningScroll s then
    if negb isValid then toggleScollListener true (removeStyles s) else s
  else
    if isValid then toggleScollListener false s else s.

(** The callback given to [new ResizeObserver]. *)
Definition onResize (s : State) : State :=
  if skipInitial s then set_skipInitial false s else toggleFunctionalities s.

Definition addResizeObserver (s : State) : State :=
  let o := nextObserver s in
  let s1 := set_nextObserver (S o) (set_resizeObserver (Some o) s) in
  match getRoot s1 with
  | Some r => set_observed (<[ o := r ]> (observed s1)) s1
  | None => s1
  end.

(** [resizeObserver?.disconnect()]. *)
Definition disconnectResizeObserver (s : State) : State :=
  match resizeObserver s with
  | Some o => set_observed (delete o (observed s)) s
  | None => s
  end.

Definition resetListeners (s : State) : State :=
  set_isVisible true (disconnectResizeObserver (toggleScollListener true s)).

(** *** Watchers *)

(** The callback of the watcher on [[unref(target), unref(mergedOptions.root)]].
    Its first argument is that array, which is always truthy, so the body of
    [if (_target)] always runs. *)
Definition watchTargetRoot (s : State) : State :=
  let s1 := set_cleanup true s in
  let s2 := addResizeObserver s1 in
  if negb (isFixed s2) then s2
  else toggleScollListener false (onInstantScrollRestoration s2).

(** The callback of the watcher on [isVisible]. *)
Definition watchVisible (s : State) : State :=
  if negb (isListeningScroll s) then s
  else if isVisible s then onVisible s else onHidden s.

(** The cleanup registered with [onCleanup] runs once, before the callback
    runs again or when the watcher is stopped. *)
Definition runCleanup (s : State) : State :=
  if cleanup s then set_cleanup false (resetListeners s) else s.

(** The job of the watcher on [isVisible]: the scheduler runs it after every
    turn, and it calls back when the value differs from the one it saw
    last. *)
Definition flushVisible (s : State) : State :=
  if mounted s && negb (Bool.eqb (isVisible s) (watchedVisible s)) then
    watchVisible (set_watchedVisible (isVisible s) s)
  else s.

(** ** Events *)

Inductive Event :=
(** the user or the page scrolls element [el] to offset [y] *)
| EnvScrollTo (el : nat) (y : num)
(** layout gives element [el] a new geometry and computed style *)
| EnvLayout (el : nat) (l : Layout)
(** time passes *)
| EnvClock (t : num)
(** a scroll event is dispatched at [t] *)
| ScrollEvent (t : EventTarget)
(** the browser runs the animation-frame callbacks *)
| AnimationFrame
(** a transitionend event reaches element [el] *)
| TransitionEnd (el : nat)
(** the browser delivers entries to resize observer [o] *)
| ResizeCallback (o : nat)
(** the refs [target] and [root] get new values and their watcher runs *)
| ChangeRefs (t r : option nat)
(** a dependency in [mergedOptions.watch] changed *)
| WatchTrigger
(** the component is unmounted *)
| Unmount.

(** One animation-frame callback. *)
Definition runTask (t : RafTask) (s : State) : State :=
  match t with
  | RestoreCheck => restorationCheck s
  | RafDelta d rafId startMs startY frameCount =>
      rafDelta d rafId startMs startY frameCount s
  end.

(** The callbacks of one frame run in the order they were requested, each
    followed by the scheduler's flush; callbacks requested meanwhile wait
    for the next frame. *)
Fixpoint runCallbacks (fuel : nat) (s : State) : State :=
  match fuel with
  | O => s
  | S fuel' =>
      match rafRunning s with
      | [] => s
      | (_, t) :: rest =>
          runCallbacks fuel' (flushVisible (runTask t (set_rafRunning rest s)))
      end
  end.

Definition animationFrame (s : State) : State :=
  runCallbacks (length (rafQueue s)) (set_rafRunning (rafQueue s) (set_rafQueue [] s)).

(** What the handlers registered by the composable do on an event. *)
Definition handle (e : Event) (s : State) : State :=
  match e with
  | EnvScrollTo el y =>
      set_nodes (<[ el := set_scrollTop y (nodes s !!! el) ]> (nodes s)) s
  | EnvLayout el l =>
      set_nodes (<[ el := set_layout l (nodes s !!! el) ]> (nodes s)) s
  | EnvClock t => set_clock t s
  | ScrollEvent t =>
      if bool_decide (t ∈ scrollListeners s) then onScroll s else s
  | AnimationFrame => animationFrame s
  | TransitionEnd el =>
      match ontransitionend (nodes s !!! el) with
      | Some HiddenAfterTransition => hiddenAfterTransition el s
      | None => s
      end
  | ResizeCallback o =>
      match observed s !! o with
      | Some _ => onResize s
      | None => s
      end
  | ChangeRefs t r =>
      let s1 := set_root r (set_target t s) in
      if mounted s then watchTargetRoot (runCleanup s1) else s1
  | WatchTrigger =>
      if mounted s then toggleFunctionalities s else s
  | Unmount =>
      if mounted s then set_mounted false (runCleanup (resetListeners s)) else s
  end.

Definition step (e : Event) (s : State) : State := flushVisible (handle e s).

Definition run (es : list Event) (s : State) : State :=
  fold_left (fun s e => step e s) es s.

(** The state once [useFixedHeader] has set up its closures, in a host with
    the given elements and clock. *)
Definition initial (window : bool) (dom : gmap nat Element) (now : num) : State :=
  {| hasWindow := window; nodes := dom; clock := now;
     target := None; root := None;
     scrollListeners := ∅; rafQueue := []; rafRunning := []; nextRaf := 0%nat;
     observed := ∅; nextObserver := 0%nat;
     isVisible := true; isListeningScroll := false;
     captureEnterDelta := true; captureLeaveDelta := true; prevTop := zero;
     skipInitial := true; resizeObserver := None;
     cleanup := false; watchedVisible := true; mounted := true;
     captured := [] |}.

Inductive reachable : State -> Prop :=
| reachable_initial window dom now : reachable (initial window dom now)
| reachable_step e s : reachable s -> reachable (step e s).


(** ** Comparisons of numbers *)

Lemma SFcompare_antisym (a b : num) :
  SFcompare b a = option_map CompOpp (SFcompare a b).
Proof.
  destruct a as [sa|sa| |sa ma ea], b as [sb|sb| |sb mb eb]; simpl;
    try reflexivity;
    try (destruct sa; reflexivity); try (destruct sb; reflexivity);
    try (destruct sa, sb; reflexivity).
  assert (Hm : Pos.compare_cont Eq mb ma = CompOpp (Pos.compare_cont Eq ma mb))
    by (rewrite (Pos.compare_cont_antisym ma mb Eq); reflexivity).
  destruct sa, sb; simpl; try reflexivity; f_equal;
    rewrite (Z.compare_antisym ea eb), Hm;
    destruct (ea ?= eb)%Z; simpl; try reflexivity;
    by destruct (Pos.compare_cont Eq ma mb).
Qed.

(** [a > b] excludes [a <= b]. *)
Lemma gt_not_le (a b : num) : gt a b = true -> le a b = false.
Proof.
  unfold gt, le, SFltb, SFleb. rewrite (SFcompare_antisym a b).
  by destruct (SFcompare a b) as [[]|].
Qed.

(** [a < b] excludes [a > b]. *)
Lemma lt_not_gt (a b : num) : lt a b = true -> gt a b = false.
Proof.
  unfold gt, lt, SFltb. rewrite (SFcompare_antisym a b).
  by destruct (SFcompare a b) as [[]|].
Qed.

(** Nothing compares with NaN. *)
Lemma ge_nan_l (b : num) : ge nan b = false.
Proof. unfold ge, le, SFleb. by destruct b. Qed.

Lemma ge_nan_r (a : num) : ge a nan = false.
Proof. unfold ge, le, SFleb. by destruct a. Qed.

(** [+Infinity >= b] unless [b] is NaN. *)
Lemma ge_infinity (b : num) : ge infinity b = negb (is_nan b).
Proof. unfold ge, SFleb. by destruct b as [|[]| |[]]. Qed.

(** [-Infinity >= b] only when [b] is [-Infinity]. *)
Lemma ge_neg_infinity (b : num) :
  ge neg_infinity b = match b with S754_infinity true => true | _ => false end.
Proof. unfold ge, SFleb. by destruct b as [|[]| |[]]. Qed.

(** ** What the style functions leave alone *)

(** [setStyles], [onVisible], [onHidden] and the isVisible watcher write
    inline styles and [ontransitionend] only. *)
Ltac unfold_styles :=
  unfold flushVisible, watchVisible, onVisible, onHidden, setStyles,
    armTransitionEnd, assignStyle in *.

Ltac case_ifs :=
  repeat match goal with
    | |- context [match ?x with _ => _ end] => destruct x eqn:?; simpl in *
    end.

Lemma flushVisible_isVisible (s : State) :
  isVisible (flushVisible s) = isVisible s.
Proof. unfold_styles. by case_ifs. Qed.


Lemma flushVisible_guards (s : State) :
  captureEnterDelta (flushVisible s) = captureEnterDelta s
  /\ captureLeaveDelta (flushVisible s) = captureLeaveDelta s.
Proof. unfold_styles. by case_ifs. Qed.

Lemma flushVisible_raf (s : State) :
  rafQueue (flushVisible s) = rafQueue s
  /\ rafRunning (flushVisible s) = rafRunning s
  /\ nextRaf (flushVisible s) = nextRaf s
  /\ captured (flushVisible s) = captured s.
Proof. unfold_styles. by case_ifs. Qed.

Lemma flushVisible_listeners (s : State) :
  scrollListeners (flushVisible s) = scrollListeners s
  /\ isListeningScroll (flushVisible s) = isListeningScroll s
  /\ observed (flushVisible s) = observed s
  /\ resizeObserver (flushVisible s) = resizeObserver s
  /\ hasWindow (flushVisible s) = hasWindow s
  /\ root (flushVisible s) = root s
  /\ target (flushVisible s) = target s.
Proof. unfold_styles. by case_ifs. Qed.

(** ** The scroll handler, one event at a time *)

(** The guard of a direction. *)
Definition guard (d : Direction) (s : State) : bool :=
  match d with
  | Enter => captureEnterDelta s
  | Leave => captureLeaveDelta s
  end.

(** The flag value a direction asks for, and its threshold. *)
Definition wanted (d : Direction) : bool :=
  match d with Enter => true | Leave => false end.

Definition threshold (d : Direction) : num :=
  match d with
  | Enter => enterDelta mergedOptions
  | Leave => leaveDelta mergedOptions
  end.

(** How the handler classifies an event that is not in the top zone. *)
Definition moving (d : Direction) (s : State) : bool :=
  match d with
  | Enter => lt (getScrollTop s) (prevTop s)
  | Leave => gt (getScrollTop s) (prevTop s)
  end.

(** The samples of a direction that are in flight. *)
Definition directionOf (t : RafTask) : option Direction :=
  match t with
  | RafDelta d _ _ _ _ => Some d
  | RestoreCheck => None
  end.

Definition samples (d : Direction) (q : list (nat * RafTask)) : list (nat * RafTask) :=
  filter (fun jt : nat * RafTask => directionOf jt.2 = Some d) q.

Definition inFlight (d : Direction) (s : State) : list (nat * RafTask) :=
  samples d (rafRunning s ++ rafQueue s).

Lemma onCaptured_spec (d : Direction) (value : num) (s : State) :
  guard d (onCaptured d value s) = true
  /\ isVisible (onCaptured d value s)
     = (if ge value (threshold d) then wanted d else isVisible s).
Proof.
  destruct d; unfold onCaptured; simpl;
    by destruct (ge value _).
Qed.

(** C1. Whenever a scroll event is processed while the scroll offset is at
    most the header extent, the handler sets the visibility flag to true:
    whatever [prevTop], the guards and the samples in flight are.  The flag
    is still true when the turn, watcher included, is over. *)
Theorem top_zone_forces_visible (s : State) (t : EventTarget) :
  t ∈ scrollListeners s ->
  le (getScrollTop s) (getHeaderHeight s) = true ->
  handle (ScrollEvent t) s = onScroll s
  /\ isVisible (onScroll s) = true
  /\ isVisible (step (ScrollEvent t) s) = true.
Proof.
  intros Ht Htop.
  assert (Hh : handle (ScrollEvent t) s = onScroll s)
    by (simpl; by rewrite bool_decide_eq_true_2).
  assert (Hv : isVisible (onScroll s) = true)
    by (unfold onScroll; rewrite Htop; reflexivity).
  split; [done|]. split; [done|].
  unfold step. by rewrite flushVisible_isVisible, Hh.
Qed.

(** C5. With [prevTop] equal to 0 and the offset beyond the header extent
    the handler only records the offset in [prevTop]: no sample starts and
    the flag stays.  In the top zone the flag is forced to true even when
    [prevTop] is 0. *)
Theorem zero_prevTop_guard (s : State) :
  strict_eq (prevTop s) zero = true ->
  (gt (getScrollTop s) (getHeaderHeight s) = true ->
     onScroll s = set_prevTop (getScrollTop s) s)
  /\ (le (getScrollTop s) (getHeaderHeight s) = true ->
     isVisible (onScroll s) = true
     /\ rafQueue (onScroll s) = rafQueue s).
Proof.
  intros Hz. split.
  - intros Hgt. unfold onScroll.
    rewrite (gt_not_le _ _ Hgt). unfold strict_ne.
    unfold strict_eq in Hz. by rewrite Hz.
  - intros Hle. unfold onScroll. by rewrite Hle.
Qed.

(** C10. The callback of a sample re-arms the guard of its direction
    whatever the value is, and a later scroll event of that direction, out
    of the top zone and with a non-zero [prevTop], starts a fresh sample
    whenever the guard is armed. *)
Theorem guard_rearmed (d : Direction) :
  (forall (value : num) (s : State), guard d (onCaptured d value s) = true)
  /\ (forall s : State,
        guard d s = true ->
        le (getScrollTop s) (getHeaderHeight s) = false ->
        strict_ne (prevTop s) zero = true ->
        moving d s = true ->
        rafQueue (onScroll s)
        = rafQueue s ++ [(nextRaf s, RafDelta d (nextRaf s) (clock s) (getScrollTop s) 0)]
        /\ guard d (onScroll s) = false).
Proof.
  split.
  - intros value s. apply onCaptured_spec.
  - intros s Hg Htop Hp Hm. unfold onScroll. rewrite Htop, Hp.
    destruct d; simpl in Hg, Hm.
    + rewrite Hm, Hg. by simpl.
    + rewrite (lt_not_gt _ _ Hm : lt (getScrollTop s) (prevTop s) = false), Hm, Hg.
      by simpl.
Qed.

(** C4, amended. A sample that reports [+Infinity] meets every threshold
    that is a number, so the flag flips as for a finite speed at or above
    the threshold.  A sample that reports NaN meets no threshold
    ([NaN >= x] is false): the flag stays as it was and only the guard is
    re-armed. *)
Theorem degenerate_sample (d : Direction) (s : State) :
  (is_nan (threshold d) = false ->
     isVisible (onCaptured d infinity s) = wanted d)
  /\ isVisible (onCaptured d nan s) = isVisible s
  /\ guard d (onCaptured d nan s) = true.
Proof.
  destruct (onCaptured_spec d infinity s) as [_ Hinf].
  destruct (onCaptured_spec d nan s) as [Hg Hnan].
  split; [|split]; [|by rewrite Hnan, ge_nan_l|done].
  intros Hthr. by rewrite Hinf, ge_infinity, Hthr.
Qed.

(** ** Hiding in two phases *)

Lemma lookup_total_insert_same (m : gmap nat Element) (i : nat) (e : Element) :
  <[ i := e ]> m !!! i = e.
Proof. by rewrite lookup_total_insert_eq. Qed.


(** ** Well-formed animation-frame state *)

Definition rafIdOf (t : RafTask) : option nat :=
  match t with
  | RafDelta _ rafId _ _ _ => Some rafId
  | RestoreCheck => None
  end.

(** The samplers that still have a callback pending. *)
Definition samplerIds (q : list (nat * RafTask)) : list nat :=
  omap (fun jt : nat * RafTask => rafIdOf jt.2) q.

(** All pending callbacks: the rest of the current frame, then the next. *)
Definition tasks (s : State) : list (nat * RafTask) := rafRunning s ++ rafQueue s.

(** Handles are fresh and unique; the handle a sampler remembers in [rafId]
    is the one of its first request, hence no later than its pending
    callback, and it names no other pending callback; every sampler has one
    pending callback; a sampler that has reported is gone; a direction whose
    guard is armed has no sample in flight, and no direction has two. *)
Definition wf_raw (ts : list (nat * RafTask)) (n : nat)
    (log : list (nat * Direction * num)) (g : Direction -> bool) : Prop :=
  (forall j t, (j, t) ∈ ts -> j < n)
  /\ NoDup ts.*1
  /\ (forall j t k, (j, t) ∈ ts -> rafIdOf t = Some k -> k ≤ j /\ (k ∈ ts.*1 -> k = j))
  /\ NoDup (samplerIds ts)
  /\ (forall e, e ∈ log -> e.1.1 < n /\ e.1.1 ∉ samplerIds ts)
  /\ (forall d, length (samples d ts) ≤ 1 /\ (g d = true -> samples d ts = [])).

Definition raf_wf (s : State) : Prop :=
  wf_raw (tasks s) (nextRaf s) (captured s) (fun d => guard d s).

Lemma samplerIds_sublist (ts' ts : list (nat * RafTask)) :
  ts' `sublist_of` ts -> samplerIds ts' `sublist_of` samplerIds ts.
Proof.
  unfold samplerIds. induction 1 as [|[j t] l1 l2 _ IH|[j t] l1 l2 _ IH]; simpl.
  - done.
  - destruct (rafIdOf t); [by constructor|done].
  - destruct (rafIdOf t); [by constructor|done].
Qed.

Lemma samples_sublist (d : Direction) (ts' ts : list (nat * RafTask)) :
  ts' `sublist_of` ts -> samples d ts' `sublist_of` samples d ts.
Proof.
  unfold samples. induction 1 as [|x l1 l2 _ IH|x l1 l2 _ IH].
  - done.
  - rewrite !filter_cons. destruct (decide _); [by constructor|done].
  - rewrite filter_cons. destruct (decide _); [by constructor|done].
Qed.

(** Dropping pending callbacks keeps the state well formed. *)
Lemma wf_raw_sublist ts' ts n log g :
  ts' `sublist_of` ts -> wf_raw ts n log g -> wf_raw ts' n log g.
Proof.
  intros Hsub (Hb & Hnd & Hf & Hs & Hl & Hg).
  pose proof (sublist_subseteq _ _ Hsub) as Hin.
  assert (Hids : ts'.*1 `sublist_of` ts.*1) by (by apply fmap_sublist).
  split; [|split; [|split; [|split; [|split]]]].
  - intros j t ?. eapply Hb, Hin; eassumption.
  - by apply (sublist_NoDup _ _ Hnd).
  - intros j t k Hjt Hk. destruct (Hf j t k (Hin _ Hjt) Hk) as [? Hown].
    split; [done|]. intros Hk'. apply Hown.
    by apply (sublist_subseteq _ _ Hids).
  - apply (sublist_NoDup _ _ Hs). by apply samplerIds_sublist.
  - intros e He. destruct (Hl e He) as [? Hno]. split; [done|].
    intros Hk. apply Hno.
    by apply (sublist_subseteq _ _ (samplerIds_sublist _ _ Hsub)).
  - intros d. destruct (Hg d) as [Hlen Hnone].
    pose proof (samples_sublist d _ _ Hsub) as Hsd. split.
    + pose proof (sublist_length _ _ Hsd). lia.
    + intros Hgd. rewrite (Hnone Hgd) in Hsd. by apply sublist_nil_r.
Qed.

Lemma samplerIds_snoc ts j t :
  samplerIds (ts ++ [(j, t)])
  = samplerIds ts ++ match rafIdOf t with Some k => [k] | None => [] end.
Proof. unfold samplerIds. rewrite omap_app. simpl. by destruct (rafIdOf t). Qed.

Lemma samples_snoc d ts j t :
  samples d (ts ++ [(j, t)])
  = samples d ts ++ (if decide (directionOf t = Some d) then [(j, t)] else []).
Proof.
  unfold samples. rewrite filter_app, filter_cons, filter_nil. simpl.
  by destruct (decide _).
Qed.

Lemma samplerIds_bound ts n log g k :
  wf_raw ts n log g -> k ∈ samplerIds ts -> k < n.
Proof.
  intros (Hb & _ & Hf & _) Hk. unfold samplerIds in Hk.
  apply list_elem_of_omap in Hk as ([j t] & Hin & Hid). simpl in Hid.
  destruct (Hf j t k Hin Hid) as [? _]. specialize (Hb j t Hin). lia.
Qed.

Lemma ids_bound ts n log g j :
  wf_raw ts n log g -> j ∈ ts.*1 -> j < n.
Proof.
  intros (Hb & _) Hj. apply list_elem_of_fmap in Hj as ([j' t] & -> & Hin).
  by apply (Hb j' t).
Qed.

(** A request for the restoration check. *)
Lemma wf_raw_request_check ts n log g :
  wf_raw ts n log g -> wf_raw (ts ++ [(n, RestoreCheck)]) (S n) log g.
Proof.
  intros Hwf. pose proof Hwf as (Hb & Hnd & Hf & Hs & Hl & Hg).
  split; [|split; [|split; [|split; [|split]]]].
  - intros j t [Hin|Hin%list_elem_of_singleton]%elem_of_app.
    + specialize (Hb j t Hin). lia.
    + injection Hin as -> ->. lia.
  - rewrite fmap_app. apply NoDup_app. split; [done|]. split.
    + intros j Hj Hj'%list_elem_of_singleton. simpl in Hj'. subst j.
      pose proof (ids_bound _ _ _ _ _ Hwf Hj). lia.
    + apply NoDup_singleton.
  - intros j t k [Hin|Hin%list_elem_of_singleton]%elem_of_app Hk.
    + destruct (Hf j t k Hin Hk) as [Hle Hown]. split; [done|].
      rewrite fmap_app. intros [Hk'|Hk'%list_elem_of_singleton]%elem_of_app.
      * by apply Hown.
      * simpl in Hk'. specialize (Hb j t Hin). lia.
    + injection Hin as -> ->. discriminate.
  - by rewrite samplerIds_snoc, app_nil_r.
  - intros e He. destruct (Hl e He). rewrite samplerIds_snoc, app_nil_r.
    split; [lia|done].
  - intros d. by rewrite samples_snoc, app_nil_r.
Qed.

(** A new sample of direction [d], started while the guard of [d] is
    armed; the guard is disarmed. *)
Lemma wf_raw_start ts n log g g' d a b :
  wf_raw ts n log g ->
  g d = true ->
  (forall d', g' d' = true -> d' ≠ d /\ g d' = true) ->
  wf_raw (ts ++ [(n, RafDelta d n a b 0)]) (S n) log g'.
Proof.
  intros Hwf Hgd Hg'. pose proof Hwf as (Hb & Hnd & Hf & Hs & Hl & Hg).
  split; [|split; [|split; [|split; [|split]]]].
  - intros j t [Hin|Hin%list_elem_of_singleton]%elem_of_app.
    + specialize (Hb j t Hin). lia.
    + injection Hin as -> ->. lia.
  - rewrite fmap_app. apply NoDup_app. split; [done|]. split.
    + intros j Hj Hj'%list_elem_of_singleton. simpl in Hj'. subst j.
      pose proof (ids_bound _ _ _ _ _ Hwf Hj). lia.
    + apply NoDup_singleton.
  - intros j t k [Hin|Hin%list_elem_of_singleton]%elem_of_app Hk.
    + destruct (Hf j t k Hin Hk) as [Hle Hown]. split; [done|].
      rewrite fmap_app. intros [Hk'|Hk'%list_elem_of_singleton]%elem_of_app.
      * by apply Hown.
      * simpl in Hk'. specialize (Hb j t Hin). lia.
    + injection Hin as -> ->. simpl in Hk. injection Hk as <-. done.
  - rewrite samplerIds_snoc. simpl. apply NoDup_app. split; [done|]. split.
    + intros k Hk Hk'%list_elem_of_singleton. subst k.
      pose proof (samplerIds_bound _ _ _ _ _ Hwf Hk). lia.
    + apply NoDup_singleton.
  - intros e He. destruct (Hl e He) as [Hlt Hno]. split; [lia|].
    rewrite samplerIds_snoc. simpl.
    intros [Hk|Hk%list_elem_of_singleton]%elem_of_app; [done|lia].
  - intros d'. rewrite samples_snoc. simpl. destruct (Hg d') as [Hlen Hnone].
    destruct (decide (Some d = Some d')) as [[= <-]|Hne].
    + rewrite (Hnone Hgd). simpl. split; [lia|].
      intros Hg'd. by destruct (Hg' d Hg'd).
    + rewrite app_nil_r. split; [done|]. intros Hg'd.
      apply Hnone. by apply Hg'.
Qed.

(** The pending callback of a sampler runs and requests the next tick. *)
Lemma wf_raw_requeue ts n log g j d k a b m m' :
  wf_raw ((j, RafDelta d k a b m) :: ts) n log g ->
  wf_raw (ts ++ [(n, RafDelta d k a b m')]) (S n) log g.
Proof.
  intros Hwf. pose proof Hwf as (Hb & Hnd & Hf & Hs & Hl & Hg).
  assert (Hhead : (j, RafDelta d k a b m) ∈ (j, RafDelta d k a b m) :: ts)
    by apply list_elem_of_here.
  destruct (Hf _ _ k Hhead eq_refl) as [Hkj Hkown].
  pose proof (Hb _ _ Hhead) as Hjn.
  simpl in Hnd. apply NoDup_cons in Hnd as [Hjfresh Hnd].
  assert (Hkfresh : k ∉ ts.*1).
  { intros Hk. assert (k = j) as -> by (apply Hkown; simpl; by right). done. }
  unfold samplerIds in Hs. simpl in Hs. apply NoDup_cons in Hs as [Hknew Hs].
  fold (samplerIds ts) in Hknew, Hs.
  split; [|split; [|split; [|split; [|split]]]].
  - intros j' t [Hin|Hin%list_elem_of_singleton]%elem_of_app.
    + assert (j' < n) by (apply (Hb j' t); by right). lia.
    + injection Hin as -> ->. lia.
  - rewrite fmap_app. apply NoDup_app. split; [done|]. split.
    + intros j' Hj Hj'%list_elem_of_singleton. simpl in Hj'. subst j'.
      assert (n < n); [|lia]. eapply ids_bound; [exact Hwf|]. simpl. by right.
    + apply NoDup_singleton.
  - intros j' t k' [Hin|Hin%list_elem_of_singleton]%elem_of_app Hk.
    + destruct (Hf j' t k') as [Hle Hown]; [by right|done|].
      split; [done|].
      rewrite fmap_app. intros [Hk'|Hk'%list_elem_of_singleton]%elem_of_app.
      * apply Hown. simpl. by right.
      * simpl in Hk'. assert (j' < n) by (apply (Hb j' t); by right). lia.
    + injection Hin as -> ->. simpl in Hk. injection Hk as <-.
      split; [lia|]. rewrite fmap_app.
      intros [Hk'|Hk'%list_elem_of_singleton]%elem_of_app; [done|].
      simpl in Hk'. lia.
  - rewrite samplerIds_snoc. simpl. apply NoDup_app. split; [done|]. split.
    + by intros k' Hk Hk'%list_elem_of_singleton; subst k'.
    + apply NoDup_singleton.
  - intros e He. destruct (Hl e He) as [Hlt Hno]. split; [lia|].
    rewrite samplerIds_snoc. simpl.
    intros [Hk|Hk%list_elem_of_singleton]%elem_of_app.
    + apply Hno. unfold samplerIds. simpl. by right.
    + apply Hno. unfold samplerIds. simpl. rewrite Hk. by left.
  - intros d'. rewrite samples_snoc. simpl. destruct (Hg d') as [Hlen Hnone].
    unfold samples in Hlen, Hnone. rewrite filter_cons in Hlen, Hnone.
    simpl in Hlen, Hnone. fold (samples d' ts) in Hlen, Hnone.
    destruct (decide (Some d = Some d')) as [Heq|Hne].
    + simpl in Hlen. assert (samples d' ts = []) as ->
        by (destruct (samples d' ts); [done|simpl in Hlen; lia]).
      simpl. split; [lia|]. intros Hgd. by specialize (Hnone Hgd).
    + by rewrite app_nil_r.
Qed.

(** The pending callback of a sampler runs and reports; the guard of its
    direction is armed again. *)
Lemma wf_raw_deliver ts n log g g' j d k a b m v :
  wf_raw ((j, RafDelta d k a b m) :: ts) n log g ->
  (forall d', d' ≠ d -> g' d' = true -> g d' = true) ->
  wf_raw ts n (log ++ [(k, d, v)]) g'.
Proof.
  intros Hwf Hg'. pose proof Hwf as (Hb & Hnd & Hf & Hs & Hl & Hg).
  assert (Hhead : (j, RafDelta d k a b m) ∈ (j, RafDelta d k a b m) :: ts)
    by apply list_elem_of_here.
  destruct (Hf _ _ k Hhead eq_refl) as [Hkj _].
  pose proof (Hb _ _ Hhead) as Hjn.
  assert (Hsub : ts `sublist_of` (j, RafDelta d k a b m) :: ts)
    by (by apply sublist_cons).
  destruct (wf_raw_sublist _ _ _ _ _ Hsub Hwf) as (Hb' & Hnd' & Hf' & Hs' & Hl' & Hgs').
  unfold samplerIds in Hs. simpl in Hs. apply NoDup_cons in Hs as [Hknew _].
  fold (samplerIds ts) in Hknew.
  split; [|split; [|split; [|split; [|split]]]]; try done.
  - intros e [He|He%list_elem_of_singleton]%elem_of_app; [by apply Hl'|].
    subst e. simpl. split; [lia|done].
  - intros d'. destruct (Hg d') as [Hlen Hnone]. destruct (Hgs' d') as [Hlen' Hnone'].
    split; [done|]. intros Hgd.
    destruct (decide (d' = d)) as [->|Hne].
    + unfold samples in Hlen. rewrite filter_cons in Hlen. simpl in Hlen.
      rewrite decide_True in Hlen by done. simpl in Hlen.
      fold (samples d ts) in Hlen.
      destruct (samples d ts); [done|simpl in Hlen; lia].
    + apply Hnone'. by apply Hg'.
Qed.

(** ** The invariant along every run *)

(** Two states with the same animation-frame state, history and guards. *)
Definition same_raf (s s' : State) : Prop :=
  rafQueue s' = rafQueue s /\ rafRunning s' = rafRunning s
  /\ nextRaf s' = nextRaf s /\ captured s' = captured s
  /\ captureEnterDelta s' = captureEnterDelta s
  /\ captureLeaveDelta s' = captureLeaveDelta s.


Lemma same_raf_trans (s1 s2 s3 : State) :
  same_raf s1 s2 -> same_raf s2 s3 -> same_raf s1 s3.
Proof.
  intros (?&?&?&?&?&?) (?&?&?&?&?&?). repeat split; congruence.
Qed.

Lemma raf_wf_same (s s' : State) : same_raf s s' -> raf_wf s -> raf_wf s'.
Proof.
  intros (Hq & Hr & Hn & Hc & He & Hl). unfold raf_wf, tasks.
  rewrite Hq, Hr, Hn, Hc.
  assert (Hg : (fun d => guard d s') = (fun d => guard d s)); [|by rewrite Hg].
  unfold guard. by rewrite He, Hl.
Qed.

Ltac unfold_lifecycle :=
  unfold runCleanup, resetListeners, disconnectResizeObserver, onResize,
    toggleFunctionalities, addResizeObserver, toggleScollListener,
    removeStyles, hiddenAfterTransition, restorationCheck in *;
  unfold_styles.

Ltac solve_same_raf :=
  unfold same_raf; unfold_lifecycle; case_ifs; by repeat split.

Lemma flushVisible_same_raf (s : State) : same_raf s (flushVisible s).
Proof. solve_same_raf. Qed.

Lemma restorationCheck_same_raf (s : State) : same_raf s (restorationCheck s).
Proof. solve_same_raf. Qed.

Lemma resetListeners_same_raf (s : State) : same_raf s (resetListeners s).
Proof. solve_same_raf. Qed.

Lemma runCleanup_same_raf (s : State) : same_raf s (runCleanup s).
Proof. solve_same_raf. Qed.

Lemma toggleFunctionalities_same_raf (s : State) : same_raf s (toggleFunctionalities s).
Proof. solve_same_raf. Qed.

Lemma onResize_same_raf (s : State) : same_raf s (onResize s).
Proof. solve_same_raf. Qed.

Lemma hiddenAfterTransition_same_raf (el : nat) (s : State) :
  same_raf s (hiddenAfterTransition el s).
Proof. solve_same_raf. Qed.

(** The watcher on target and root requests at most the restoration
    check. *)
Lemma watchTargetRoot_raf (s : State) :
  same_raf s (watchTargetRoot s)
  \/ (rafQueue (watchTargetRoot s) = rafQueue s ++ [(nextRaf s, RestoreCheck)]
      /\ rafRunning (watchTargetRoot s) = rafRunning s
      /\ nextRaf (watchTargetRoot s) = S (nextRaf s)
      /\ captured (watchTargetRoot s) = captured s
      /\ captureEnterDelta (watchTargetRoot s) = captureEnterDelta s
      /\ captureLeaveDelta (watchTargetRoot s) = captureLeaveDelta s).
Proof.
  unfold watchTargetRoot.
  destruct (negb (isFixed (addResizeObserver (set_cleanup true s)))).
  - left. solve_same_raf.
  - right. unfold onInstantScrollRestoration, requestAnimationFrame.
    unfold_lifecycle. case_ifs; by repeat split.
Qed.

Lemma raf_wf_watchTargetRoot (s : State) : raf_wf s -> raf_wf (watchTargetRoot s).
Proof.
  intros Hwf. destruct (watchTargetRoot_raf s) as [Hsame|(Hq & Hr & Hn & Hc & He & Hl)].
  - by apply (raf_wf_same s).
  - unfold raf_wf, tasks. rewrite Hq, Hr, Hn, Hc, app_assoc.
    assert (Hg : (fun d => guard d (watchTargetRoot s)) = (fun d => guard d s)).
    { unfold guard. by rewrite He, Hl. }
    rewrite Hg. by apply wf_raw_request_check.
Qed.

(** The scroll handler starts at most one sample, and only of a direction
    whose guard is armed. *)
Lemma raf_wf_onScroll (s : State) : raf_wf s -> raf_wf (onScroll s).
Proof.
  intros Hwf. unfold onScroll.
  destruct (le _ _); [exact Hwf|].
  destruct (strict_ne _ _); [|exact Hwf].
  destruct (lt _ _ && captureEnterDelta s) eqn:Hup.
  - apply andb_true_iff in Hup as [_ Hg].
    unfold raf_wf, tasks, captureDelta, requestAnimationFrame. simpl.
    rewrite app_assoc.
    apply (wf_raw_start _ _ _ (fun d => guard d s) _ Enter); [exact Hwf|exact Hg|].
    by intros [].
  - destruct (gt _ _ && captureLeaveDelta s) eqn:Hdown; [|exact Hwf].
    apply andb_true_iff in Hdown as [_ Hg].
    unfold raf_wf, tasks, captureDelta, requestAnimationFrame. simpl.
    rewrite app_assoc.
    apply (wf_raw_start _ _ _ (fun d => guard d s) _ Leave); [exact Hwf|exact Hg|].
    by intros [].
Qed.

(** One callback of the current frame. *)
Lemma raf_wf_runTask (s : State) (j : nat) (t : RafTask) (rest : list (nat * RafTask)) :
  rafRunning s = (j, t) :: rest ->
  raf_wf s ->
  raf_wf (runTask t (set_rafRunning rest s)).
Proof.
  intros Hrun Hwf. unfold raf_wf, tasks in Hwf. rewrite Hrun in Hwf. simpl in Hwf.
  destruct t as [|d k a b m]; simpl.
  - apply (raf_wf_same (set_rafRunning rest s)); [apply restorationCheck_same_raf|].
    unfold raf_wf, tasks. simpl.
    refine (wf_raw_sublist _ _ _ _ _ _ Hwf). by apply sublist_cons.
  - unfold rafDelta. destruct (Nat.eqb m CAPTURE_DELTA_FRAME_COUNT).
    + set (v := sampledSpeed a b (set_rafRunning rest s)).
      assert (Hdel : wf_raw (rest ++ rafQueue s) (nextRaf s)
                       (captured s ++ [(k, d, v)])
                       (fun d' => guard d'
                          (onCaptured d v
                             (set_captured (captured s ++ [(k, d, v)])
                                (set_rafRunning rest s))))).
      { apply (wf_raw_deliver _ _ _ (fun d' => guard d' s) _ j d k a b m v);
          [exact Hwf|].
        intros d' Hne. unfold onCaptured.
        destruct d, d'; try done; simpl; by destruct (ge v _). }
      unfold raf_wf, tasks, cancelAnimationFrame.
      assert (Hfields :
        rafRunning (onCaptured d v (set_captured (captured s ++ [(k, d, v)])
                                      (set_rafRunning rest s))) = rest
        /\ rafQueue (onCaptured d v (set_captured (captured s ++ [(k, d, v)])
                                       (set_rafRunning rest s))) = rafQueue s
        /\ nextRaf (onCaptured d v (set_captured (captured s ++ [(k, d, v)])
                                      (set_rafRunning rest s))) = nextRaf s
        /\ captured (onCaptured d v (set_captured (captured s ++ [(k, d, v)])
                                       (set_rafRunning rest s)))
           = captured s ++ [(k, d, v)]).
      { unfold onCaptured. destruct d; simpl; by destruct (ge v _). }
      destruct Hfields as (Hr & Hq & Hn & Hc).
      simpl. rewrite Hr, Hq, Hn, Hc, <- filter_app.
      refine (wf_raw_sublist _ _ _ _ _ _ Hdel). apply sublist_filter.
    + unfold raf_wf, tasks, requestAnimationFrame. simpl. rewrite app_assoc.
      by apply (wf_raw_requeue _ _ _ _ j d k a b m).
Qed.

Lemma raf_wf_runCallbacks (fuel : nat) (s : State) :
  raf_wf s -> raf_wf (runCallbacks fuel s).
Proof.
  revert s. induction fuel as [|fuel IH]; intros s Hwf; simpl; [done|].
  destruct (rafRunning s) as [|[j t] rest] eqn:Hrun; [done|].
  apply IH. eapply raf_wf_same; [apply flushVisible_same_raf|].
  by apply (raf_wf_runTask s j).
Qed.

(** Callbacks never add to the current frame. *)
Lemma runTask_running (t : RafTask) (s : State) :
  rafRunning (runTask t s) `sublist_of` rafRunning s.
Proof.
  destruct t as [|d k a b m]; simpl.
  - by destruct (restorationCheck_same_raf s) as (_ & -> & _).
  - unfold rafDelta. destruct (Nat.eqb m CAPTURE_DELTA_FRAME_COUNT).
    + unfold cancelAnimationFrame, onCaptured. simpl.
      destruct d; simpl; destruct (ge _ _); simpl; apply sublist_filter.
    + done.
Qed.

Lemma runCallbacks_drains (fuel : nat) (s : State) :
  length (rafRunning s) ≤ fuel -> rafRunning (runCallbacks fuel s) = [].
Proof.
  revert s. induction fuel as [|fuel IH]; intros s Hlen; simpl.
  - destruct (rafRunning s); [done|simpl in Hlen; lia].
  - destruct (rafRunning s) as [|[j t] rest] eqn:Hrun; [done|].
    apply IH. destruct (flushVisible_raf (runTask t (set_rafRunning rest s)))
      as (_ & -> & _).
    pose proof (sublist_length _ _ (runTask_running t (set_rafRunning rest s))) as Hs.
    simpl in Hs, Hlen. lia.
Qed.

Lemma raf_wf_animationFrame (s : State) :
  rafRunning s = [] -> raf_wf s ->
  raf_wf (animationFrame s) /\ rafRunning (animationFrame s) = [].
Proof.
  intros Hrun Hwf. unfold animationFrame. split.
  - apply raf_wf_runCallbacks. unfold raf_wf, tasks in *. simpl.
    rewrite Hrun in Hwf. simpl in Hwf. by rewrite app_nil_r.
  - by apply runCallbacks_drains.
Qed.

(** Between two events no frame is in progress. *)
Definition idle (s : State) : Prop := raf_wf s /\ rafRunning s = [].

Lemma idle_same (s s' : State) : same_raf s s' -> idle s -> idle s'.
Proof.
  intros Hsame [Hwf Hrun]. split; [by apply (raf_wf_same s)|].
  destruct Hsame as (_ & -> & _). done.
Qed.

Lemma idle_handle (e : Event) (s : State) : idle s -> idle (handle e s).
Proof.
  intros Hidle. pose proof Hidle as [Hwf Hrun].
  destruct e as [el y|el l|t|t| |el|o|t r| |]; simpl.
  - by apply (idle_same s).
  - by apply (idle_same s).
  - by apply (idle_same s).
  - destruct (bool_decide _); [|done]. split; [by apply raf_wf_onScroll|].
    unfold onScroll, captureDelta, requestAnimationFrame. by case_ifs.
  - by apply raf_wf_animationFrame.
  - destruct (ontransitionend _) as [[]|]; [|done].
    apply (idle_same s); [apply hiddenAfterTransition_same_raf|done].
  - destruct (observed s !! o); [|done].
    apply (idle_same s); [apply onResize_same_raf|done].
  - destruct (mounted s); [|by apply (idle_same s)].
    assert (Hc : idle (runCleanup (set_root r (set_target t s)))).
    { apply (idle_same (set_root r (set_target t s))); [apply runCleanup_same_raf|].
      by apply (idle_same s). }
    destruct Hc as [Hwf' Hrun']. split; [by apply raf_wf_watchTargetRoot|].
    destruct (watchTargetRoot_raf (runCleanup (set_root r (set_target t s))))
      as [(_ & -> & _)|(_ & -> & _)]; done.
  - destruct (mounted s); [|done].
    apply (idle_same s); [apply toggleFunctionalities_same_raf|done].
  - destruct (mounted s); [|done].
    apply (idle_same (runCleanup (resetListeners s))); [done|].
    apply (idle_same (resetListeners s)); [apply runCleanup_same_raf|].
    apply (idle_same s); [apply resetListeners_same_raf|done].
Qed.

Lemma idle_step (e : Event) (s : State) : idle s -> idle (step e s).
Proof.
  intros Hidle. apply (idle_same (handle e s)); [apply flushVisible_same_raf|].
  by apply idle_handle.
Qed.

Lemma idle_initial (window : bool) (dom : gmap nat Element) (now : num) :
  idle (initial window dom now).
Proof.
  split; [|done]. unfold raf_wf, tasks. simpl.
  split; [|split; [|split; [|split; [|split]]]]; try done.
  - by intros j t ?%elem_of_nil.
  - apply NoDup_nil_2.
  - by intros j t k ?%elem_of_nil.
  - apply NoDup_nil_2.
  - by intros e ?%elem_of_nil.
  - intros d. split; [simpl; lia|done].
Qed.

Lemma reachable_idle (s : State) : reachable s -> idle s.
Proof.
  induction 1 as [window dom now|e s _ IH].
  - apply idle_initial.
  - by apply idle_step.
Qed.

Lemma idle_run (es : list Event) (s : State) : idle s -> idle (run es s).
Proof.
  revert s. induction es as [|e es IH]; intros s Hs; [done|].
  simpl. apply IH. by apply idle_step.
Qed.

(** ** At most one sample per direction *)

Lemma inFlight_guard (s : State) (d : Direction) :
  raf_wf s -> inFlight d s ≠ [] -> guard d s = false.
Proof.
  intros (_ & _ & _ & _ & _ & Hg) Hne. destruct (Hg d) as [_ Hnone].
  destruct (guard d s); [|done]. by destruct Hne; apply Hnone.
Qed.

Lemma onScroll_suppressed (s : State) (d : Direction) :
  guard d s = false -> moving d s = true ->
  rafQueue (onScroll s) = rafQueue s /\ nextRaf (onScroll s) = nextRaf s
  /\ guard d (onScroll s) = false.
Proof.
  intros Hg Hm. unfold onScroll.
  destruct (le _ _); [by destruct d|].
  destruct (strict_ne _ _); [|by destruct d].
  destruct d; simpl in Hg, Hm.
  - rewrite Hm, Hg. simpl. by rewrite (lt_not_gt _ _ Hm).
  - rewrite (lt_not_gt _ _ Hm : lt (getScrollTop s) (prevTop s) = false), Hm, Hg.
    by simpl.
Qed.

(** C2. In every reachable state each direction has at most one sample in
    flight.  A scroll event that the handler classifies as moving in a
    direction whose sample is in flight leaves the pending callbacks as they
    are: no second sample is queued and the running one is not restarted. *)
Theorem one_sample_per_direction (s : State) :
  reachable s ->
  (length (inFlight Enter s) ≤ 1 /\ length (inFlight Leave s) ≤ 1)
  /\ forall d : Direction,
       inFlight d s ≠ [] ->
       moving d s = true ->
       rafQueue (onScroll s) = rafQueue s
       /\ forall t : EventTarget,
            rafQueue (step (ScrollEvent t) s) = rafQueue s
            /\ inFlight d (step (ScrollEvent t) s) = inFlight d s.
Proof.
  intros Hreach. destruct (reachable_idle s Hreach) as [Hwf Hrun].
  pose proof Hwf as (_ & _ & _ & _ & _ & Hg).
  split; [split; apply Hg|].
  intros d Hin Hm.
  destruct (onScroll_suppressed s d (inFlight_guard s d Hwf Hin) Hm) as (Hq & _).
  split; [done|]. intros t.
  assert (Hstep : rafQueue (step (ScrollEvent t) s) = rafQueue s
                  /\ rafRunning (step (ScrollEvent t) s) = rafRunning s).
  { unfold step. destruct (flushVisible_raf (handle (ScrollEvent t) s)) as (-> & -> & _).
    simpl. destruct (bool_decide _); [|done]. split; [done|].
    unfold onScroll, captureDelta, requestAnimationFrame. by case_ifs. }
  destruct Hstep as [Hq' Hr']. split; [done|].
  unfold inFlight. by rewrite Hq', Hr'.
Qed.

(** ** What one turn does to the animation-frame state *)

(** The host values a sampler reads do not change during a frame. *)
Definition same_scroll (s s' : State) : Prop :=
  hasWindow s' = hasWindow s /\ root s' = root s /\ clock s' = clock s
  /\ forall r : nat, scrollTop (nodes s' !!! r) = scrollTop (nodes s !!! r).

Lemma same_scroll_refl (s : State) : same_scroll s s.
Proof. by repeat split. Qed.

Lemma same_scroll_trans (s1 s2 s3 : State) :
  same_scroll s1 s2 -> same_scroll s2 s3 -> same_scroll s1 s3.
Proof.
  intros (?&?&?&H12) (?&?&?&H23). repeat split; try congruence.
Qed.

Lemma same_scroll_getScrollTop (s s' : State) :
  same_scroll s s' -> getScrollTop s' = getScrollTop s.
Proof.
  intros (Hw & Hr & _ & Hn). unfold getScrollTop, getRoot. rewrite Hw, Hr.
  destruct (hasWindow s); [|done]. by destruct (root s).
Qed.

Lemma same_scroll_sampledSpeed (a b : num) (s s' : State) :
  same_scroll s s' -> sampledSpeed a b s' = sampledSpeed a b s.
Proof.
  intros Hs. unfold sampledSpeed. rewrite (same_scroll_getScrollTop _ _ Hs).
  by destruct Hs as (_ & _ & -> & _).
Qed.

Lemma assignStyle_same_scroll (el : nat) (styles : Styles) (s : State) :
  same_scroll s (assignStyle el styles s).
Proof.
  unfold assignStyle. repeat split. intros r. simpl.
  destruct (decide (r = el)) as [->|Hne].
  - by rewrite lookup_total_insert_eq.
  - by rewrite lookup_total_insert_ne.
Qed.

Lemma setStyles_same_scroll (styles : Styles) (s : State) :
  same_scroll s (setStyles styles s).
Proof.
  unfold setStyles. destruct (target s); [apply assignStyle_same_scroll|].
  apply same_scroll_refl.
Qed.

Lemma armTransitionEnd_same_scroll (el : nat) (h : option TransitionHandler) (s : State) :
  same_scroll s (armTransitionEnd el h s).
Proof.
  unfold armTransitionEnd. repeat split. intros r. simpl.
  destruct (decide (r = el)) as [->|Hne].
  - by rewrite lookup_total_insert_eq.
  - by rewrite lookup_total_insert_ne.
Qed.

Lemma onHidden_same_scroll (s : State) : same_scroll s (onHidden s).
Proof.
  unfold onHidden.
  pose proof (setStyles_same_scroll (leaveStyles mergedOptions) s) as H1.
  destruct (target _); [|done].
  eapply same_scroll_trans; [exact H1|apply armTransitionEnd_same_scroll].
Qed.

Lemma flushVisible_same_scroll (s : State) : same_scroll s (flushVisible s).
Proof.
  unfold flushVisible. destruct (_ && _); [|apply same_scroll_refl].
  unfold watchVisible. destruct (negb _); [by repeat split|].
  destruct (isVisible _).
  - eapply same_scroll_trans; [|apply setStyles_same_scroll]. by repeat split.
  - eapply same_scroll_trans; [|apply onHidden_same_scroll]. by repeat split.
Qed.

Lemma runTask_same_scroll (t : RafTask) (s : State) : same_scroll s (runTask t s).
Proof.
  destruct t as [|d k a b m]; simpl.
  - unfold restorationCheck. destruct (gt _ _); [|apply same_scroll_refl].
    eapply same_scroll_trans; [|apply setStyles_same_scroll]. by repeat split.
  - unfold rafDelta. destruct (Nat.eqb _ _); [|by repeat split].
    unfold cancelAnimationFrame, onCaptured.
    destruct d; simpl; destruct (ge _ _); by repeat split.
Qed.

Lemma filter_all {A} (P : A -> Prop) `{!forall x, Decision (P x)} (l : list A) :
  (forall x, x ∈ l -> P x) -> filter P l = l.
Proof.
  induction l as [|x l IH]; intros Hall; [done|].
  rewrite filter_cons_True by (apply Hall; by left).
  f_equal. apply IH. intros y Hy. apply Hall. by right.
Qed.

Lemma filter_none {A} (P : A -> Prop) `{!forall x, Decision (P x)} (l : list A) :
  (forall x, x ∈ l -> ~ P x) -> filter P l = [].
Proof.
  induction l as [|x l IH]; intros Hall; [done|].
  rewrite filter_cons_False by (apply Hall; by left).
  apply IH. intros y Hy. apply Hall. by right.
Qed.

(** The next callback of the current frame, with the flush that follows. *)
Definition turn (t : RafTask) (rest : list (nat * RafTask)) (s : State) : State :=
  flushVisible (runTask t (set_rafRunning rest s)).

(** In a well-formed state the [cancelAnimationFrame] of a finishing sampler
    finds nothing to cancel: its handle is the one of a callback that has
    run. *)
Lemma turn_raf (s : State) (j : nat) (t : RafTask) (rest : list (nat * RafTask)) :
  rafRunning s = (j, t) :: rest ->
  raf_wf s ->
  rafRunning (turn t rest s) = rest
  /\ match t with
     | RestoreCheck =>
         rafQueue (turn t rest s) = rafQueue s
         /\ nextRaf (turn t rest s) = nextRaf s
         /\ captured (turn t rest s) = captured s
     | RafDelta d k a b m =>
         if Nat.eqb m CAPTURE_DELTA_FRAME_COUNT then
           rafQueue (turn t rest s) = rafQueue s
           /\ nextRaf (turn t rest s) = nextRaf s
           /\ captured (turn t rest s) = captured s ++ [(k, d, sampledSpeed a b s)]
         else
           rafQueue (turn t rest s)
           = rafQueue s ++ [(nextRaf s, RafDelta d k a b (S m))]
           /\ nextRaf (turn t rest s) = S (nextRaf s)
           /\ captured (turn t rest s) = captured s
     end.
Proof.
  intros Hrun Hwf. unfold turn.
  destruct (flushVisible_raf (runTask t (set_rafRunning rest s))) as (-> & -> & -> & ->).
  destruct t as [|d k a b m]; simpl.
  - by destruct (restorationCheck_same_raf (set_rafRunning rest s)) as (-> & -> & -> & -> & _).
  - unfold rafDelta. destruct (Nat.eqb m CAPTURE_DELTA_FRAME_COUNT); [|done].
    assert (Hclean : forall jt : nat * RafTask, jt ∈ rest ++ rafQueue s -> jt.1 ≠ k).
    { intros [j' t'] Hin Hk. simpl in Hk. subst j'.
      unfold raf_wf, tasks in Hwf. rewrite Hrun in Hwf. simpl in Hwf.
      destruct Hwf as (_ & Hnd & Hf & _).
      destruct (Hf j (RafDelta d k a b m) k) as [_ Hown]; [by left|done|].
      simpl in Hnd. apply NoDup_cons in Hnd as [Hfresh _].
      pose proof (list_elem_of_fmap_2 fst _ _ Hin) as Hk. simpl in Hk.
      assert (k = j) as -> by (apply Hown; simpl; by right).
      by apply Hfresh. }
    assert (sampledSpeed a b (set_rafRunning rest s) = sampledSpeed a b s) as -> by done.
    unfold cancelAnimationFrame, onCaptured.
    destruct d; simpl; destruct (ge _ _); simpl;
      (split; [|split; [|done]]); apply filter_all; intros jt Hjt;
      apply Hclean, elem_of_app; auto.
Qed.

Lemma turn_same_scroll (t : RafTask) (rest : list (nat * RafTask)) (s : State) :
  same_scroll s (turn t rest s).
Proof.
  unfold turn. eapply same_scroll_trans; [|apply flushVisible_same_scroll].
  eapply same_scroll_trans; [|apply runTask_same_scroll]. by repeat split.
Qed.

Lemma raf_wf_turn (s : State) (j : nat) (t : RafTask) (rest : list (nat * RafTask)) :
  rafRunning s = (j, t) :: rest -> raf_wf s -> raf_wf (turn t rest s).
Proof.
  intros Hrun Hwf. unfold turn.
  eapply raf_wf_same; [apply flushVisible_same_raf|]. by apply (raf_wf_runTask s j).
Qed.

(** Induction over the callbacks of a frame. *)
Lemma runCallbacks_invariant (I : State -> Prop) :
  (forall s j t rest, rafRunning s = (j, t) :: rest -> I s -> I (turn t rest s)) ->
  forall fuel s, I s -> I (runCallbacks fuel s).
Proof.
  intros Hturn. induction fuel as [|fuel IH]; intros s HI; simpl; [done|].
  destruct (rafRunning s) as [|[j t] rest] eqn:Hrun; [done|].
  apply IH. by apply (Hturn s j).
Qed.

(** ** The life of one velocity sample *)

Definition isFrame (e : Event) : bool :=
  match e with AnimationFrame => true | _ => false end.

Fixpoint frames (es : list Event) : nat :=
  match es with
  | [] => 0
  | e :: es' => (if isFrame e then 1 else 0) + frames es'
  end.

(** What sampler [k] has reported so far, and its pending callbacks. *)
Definition reported (k : nat) (s : State) : list (nat * Direction * num) :=
  filter (fun e : nat * Direction * num => e.1.1 = k) (captured s).

Definition pendingOf (k : nat) (q : list (nat * RafTask)) : list (nat * RafTask) :=
  filter (fun jt : nat * RafTask => rafIdOf jt.2 = Some k) q.

Lemma pendingOf_app k q1 q2 : pendingOf k (q1 ++ q2) = pendingOf k q1 ++ pendingOf k q2.
Proof. apply filter_app. Qed.

Lemma pendingOf_other k j t :
  rafIdOf t ≠ Some k -> pendingOf k [(j, t)] = [].
Proof. intros Hne. unfold pendingOf. by rewrite filter_cons_False. Qed.

Lemma pendingOf_bound k s :
  raf_wf s -> pendingOf k (tasks s) ≠ [] -> k < nextRaf s.
Proof.
  intros Hwf Hne. apply (samplerIds_bound _ _ _ _ _ Hwf).
  destruct (pendingOf k (tasks s)) as [|[j t] l] eqn:Hp; [done|].
  assert (Hin : (j, t) ∈ pendingOf k (tasks s)) by (rewrite Hp; by left).
  apply list_elem_of_filter in Hin as [Hk Hin]. simpl in Hk.
  unfold samplerIds. apply list_elem_of_omap. by exists (j, t).
Qed.

Lemma reported_bound k s :
  raf_wf s -> reported k s ≠ [] -> k < nextRaf s.
Proof.
  intros (_ & _ & _ & _ & Hl & _) Hne.
  destruct (reported k s) as [|e l] eqn:Hr; [done|].
  assert (Hin : e ∈ reported k s) by (rewrite Hr; by left).
  apply list_elem_of_filter in Hin as [Hk Hin]. destruct (Hl e Hin) as [? _]. lia.
Qed.

(** Events other than a frame leave the history alone and request at most
    one callback, which belongs to no sampler or to a new one. *)
Lemma step_other_raf (e : Event) (s : State) :
  isFrame e = false ->
  rafRunning (step e s) = rafRunning s
  /\ captured (step e s) = captured s
  /\ exists new,
       rafQueue (step e s) = rafQueue s ++ new
       /\ forall j t k, (j, t) ∈ new -> rafIdOf t = Some k -> k = nextRaf s.
Proof.
  intros Hframe. unfold step.
  destruct (flushVisible_raf (handle e s)) as (-> & -> & _ & ->).
  assert (Hsame : forall s', same_raf s s' ->
            rafRunning s' = rafRunning s /\ captured s' = captured s
            /\ exists new, rafQueue s' = rafQueue s ++ new
                 /\ forall j t k, (j, t) ∈ new -> rafIdOf t = Some k -> k = nextRaf s).
  { intros s' (Hq & Hr & _ & Hc & _). split; [done|]. split; [done|].
    exists []. rewrite app_nil_r. split; [done|]. by intros j t k ?%elem_of_nil. }
  destruct e as [el y|el l|t|t| |el|o|t r| |]; simpl; try discriminate;
    try (by apply Hsame).
  - destruct (bool_decide _); [|by apply Hsame].
    unfold onScroll.
    destruct (le _ _); [by apply Hsame|].
    destruct (strict_ne _ _); [|by apply Hsame].
    destruct (lt _ _ && captureEnterDelta s).
    { split; [done|]. split; [done|]. eexists. split; [reflexivity|].
      intros j t' k Hin%list_elem_of_singleton Hk. injection Hin as -> ->.
      by injection Hk as <-. }
    destruct (gt _ _ && captureLeaveDelta s); [|by apply Hsame].
    split; [done|]. split; [done|]. eexists. split; [reflexivity|].
    intros j t' k Hin%list_elem_of_singleton Hk. injection Hin as -> ->.
    by injection Hk as <-.
  - destruct (ontransitionend _) as [[]|]; [|by apply Hsame].
    apply Hsame, hiddenAfterTransition_same_raf.
  - destruct (observed s !! o); [|by apply Hsame]. apply Hsame, onResize_same_raf.
  - destruct (mounted s); [|by apply Hsame].
    set (s1 := runCleanup (set_root r (set_target t s))).
    assert (H1 : same_raf s s1).
    { apply (same_raf_trans _ (set_root r (set_target t s))); [done|].
      apply runCleanup_same_raf. }
    destruct (watchTargetRoot_raf s1) as [H2|(Hq & Hr & _ & Hc & _)].
    + apply Hsame. by apply (same_raf_trans _ s1).
    + destruct H1 as (Hq1 & Hr1 & Hn1 & Hc1 & _).
      rewrite Hq, Hr, Hc, Hq1, Hr1, Hn1, Hc1. split; [done|]. split; [done|].
      eexists. split; [reflexivity|].
      intros j t' k Hin%list_elem_of_singleton Hk. by injection Hin as -> ->.
  - destruct (mounted s); [|by apply Hsame]. apply Hsame, toggleFunctionalities_same_raf.
  - destruct (mounted s); [|by apply Hsame]. apply Hsame.
    apply (same_raf_trans _ (runCleanup (resetListeners s))); [|done].
    apply (same_raf_trans _ (resetListeners s));
      [apply resetListeners_same_raf|apply runCleanup_same_raf].
Qed.

Lemma run_cons (e : Event) (es : list Event) (s : State) :
  run (e :: es) s = run es (step e s).
Proof. reflexivity. Qed.

Lemma run_app (es1 es2 : list Event) (s : State) :
  run (es1 ++ es2) s = run es2 (run es1 s).
Proof. apply fold_left_app. Qed.

Section Sampler.

(** A sampler: its direction, the handle it remembers, and the time and
    offset at which it started. *)
Variables (d : Direction) (k : nat) (startMs startY : num).

Inductive Phase :=
| Sampling (frameCount : nat)
| Reported (value : num).

(** Between events: the sampler has one pending callback and has reported
    nothing, or it has reported once and has no pending callback. *)
Definition at_phase (p : Phase) (s : State) : Prop :=
  match p with
  | Sampling m =>
      reported k s = []
      /\ exists j, pendingOf k (tasks s) = [(j, RafDelta d k startMs startY m)]
  | Reported v =>
      reported k s = [(k, d, v)] /\ pendingOf k (tasks s) = []
  end.

Lemma at_phase_bound (p : Phase) (s : State) :
  raf_wf s -> at_phase p s -> k < nextRaf s.
Proof.
  intros Hwf Hp. destruct p as [m|v]; simpl in Hp.
  - destruct Hp as [_ [j Hj]]. apply pendingOf_bound; [done|]. by rewrite Hj.
  - destruct Hp as [Hr _]. apply reported_bound; [done|]. by rewrite Hr.
Qed.

Lemma at_phase_step_other (p : Phase) (e : Event) (s : State) :
  isFrame e = false -> idle s -> at_phase p s -> at_phase p (step e s).
Proof.
  intros He [Hwf Hrun] Hp.
  pose proof (at_phase_bound p s Hwf Hp) as Hk.
  destruct (step_other_raf e s He) as (Hr & Hc & new & Hq & Hnew).
  assert (Hpend : pendingOf k (tasks (step e s)) = pendingOf k (tasks s)).
  { unfold tasks. rewrite Hr, Hq, !pendingOf_app.
    assert (pendingOf k new = []) as ->; [|by rewrite app_nil_r].
    apply filter_none. intros [j t] Hin Hid. simpl in Hid.
    specialize (Hnew j t k Hin Hid). lia. }
  destruct p as [m|v]; simpl in *; unfold reported in *; by rewrite Hc, Hpend.
Qed.

(** During a frame that starts in [s0] with the sampler at frame count
    [m]: its callback is still to run, or it has run. *)
Definition during_frame (s0 : State) (m : nat) (s : State) : Prop :=
  raf_wf s /\ same_scroll s0 s
  /\ ((reported k s = []
       /\ (exists j, pendingOf k (rafRunning s) = [(j, RafDelta d k startMs startY m)])
       /\ pendingOf k (rafQueue s) = [])
      \/ (pendingOf k (rafRunning s) = []
          /\ if Nat.eqb m CAPTURE_DELTA_FRAME_COUNT then
               reported k s = [(k, d, sampledSpeed startMs startY s0)]
               /\ pendingOf k (rafQueue s) = []
             else
               reported k s = []
               /\ exists j, pendingOf k (rafQueue s)
                            = [(j, RafDelta d k startMs startY (S m))])).

Lemma during_frame_turn (s0 : State) (m : nat) (s : State) (j : nat) (t : RafTask)
    (rest : list (nat * RafTask)) :
  rafRunning s = (j, t) :: rest ->
  during_frame s0 m s -> during_frame s0 m (turn t rest s).
Proof.
  intros Hrun (Hwf & Henv & Hcase).
  destruct (turn_raf s j t rest Hrun Hwf) as [Hr Heff].
  split; [by apply (raf_wf_turn s j)|].
  split; [eapply same_scroll_trans; [exact Henv|apply turn_same_scroll]|].
  rewrite Hr. unfold pendingOf in Hcase. rewrite Hrun, filter_cons in Hcase.
  simpl in Hcase. fold (pendingOf k rest) in Hcase.
  fold (pendingOf k (rafQueue s)) in Hcase.
  destruct (decide (rafIdOf t = Some k)) as [Hmine|Hother].
  - (* the sampler's own callback *)
    destruct Hcase as [(Hrep & [j' Hp] & Hq)|[Hp _]]; [|done].
    injection Hp as -> -> Hrest. right. split; [done|].
    destruct (Nat.eqb m CAPTURE_DELTA_FRAME_COUNT).
    + destruct Heff as (-> & _ & Hc). split; [|done].
      unfold reported in *. rewrite Hc, filter_app, Hrep. simpl.
      rewrite filter_cons_True, filter_nil by done.
      by rewrite (same_scroll_sampledSpeed _ _ _ _ Henv).
    + destruct Heff as (-> & _ & Hc). split; [by unfold reported in *; rewrite Hc|].
      exists (nextRaf s). rewrite pendingOf_app, Hq. simpl.
      unfold pendingOf. by rewrite filter_cons_True, filter_nil.
  - (* another callback *)
    assert (Hkeep : reported k (turn t rest s) = reported k s
                    /\ pendingOf k (rafQueue (turn t rest s)) = pendingOf k (rafQueue s)).
    { destruct t as [|d' k' a' b' m']; [by destruct Heff as (-> & _ & Hc);
                                         unfold reported; rewrite Hc|].
      simpl in Hother. destruct (Nat.eqb m' CAPTURE_DELTA_FRAME_COUNT).
      - destruct Heff as (-> & _ & Hc). split; [|done].
        unfold reported. rewrite Hc, filter_app, filter_cons_False, filter_nil.
        + by rewrite app_nil_r.
        + simpl. congruence.
      - destruct Heff as (-> & _ & Hc). split; [by unfold reported; rewrite Hc|].
        rewrite pendingOf_app, pendingOf_other, app_nil_r; [done|]. simpl. congruence. }
    destruct Hkeep as [-> ->]. done.
Qed.

Lemma at_phase_frame_sampling (m : nat) (s : State) :
  idle s -> at_phase (Sampling m) s ->
  at_phase (if Nat.eqb m CAPTURE_DELTA_FRAME_COUNT
            then Reported (sampledSpeed startMs startY s) else Sampling (S m))
           (step AnimationFrame s).
Proof.
  intros [Hwf Hrun] [Hrep [j Hp]].
  set (s1 := set_rafRunning (rafQueue s) (set_rafQueue [] s)).
  assert (Hstart : during_frame s m s1).
  { split; [|split; [by repeat split|]].
    - unfold raf_wf, tasks in *. simpl. rewrite Hrun in Hwf. by rewrite app_nil_r.
    - left. unfold tasks in Hp. rewrite Hrun in Hp. simpl in Hp.
      split; [done|]. split; [by exists j|done]. }
  pose proof (runCallbacks_invariant (during_frame s m)
                (fun s' j' t' rest' => during_frame_turn s m s' j' t' rest')
                (length (rafQueue s)) s1 Hstart) as (_ & _ & Hend).
  assert (Hdrained : rafRunning (runCallbacks (length (rafQueue s)) s1) = [])
    by (by apply runCallbacks_drains).
  change (runCallbacks (length (rafQueue s)) s1) with (animationFrame s) in Hend, Hdrained.
  assert (Hfl : reported k (step AnimationFrame s) = reported k (animationFrame s)
                /\ tasks (step AnimationFrame s) = rafQueue (animationFrame s)).
  { unfold step, reported, tasks. simpl.
    destruct (flushVisible_raf (animationFrame s)) as (-> & -> & _ & ->).
    by rewrite Hdrained. }
  destruct Hfl as [Hfr Hft].
  rewrite Hdrained in Hend.
  destruct Hend as [(_ & [j' Hj'] & _)|[_ Hend]]; [done|].
  destruct (Nat.eqb m CAPTURE_DELTA_FRAME_COUNT); simpl; by rewrite Hfr, Hft.
Qed.





Lemma at_phase_run_sampling (m : nat) (es : list Event) (s : State) :
  idle s -> at_phase (Sampling m) s ->
  m + frames es ≤ CAPTURE_DELTA_FRAME_COUNT ->
  at_phase (Sampling (m + frames es)) (run es s).
Proof.
  revert m s. induction es as [|e es IH]; intros m s Hidle Hp Hle.
  - cbn [frames run fold_left]. by rewrite Nat.add_0_r.
  - rewrite run_cons. cbn [frames] in *. destruct (isFrame e) eqn:He.
    + destruct e; try discriminate.
      pose proof (at_phase_frame_sampling m s Hidle Hp) as Hnext.
      destruct (Nat.eqb_spec m CAPTURE_DELTA_FRAME_COUNT) as [->|Hne]; [lia|].
      replace (m + (1 + frames es)) with (S m + frames es) by lia.
      apply IH; [by apply idle_step|done|lia].
    + apply IH; [by apply idle_step|by apply at_phase_step_other|done].
Qed.

End Sampler.

Lemma filter_unique {A B} `{!EqDecision B} (f : A -> option B) (b : B) (x : A)
    (l : list A) :
  NoDup (omap f l) -> x ∈ l -> f x = Some b ->
  filter (fun y => f y = Some b) l = [x].
Proof.
  induction l as [|y l IH]; intros Hnd Hin Hx; [by apply elem_of_nil in Hin|].
  simpl in Hnd. apply elem_of_cons in Hin as [->|Hin].
  - rewrite Hx in Hnd. apply NoDup_cons in Hnd as [Hfresh _].
    rewrite filter_cons_True by done. f_equal.
    apply filter_none. intros z Hz Hfz. apply Hfresh.
    apply list_elem_of_omap. by exists z.
  - destruct (f y) as [b'|] eqn:Hy.
    + apply NoDup_cons in Hnd as [Hfresh Hnd].
      rewrite filter_cons_False; [by apply IH|].
      rewrite Hy. intros [= ->]. apply Hfresh.
      apply list_elem_of_omap. by exists x.
    + rewrite filter_cons_False; [by apply IH|]. by rewrite Hy.
Qed.

(** A sampler whose callback is pending has reported nothing, and that
    callback is its only one. *)
Lemma pending_sampling (s : State) (d : Direction) (j k : nat) (a b : num) (m : nat) :
  raf_wf s ->
  (j, RafDelta d k a b m) ∈ tasks s ->
  at_phase d k a b (Sampling m) s.
Proof.
  intros (_ & _ & _ & Hs & Hl & _) Hin. split.
  - apply filter_none. intros e He Hk. destruct (Hl e He) as [_ Hno].
    apply Hno. rewrite Hk. unfold samplerIds. apply list_elem_of_omap.
    by exists (j, RafDelta d k a b m).
  - exists j. unfold pendingOf.
    by apply (filter_unique (fun jt : nat * RafTask => rafIdOf jt.2)).
Qed.

Lemma reachable_run (es : list Event) (s : State) :
  reachable s -> reachable (run es s).
Proof.
  revert s. induction es as [|e es IH]; intros s Hs; [done|].
  rewrite run_cons. apply IH. by constructor.
Qed.


(** ** Scroll restoration on mount *)

Lemma isFixed_ext (s s' : State) :
  target s' = target s -> nodes s' = nodes s -> isFixed s' = isFixed s.
Proof. intros Ht Hn. unfold isFixed. by rewrite Ht, Hn. Qed.

Lemma resetListeners_target_nodes (s : State) :
  target (resetListeners s) = target s /\ nodes (resetListeners s) = nodes s.
Proof. unfold_lifecycle. by case_ifs. Qed.

Lemma runCleanup_target_nodes (s : State) :
  target (runCleanup s) = target s /\ nodes (runCleanup s) = nodes s.
Proof.
  unfold runCleanup. destruct (cleanup s); [|done]. simpl.
  apply resetListeners_target_nodes.
Qed.

Lemma addResizeObserver_target_nodes (s : State) :
  target (addResizeObserver s) = target s /\ nodes (addResizeObserver s) = nodes s.
Proof. unfold_lifecycle. by case_ifs. Qed.



(** ** Teardown *)

Lemma toggleScollListener_remove (s : State) :
  hasWindow s = true ->
  isListeningScroll (toggleScollListener true s) = false
  /\ (forall r, getRoot s = Some r ->
        scrollRootOf r ∉ scrollListeners (toggleScollListener true s)).
Proof.
  intros Hw. unfold toggleScollListener, getRoot. rewrite Hw.
  destruct (root s); simpl; (split; [done|]); intros r' [= <-];
    apply not_elem_of_difference; right; by apply elem_of_singleton.
Qed.


(** Calling [resetListeners] again changes nothing. *)
Lemma resetListeners_idempotent (s : State) :
  resetListeners (resetListeners s) = resetListeners s.
Proof.
  destruct s as [w nd ck tg rt ls q rr n ob no v li ce cl pt sk ro cu wv mo ca].
  destruct w, rt as [r|], ro as [o|];
    cbv [resetListeners disconnectResizeObserver toggleScollListener getRoot
         set_isVisible set_observed set_isListeningScroll set_scrollListeners
         hasWindow root resizeObserver observed scrollListeners negb
         nodes clock target rafQueue rafRunning nextRaf nextObserver isVisible
         isListeningScroll captureEnterDelta captureLeaveDelta prevTop skipInitial
         cleanup watchedVisible mounted captured];
    rewrite ?delete_delete_eq, ?difference_twice_L; reflexivity.
Qed.

Lemma resetListeners_iterate (n : nat) (s : State) :
  Nat.iter (S n) resetListeners s = resetListeners s.
Proof.
  induction n as [|n IH]; [done|].
  change (Nat.iter (S (S n)) resetListeners s)
    with (resetListeners (Nat.iter (S n) resetListeners s)).
  by rewrite IH, resetListeners_idempotent.
Qed.

Lemma handle_ChangeRefs (t r : option nat) (s : State) :
  handle (ChangeRefs t r) s
  = if mounted s then watchTargetRoot (runCleanup (set_root r (set_target t s)))
    else set_root r (set_target t s).
Proof. reflexivity. Qed.




(** ** The frame after a mount *)











(** ** The inline properties the composable writes *)

(** The properties [removeStyles] names: the keys of the enter and leave
    styles, and [visibility]. *)
Definition managed (k : string) : Prop :=
  is_Some (enterStyles mergedOptions !! k)
  \/ is_Some (leaveStyles mergedOptions !! k)
  \/ k = "visibility".

(** A style object that names managed properties only. *)
Definition managedOnly (styles : Styles) : Prop :=
  forall k, is_Some (styles !! k) -> managed k.

Lemma managedOnly_leave : managedOnly (leaveStyles mergedOptions).
Proof. intros k Hk. right. by left. Qed.

Lemma managedOnly_hidden : managedOnly VISIBILITY_HIDDEN.
Proof.
  intros k [v Hk]. right. right. unfold VISIBILITY_HIDDEN in Hk.
  apply lookup_singleton_Some in Hk as [<- _]. done.
Qed.

Lemma managedOnly_visible : managedOnly VISIBILITY_VISIBLE.
Proof.
  intros k [v Hk]. right. right. unfold VISIBILITY_VISIBLE in Hk.
  apply lookup_singleton_Some in Hk as [<- _]. done.
Qed.

Lemma managedOnly_spread (a b : Styles) :
  managedOnly a -> managedOnly b -> managedOnly (spread a b).
Proof.
  intros Ha Hb k Hk. unfold spread in Hk.
  apply lookup_union_is_Some in Hk as [Hk|Hk]; auto.
Qed.

Lemma managedOnly_enter_visible :
  managedOnly (spread (enterStyles mergedOptions) VISIBILITY_VISIBLE).
Proof.
  apply managedOnly_spread; [|apply managedOnly_visible]. intros k Hk. by left.
Qed.

Lemma managedOnly_leave_hidden :
  managedOnly (spread (leaveStyles mergedOptions) VISIBILITY_HIDDEN).
Proof.
  apply managedOnly_spread; [apply managedOnly_leave|apply managedOnly_hidden].
Qed.

(** Two states whose elements agree on every property that is not
    managed. *)
Definition same_unmanaged (s s' : State) : Prop :=
  forall (el : nat) (k : string),
    ~ managed k -> style (nodes s' !!! el) !! k = style (nodes s !!! el) !! k.

Lemma same_unmanaged_refl (s : State) : same_unmanaged s s.
Proof. by intros el k _. Qed.

Lemma same_unmanaged_trans (s1 s2 s3 : State) :
  same_unmanaged s1 s2 -> same_unmanaged s2 s3 -> same_unmanaged s1 s3.
Proof. intros H12 H23 el k Hk. by rewrite (H23 el k Hk), (H12 el k Hk). Qed.

Lemma same_unmanaged_nodes (s s' : State) : nodes s' = nodes s -> same_unmanaged s s'.
Proof. intros Hn el k _. by rewrite Hn. Qed.

Lemma assignStyle_lookup (el x : nat) (styles : Styles) (s : State) (k : string) :
  style (nodes (assignStyle el styles s) !!! x) !! k
  = if decide (x = el) then
      match styles !! k with
      | Some v => Some v
      | None => style (nodes s !!! el) !! k
      end
    else style (nodes s !!! x) !! k.
Proof.
  unfold assignStyle. simpl. destruct (decide (x = el)) as [->|Hne].
  - rewrite lookup_total_insert_eq. simpl. rewrite lookup_union.
    by destruct (styles !! k), (style (nodes s !!! el) !! k).
  - by rewrite lookup_total_insert_ne.
Qed.

Lemma setStyles_unmanaged (styles : Styles) (s : State) :
  managedOnly styles -> same_unmanaged s (setStyles styles s).
Proof.
  intros Hm x k Hk. unfold setStyles. destruct (target s) as [el|]; [|done].
  rewrite assignStyle_lookup. destruct (decide (x = el)) as [->|]; [|done].
  destruct (styles !! k) as [v|] eqn:Hv; [|done].
  destruct Hk. apply Hm. by exists v.
Qed.

Lemma armTransitionEnd_style (el x : nat) (h : option TransitionHandler) (s : State) :
  style (nodes (armTransitionEnd el h s) !!! x) = style (nodes s !!! x).
Proof.
  unfold armTransitionEnd. simpl. destruct (decide (x = el)) as [->|Hne].
  - by rewrite lookup_total_insert_eq.
  - by rewrite lookup_total_insert_ne.
Qed.

Lemma armTransitionEnd_unmanaged (el : nat) (h : option TransitionHandler) (s : State) :
  same_unmanaged s (armTransitionEnd el h s).
Proof. intros x k _. by rewrite armTransitionEnd_style. Qed.

Lemma removeStyles_lookup (s : State) (el : nat) (k : string) :
  target s = Some el ->
  (managed k -> style (nodes (removeStyles s) !!! el) !! k = None)
  /\ (~ managed k ->
      style (nodes (removeStyles s) !!! el) !! k = style (nodes s !!! el) !! k).
Proof.
  intros Ht. unfold removeStyles. rewrite Ht. simpl.
  rewrite lookup_total_insert_eq. simpl. split.
  - intros [Hk|[Hk| ->]]; [| |apply lookup_delete_eq].
    + destruct (decide ("visibility" = k)) as [<-|Hne]; [apply lookup_delete_eq|].
      rewrite lookup_delete_ne by done. apply lookup_difference_None. right.
      unfold spread. apply lookup_union_is_Some. by right.
    + destruct (decide ("visibility" = k)) as [<-|Hne]; [apply lookup_delete_eq|].
      rewrite lookup_delete_ne by done. apply lookup_difference_None. right.
      unfold spread. apply lookup_union_is_Some. by left.
  - intros Hk.
    assert (Hv : "visibility" ≠ k) by (intros <-; apply Hk; right; by right).
    rewrite lookup_delete_ne, lookup_difference by done.
    assert (spread (enterStyles mergedOptions) (leaveStyles mergedOptions) !! k = None)
      as ->; [|done].
    unfold spread. apply lookup_union_None. split.
    + destruct (leaveStyles mergedOptions !! k) eqn:E; [|done].
      destruct Hk. right. left. by eexists.
    + destruct (enterStyles mergedOptions !! k) eqn:E; [|done].
      destruct Hk. left. by eexists.
Qed.

Lemma removeStyles_unmanaged (s : State) : same_unmanaged s (removeStyles s).
Proof.
  intros x k Hk. destruct (target s) as [el|] eqn:Ht.
  - destruct (decide (x = el)) as [->|Hne].
    + by apply removeStyles_lookup.
    + unfold removeStyles. rewrite Ht. simpl. by rewrite lookup_total_insert_ne.
  - unfold removeStyles. by rewrite Ht.
Qed.


(** X2. [onVisible] gives the target the visible visibility and the value of
    every enter property; any other inline property, one written by the
    leave styles included, keeps its value.  [onHidden] gives the target the
    value of every leave property and keeps every other one: it does not
    set the visibility unless the leave styles name it. *)
Theorem show_hide_assign (s : State) (el : nat) :
  target s = Some el ->
  (style (nodes (onVisible s) !!! el) !! "visibility" = Some "visible"
   /\ (forall k v, k ≠ "visibility" -> enterStyles mergedOptions !! k = Some v ->
         style (nodes (onVisible s) !!! el) !! k = Some v)
   /\ (forall k, k ≠ "visibility" -> enterStyles mergedOptions !! k = None ->
         style (nodes (onVisible s) !!! el) !! k = style (nodes s !!! el) !! k))
  /\ ((forall k v, leaveStyles mergedOptions !! k = Some v ->
         style (nodes (onHidden s) !!! el) !! k = Some v)
      /\ (forall k, leaveStyles mergedOptions !! k = None ->
            style (nodes (onHidden s) !!! el) !! k = style (nodes s !!! el) !! k)).
Proof.
  intros Ht. split.
  - assert (Hl : forall k, style (nodes (onVisible s) !!! el) !! k
                 = match spread (enterStyles mergedOptions) VISIBILITY_VISIBLE !! k with
                   | Some v => Some v
                   | None => style (nodes s !!! el) !! k
                   end).
    { intros k. unfold onVisible, setStyles. rewrite Ht, assignStyle_lookup.
      by rewrite decide_True. }
    split; [|split].
    + rewrite Hl. unfold spread, VISIBILITY_VISIBLE.
      by rewrite (lookup_union_Some_l _ _ _ "visible") by apply lookup_singleton_eq.
    + intros k v Hk Hv. rewrite Hl. unfold spread, VISIBILITY_VISIBLE.
      rewrite lookup_union_r by (by apply lookup_singleton_ne). by rewrite Hv.
    + intros k Hk Hv. rewrite Hl. unfold spread, VISIBILITY_VISIBLE.
      rewrite lookup_union_r by (by apply lookup_singleton_ne). by rewrite Hv.
  - assert (Hl : forall k, style (nodes (onHidden s) !!! el) !! k
                 = match leaveStyles mergedOptions !! k with
                   | Some v => Some v
                   | None => style (nodes s !!! el) !! k
                   end).
    { intros k. unfold onHidden.
      assert (Htt : target (setStyles (leaveStyles mergedOptions) s) = Some el)
        by (unfold setStyles; rewrite Ht; exact Ht).
      rewrite Htt, armTransitionEnd_style. unfold setStyles.
      rewrite Ht, assignStyle_lookup. by rewrite decide_True. }
    split.
    + intros k v Hv. by rewrite Hl, Hv.
    + intros k Hv. by rewrite Hl, Hv.
Qed.

(** ** Only managed properties are ever written *)

#[local] Instance managed_dec (k : string) : Decision (managed k).
Proof. unfold managed. apply _. Defined.

Lemma onScroll_nodes (s : State) : nodes (onScroll s) = nodes s.
Proof.
  unfold onScroll, captureDelta, requestAnimationFrame.
  destruct (le _ _); [done|]. destruct (strict_ne _ _); [|done].
  destruct (_ && _); [done|]. by destruct (_ && _).
Qed.

Lemma rafDelta_nodes (d : Direction) (k : nat) (a b : num) (m : nat) (s : State) :
  nodes (rafDelta d k a b m s) = nodes s.
Proof.
  unfold rafDelta, cancelAnimationFrame, onCaptured, requestAnimationFrame.
  destruct (Nat.eqb _ _); [|done]. destruct d; simpl; by destruct (ge _ _).
Qed.

Lemma toggleScollListener_nodes (b : bool) (s : State) :
  nodes (toggleScollListener b s) = nodes s /\ target (toggleScollListener b s) = target s.
Proof. unfold toggleScollListener. by destruct (getRoot s). Qed.

Lemma watchTargetRoot_nodes (s : State) : nodes (watchTargetRoot s) = nodes s.
Proof.
  unfold watchTargetRoot.
  destruct (addResizeObserver_target_nodes (set_cleanup true s)) as [_ Hn].
  destruct (negb _); [by rewrite Hn|].
  destruct (toggleScollListener_nodes false
              (onInstantScrollRestoration (addResizeObserver (set_cleanup true s))))
    as [-> _].
  unfold onInstantScrollRestoration, requestAnimationFrame. simpl. by rewrite Hn.
Qed.

Lemma restorationCheck_unmanaged (s : State) : same_unmanaged s (restorationCheck s).
Proof.
  unfold restorationCheck. destruct (gt _ _); [|apply same_unmanaged_refl].
  apply (same_unmanaged_trans _ (set_isVisible false s)); [by apply same_unmanaged_nodes|].
  apply setStyles_unmanaged, managedOnly_leave_hidden.
Qed.

Lemma onHidden_unmanaged (s : State) : same_unmanaged s (onHidden s).
Proof.
  unfold onHidden.
  pose proof (setStyles_unmanaged _ s managedOnly_leave) as H1.
  destruct (target _); [|done].
  eapply same_unmanaged_trans; [exact H1|apply armTransitionEnd_unmanaged].
Qed.

Lemma flushVisible_unmanaged (s : State) : same_unmanaged s (flushVisible s).
Proof.
  unfold flushVisible. destruct (_ && _); [|apply same_unmanaged_refl].
  unfold watchVisible. destruct (negb _); [by apply same_unmanaged_nodes|].
  apply (same_unmanaged_trans _ (set_watchedVisible (isVisible s) s));
    [by apply same_unmanaged_nodes|].
  destruct (isVisible _).
  - apply setStyles_unmanaged, managedOnly_enter_visible.
  - apply onHidden_unmanaged.
Qed.

Lemma hiddenAfterTransition_unmanaged (el : nat) (s : State) :
  same_unmanaged s (hiddenAfterTransition el s).
Proof.
  unfold hiddenAfterTransition.
  eapply same_unmanaged_trans; [|apply armTransitionEnd_unmanaged].
  destruct (negb _); [|apply same_unmanaged_refl].
  apply setStyles_unmanaged, managedOnly_hidden.
Qed.

Lemma toggleFunctionalities_unmanaged (s : State) :
  same_unmanaged s (toggleFunctionalities s).
Proof.
  unfold toggleFunctionalities. destruct (isListeningScroll s).
  - destruct (negb _); [|apply same_unmanaged_refl].
    apply (same_unmanaged_trans _ (removeStyles s)); [apply removeStyles_unmanaged|].
    apply same_unmanaged_nodes. apply toggleScollListener_nodes.
  - destruct (isFixed s); [|apply same_unmanaged_refl].
    apply same_unmanaged_nodes. apply toggleScollListener_nodes.
Qed.

Lemma runTask_unmanaged (t : RafTask) (s : State) : same_unmanaged s (runTask t s).
Proof.
  destruct t as [|d k a b m]; simpl; [apply restorationCheck_unmanaged|].
  apply same_unmanaged_nodes, rafDelta_nodes.
Qed.

Lemma animationFrame_unmanaged (s : State) : same_unmanaged s (animationFrame s).
Proof.
  unfold animationFrame.
  apply (runCallbacks_invariant (same_unmanaged s)); [|by apply same_unmanaged_nodes].
  intros s' j t rest _ Hs'. unfold turn.
  apply (same_unmanaged_trans _ s'); [exact Hs'|].
  apply (same_unmanaged_trans _ (runTask t (set_rafRunning rest s')));
    [|apply flushVisible_unmanaged].
  apply (same_unmanaged_trans _ (set_rafRunning rest s'));
    [by apply same_unmanaged_nodes|apply runTask_unmanaged].
Qed.

Lemma set_elem_unmanaged (el : nat) (e : Element) (s : State) :
  style e = style (nodes s !!! el) ->
  same_unmanaged s (set_nodes (<[ el := e ]> (nodes s)) s).
Proof.
  intros He x k _. simpl. destruct (decide (x = el)) as [->|Hne].
  - by rewrite lookup_total_insert_eq, He.
  - by rewrite lookup_total_insert_ne.
Qed.

Lemma handle_unmanaged (e : Event) (s : State) : same_unmanaged s (handle e s).
Proof.
  destruct e as [el y|el l|t|t| |el|o|t r| |]; cbn [handle].
  - by apply set_elem_unmanaged.
  - by apply set_elem_unmanaged.
  - by apply same_unmanaged_nodes.
  - destruct (bool_decide _); [|apply same_unmanaged_refl].
    apply same_unmanaged_nodes, onScroll_nodes.
  - apply animationFrame_unmanaged.
  - destruct (ontransitionend _) as [[]|]; [|apply same_unmanaged_refl].
    apply hiddenAfterTransition_unmanaged.
  - destruct (observed s !! o); [|apply same_unmanaged_refl].
    unfold onResize. destruct (skipInitial s); [by apply same_unmanaged_nodes|].
    apply toggleFunctionalities_unmanaged.
  - destruct (mounted s); [|by apply same_unmanaged_nodes].
    apply same_unmanaged_nodes. rewrite watchTargetRoot_nodes.
    by destruct (runCleanup_target_nodes (set_root r (set_target t s))) as [_ ->].
  - destruct (mounted s); [|apply same_unmanaged_refl].
    apply toggleFunctionalities_unmanaged.
  - destruct (mounted s); [|apply same_unmanaged_refl].
    apply same_unmanaged_nodes. simpl.
    destruct (runCleanup_target_nodes (resetListeners s)) as [_ ->].
    apply resetListeners_target_nodes.
Qed.

Lemma step_unmanaged (e : Event) (s : State) : same_unmanaged s (step e s).
Proof.
  unfold step. eapply same_unmanaged_trans; [apply handle_unmanaged|].
  apply flushVisible_unmanaged.
Qed.

Lemma run_unmanaged (es : list Event) (s : State) : same_unmanaged s (run es s).
Proof.
  revert s. induction es as [|e es IH]; intros s; [apply same_unmanaged_refl|].
  rewrite run_cons. eapply same_unmanaged_trans; [apply step_unmanaged|apply IH].
Qed.

(** X3. Along every run, whatever the events, the composable writes only
    the managed properties: an inline property that is neither an enter
    key, nor a leave key, nor [visibility] has, on every element, the value
    it had at the start. *)
Theorem only_managed_written (es : list Event) (s : State) (el : nat) (k : string) :
  ~ managed k ->
  style (nodes (run es s) !!! el) !! k = style (nodes s !!! el) !! k.
Proof. intros Hk. by apply run_unmanaged. Qed.


(** ** Listeners and observers along every run *)

(** Two states with the same refs, listeners, observers and watcher
    bookkeeping. *)
Definition same_lifecycle (s s' : State) : Prop :=
  hasWindow s' = hasWindow s /\ root s' = root s /\ target s' = target s
  /\ scrollListeners s' = scrollListeners s
  /\ isListeningScroll s' = isListeningScroll s
  /\ observed s' = observed s /\ nextObserver s' = nextObserver s
  /\ resizeObserver s' = resizeObserver s
  /\ cleanup s' = cleanup s /\ mounted s' = mounted s
  /\ skipInitial s' = skipInitial s.

Lemma same_lifecycle_refl (s : State) : same_lifecycle s s.
Proof. by repeat split. Qed.

Lemma same_lifecycle_trans (s1 s2 s3 : State) :
  same_lifecycle s1 s2 -> same_lifecycle s2 s3 -> same_lifecycle s1 s3.
Proof.
  intros (?&?&?&?&?&?&?&?&?&?&?) (?&?&?&?&?&?&?&?&?&?&?).
  repeat split; congruence.
Qed.

Ltac solve_same_lifecycle :=
  unfold same_lifecycle; unfold_lifecycle; case_ifs; by repeat split.

Lemma flushVisible_same_lifecycle (s : State) : same_lifecycle s (flushVisible s).
Proof. solve_same_lifecycle. Qed.

Lemma restorationCheck_same_lifecycle (s : State) :
  same_lifecycle s (restorationCheck s).
Proof. solve_same_lifecycle. Qed.

Lemma hiddenAfterTransition_same_lifecycle (el : nat) (s : State) :
  same_lifecycle s (hiddenAfterTransition el s).
Proof. solve_same_lifecycle. Qed.

Lemma onScroll_same_lifecycle (s : State) : same_lifecycle s (onScroll s).
Proof.
  unfold onScroll, captureDelta, requestAnimationFrame.
  destruct (le _ _); [by repeat split|]. destruct (strict_ne _ _); [|by repeat split].
  destruct (_ && _); [by repeat split|]. destruct (_ && _); by repeat split.
Qed.

Lemma runTask_same_lifecycle (t : RafTask) (s : State) : same_lifecycle s (runTask t s).
Proof.
  destruct t as [|d k a b m]; simpl; [apply restorationCheck_same_lifecycle|].
  unfold rafDelta, cancelAnimationFrame, onCaptured, requestAnimationFrame.
  destruct (Nat.eqb _ _); [|by repeat split].
  destruct d; simpl; destruct (ge _ _); by repeat split.
Qed.

Lemma animationFrame_same_lifecycle (s : State) : same_lifecycle s (animationFrame s).
Proof.
  unfold animationFrame.
  apply (runCallbacks_invariant (same_lifecycle s)); [|by repeat split].
  intros s' j t rest _ Hs'. unfold turn.
  apply (same_lifecycle_trans _ s'); [exact Hs'|].
  apply (same_lifecycle_trans _ (runTask t (set_rafRunning rest s')));
    [|apply flushVisible_same_lifecycle].
  apply (same_lifecycle_trans _ (set_rafRunning rest s'));
    [by repeat split|apply runTask_same_lifecycle].
Qed.

(** Only the last observer created can be connected, and only while the
    watcher's cleanup is registered, which it is only while mounted; the
    listening flag is true only while the cleanup is registered and the
    handler is registered on the scroll root the refs resolve to; before
    the watcher has run there is no target. *)
Definition lifecycle_ok (s : State) : Prop :=
  (cleanup s = true -> mounted s = true)
  /\ (forall o r, observed s !! o = Some r -> resizeObserver s = Some o /\ cleanup s = true)
  /\ (isListeningScroll s = true ->
        cleanup s = true
        /\ exists r, getRoot s = Some r /\ scrollRootOf r ∈ scrollListeners s)
  /\ (mounted s = true -> cleanup s = false -> target s = None).

Lemma getRoot_ext (s s' : State) :
  hasWindow s' = hasWindow s -> root s' = root s -> getRoot s' = getRoot s.
Proof. intros Hw Hr. unfold getRoot. by rewrite Hw, Hr. Qed.

Lemma lifecycle_ok_same (s s' : State) :
  same_lifecycle s s' -> lifecycle_ok s -> lifecycle_ok s'.
Proof.
  intros (Hw & Hr & Ht & Hl & Hi & Ho & _ & Hro & Hc & Hm & _) (J1 & J2 & J3 & J4).
  unfold lifecycle_ok. rewrite (getRoot_ext s s' Hw Hr), Ht, Hl, Hi, Ho, Hro, Hc, Hm.
  split; [exact J1|]. split; [exact J2|]. split; [exact J3|exact J4].
Qed.

Lemma toggleScollListener_add (s : State) (r : nat) :
  getRoot s = Some r ->
  isListeningScroll (toggleScollListener false s) = true
  /\ scrollListeners (toggleScollListener false s) = scrollListeners s ∪ {[ scrollRootOf r ]}
  /\ getRoot (toggleScollListener false s) = Some r.
Proof.
  intros Hr. unfold toggleScollListener. rewrite Hr. simpl.
  split; [done|]. split; [done|]. exact Hr.
Qed.

Lemma toggleScollListener_fields (b : bool) (s : State) :
  hasWindow (toggleScollListener b s) = hasWindow s
  /\ root (toggleScollListener b s) = root s
  /\ target (toggleScollListener b s) = target s
  /\ observed (toggleScollListener b s) = observed s
  /\ nextObserver (toggleScollListener b s) = nextObserver s
  /\ resizeObserver (toggleScollListener b s) = resizeObserver s
  /\ cleanup (toggleScollListener b s) = cleanup s
  /\ mounted (toggleScollListener b s) = mounted s
  /\ skipInitial (toggleScollListener b s) = skipInitial s
  /\ nodes (toggleScollListener b s) = nodes s.
Proof. unfold toggleScollListener. by destruct (getRoot s). Qed.

Lemma toggleScollListener_no_root (b : bool) (s : State) :
  getRoot s = None -> toggleScollListener b s = s.
Proof. intros Hr. unfold toggleScollListener. by rewrite Hr. Qed.

Lemma removeStyles_fields (s : State) :
  same_lifecycle s (removeStyles s) /\ same_raf s (removeStyles s).
Proof. unfold removeStyles. by destruct (target s). Qed.



Lemma lifecycle_ok_toggleFunctionalities (s : State) :
  cleanup s = true -> lifecycle_ok s -> lifecycle_ok (toggleFunctionalities s).
Proof.
  intros Hc Hok. pose proof Hok as (J1 & J2 & J3 & J4). unfold toggleFunctionalities.
  destruct (isListeningScroll s) eqn:Hlis.
  - destruct (negb (isFixed s)); [|exact Hok].
    destruct (J3 eq_refl) as [_ [r [Hr _]]].
    destruct (removeStyles_fields s)
      as [(Hw' & Hr' & Ht' & Hl' & Hi' & Ho' & _ & Hro' & Hc' & Hm' & _) _].
    destruct (toggleScollListener_fields true (removeStyles s))
      as (Hw2 & Hr2 & Ht2 & Ho2 & _ & Hro2 & Hc2 & Hm2 & _).
    assert (Hhw : hasWindow (removeStyles s) = true).
    { rewrite Hw'. unfold getRoot in Hr. by destruct (hasWindow s). }
    destruct (toggleScollListener_remove (removeStyles s) Hhw) as [Hoff _].
    unfold lifecycle_ok. rewrite Hoff, Ho2, Hro2, Hc2, Hm2, Ht2, Ho', Hro', Hc', Hm', Ht'.
    split; [done|]. split; [done|]. split; [done|done].
  - destruct (isFixed s); [|exact Hok].
    destruct (toggleScollListener_fields false s)
      as (Hw2 & Hr2 & Ht2 & Ho2 & _ & Hro2 & Hc2 & Hm2 & _).
    unfold lifecycle_ok. rewrite Ho2, Hro2, Hc2, Hm2, Ht2.
    split; [done|]. split; [done|]. split; [|done].
    intros Hon. split; [done|].
    destruct (getRoot s) as [r|] eqn:Hr.
    + destruct (toggleScollListener_add s r Hr) as (_ & Hl & Hr').
      exists r. split; [done|]. rewrite Hl. apply elem_of_union. right. by apply elem_of_singleton.
    + rewrite (toggleScollListener_no_root false s Hr) in Hon. congruence.
Qed.

Lemma disconnectResizeObserver_fields (s : State) :
  isListeningScroll (disconnectResizeObserver s) = isListeningScroll s
  /\ cleanup (disconnectResizeObserver s) = cleanup s
  /\ mounted (disconnectResizeObserver s) = mounted s
  /\ target (disconnectResizeObserver s) = target s
  /\ hasWindow (disconnectResizeObserver s) = hasWindow s
  /\ root (disconnectResizeObserver s) = root s
  /\ resizeObserver (disconnectResizeObserver s) = resizeObserver s
  /\ nextObserver (disconnectResizeObserver s) = nextObserver s
  /\ scrollListeners (disconnectResizeObserver s) = scrollListeners s.
Proof.
  unfold disconnectResizeObserver.
  destruct (resizeObserver s) eqn:E; simpl; rewrite ?E; by repeat split.
Qed.

Lemma resetListeners_lifecycle (s : State) :
  (isListeningScroll s = true -> hasWindow s = true) ->
  (forall o r, observed s !! o = Some r -> resizeObserver s = Some o) ->
  isListeningScroll (resetListeners s) = false
  /\ observed (resetListeners s) = ∅
  /\ cleanup (resetListeners s) = cleanup s
  /\ mounted (resetListeners s) = mounted s
  /\ target (resetListeners s) = target s
  /\ hasWindow (resetListeners s) = hasWindow s
  /\ root (resetListeners s) = root s
  /\ resizeObserver (resetListeners s) = resizeObserver s
  /\ nextObserver (resetListeners s) = nextObserver s.
Proof.
  intros J3 J2.
  destruct (toggleScollListener_fields true s)
    as (Hw & Hr & Ht & Ho & Hno & Hro & Hc & Hm & _).
  destruct (disconnectResizeObserver_fields (toggleScollListener true s))
    as (Hi' & Hc' & Hm' & Ht' & Hw' & Hr' & Hro' & Hno' & _).
  assert (Hoff : isListeningScroll (toggleScollListener true s) = false).
  { destruct (getRoot s) as [r|] eqn:Hroot.
    - unfold toggleScollListener. by rewrite Hroot.
    - rewrite (toggleScollListener_no_root true s Hroot).
      destruct (isListeningScroll s) eqn:Hlis; [|done].
      specialize (J3 eq_refl). unfold getRoot in Hroot. rewrite J3 in Hroot.
      by destruct (root s). }
  assert (Hobs : observed (resetListeners s) = ∅).
  { unfold resetListeners, disconnectResizeObserver. rewrite Hro.
    destruct (resizeObserver s) as [o|] eqn:Hcur; simpl; rewrite Ho.
    - apply map_eq. intros i. rewrite lookup_empty.
      destruct (decide (o = i)) as [<-|Hne]; [apply lookup_delete_eq|].
      rewrite lookup_delete_ne by done.
      destruct (observed s !! i) as [r|] eqn:Hi; [|done].
      specialize (J2 i r Hi). congruence.
    - apply map_eq. intros i. rewrite lookup_empty.
      destruct (observed s !! i) as [r|] eqn:Hi; [|done].
      specialize (J2 i r Hi). congruence. }
  unfold resetListeners in *. simpl.
  rewrite Hi', Hc', Hm', Ht', Hw', Hr', Hro', Hno', Hoff, Hc, Hm, Ht, Hw, Hr, Hro, Hno.
  by repeat split.
Qed.

(** What the cleanup leaves behind, in a state that satisfies the
    invariant up to a change of the refs. *)
Lemma runCleanup_post (s : State) :
  (isListeningScroll s = true -> hasWindow s = true /\ cleanup s = true) ->
  (forall o r, observed s !! o = Some r -> resizeObserver s = Some o /\ cleanup s = true) ->
  isListeningScroll (runCleanup s) = false
  /\ observed (runCleanup s) = ∅
  /\ cleanup (runCleanup s) = false
  /\ mounted (runCleanup s) = mounted s
  /\ target (runCleanup s) = target s
  /\ hasWindow (runCleanup s) = hasWindow s
  /\ root (runCleanup s) = root s
  /\ nextObserver (runCleanup s) = nextObserver s.
Proof.
  intros J3 J2. unfold runCleanup. destruct (cleanup s) eqn:Hc.
  - destruct (resetListeners_lifecycle s) as (H1 & H2 & H3 & H4 & H5 & H6 & H7 & H8 & H9).
    { intros Hl. by destruct (J3 Hl). }
    { intros o r Hor. by destruct (J2 o r Hor). }
    simpl. by repeat split.
  - assert (Hoff : isListeningScroll s = false).
    { destruct (isListeningScroll s); [|done]. destruct (J3 eq_refl). congruence. }
    assert (Hobs : observed s = ∅).
    { apply map_eq. intros i. rewrite lookup_empty.
      destruct (observed s !! i) as [r|] eqn:Hi; [|done].
      destruct (J2 i r Hi). congruence. }
    by repeat split.
Qed.

Lemma addResizeObserver_fields (s : State) :
  resizeObserver (addResizeObserver s) = Some (nextObserver s)
  /\ observed (addResizeObserver s)
     = match getRoot s with
       | Some r => <[ nextObserver s := r ]> (observed s)
       | None => observed s
       end
  /\ nextObserver (addResizeObserver s) = S (nextObserver s)
  /\ cleanup (addResizeObserver s) = cleanup s
  /\ mounted (addResizeObserver s) = mounted s
  /\ hasWindow (addResizeObserver s) = hasWindow s
  /\ root (addResizeObserver s) = root s
  /\ isListeningScroll (addResizeObserver s) = isListeningScroll s
  /\ scrollListeners (addResizeObserver s) = scrollListeners s
  /\ skipInitial (addResizeObserver s) = skipInitial s.
Proof.
  unfold addResizeObserver.
  assert (Hg : getRoot (set_nextObserver (S (nextObserver s))
                          (set_resizeObserver (Some (nextObserver s)) s)) = getRoot s)
    by done.
  rewrite Hg. by destruct (getRoot s).
Qed.

(** What a run of the target/root watcher's callback establishes. *)
Lemma watchTargetRoot_post (s : State) :
  cleanup (watchTargetRoot s) = true
  /\ mounted (watchTargetRoot s) = mounted s
  /\ target (watchTargetRoot s) = target s
  /\ hasWindow (watchTargetRoot s) = hasWindow s
  /\ root (watchTargetRoot s) = root s
  /\ resizeObserver (watchTargetRoot s) = Some (nextObserver s)
  /\ observed (watchTargetRoot s)
     = match getRoot s with
       | Some r => <[ nextObserver s := r ]> (observed s)
       | None => observed s
       end
  /\ isListeningScroll (watchTargetRoot s)
     = (if isFixed s then
          match getRoot s with Some _ => true | None => isListeningScroll s end
        else isListeningScroll s)
  /\ scrollListeners (watchTargetRoot s)
     = (if isFixed s then
          match getRoot s with
          | Some r => scrollListeners s ∪ {[ scrollRootOf r ]}
          | None => scrollListeners s
          end
        else scrollListeners s)
  /\ skipInitial (watchTargetRoot s) = skipInitial s.
Proof.
  unfold watchTargetRoot.
  destruct (addResizeObserver_fields (set_cleanup true s))
    as (Hro & Ho & _ & Hc & Hm & Hw & Hr & Hl & Hls & Hsk).
  destruct (addResizeObserver_target_nodes (set_cleanup true s)) as [Ht Hn].
  set (a := addResizeObserver (set_cleanup true s)) in *.
  assert (Hfix : isFixed a = isFixed s) by (by rewrite (isFixed_ext _ _ Ht Hn)).
  assert (Hg : getRoot a = getRoot s) by (by apply getRoot_ext).
  rewrite Hfix. destruct (isFixed s); simpl.
  - set (b := onInstantScrollRestoration a).
    destruct (toggleScollListener_fields false b)
      as (Hw2 & Hr2 & Ht2 & Ho2 & _ & Hro2 & Hc2 & Hm2 & Hsk2 & _).
    assert (Hgb : getRoot b = getRoot s) by exact Hg.
    rewrite Hw2, Hr2, Ht2, Ho2, Hro2, Hc2, Hm2, Hsk2.
    assert (Hlis : isListeningScroll (toggleScollListener false b)
                   = match getRoot s with Some _ => true | None => isListeningScroll s end
                   /\ scrollListeners (toggleScollListener false b)
                      = match getRoot s with
                        | Some r => scrollListeners s ∪ {[ scrollRootOf r ]}
                        | None => scrollListeners s
                        end).
    { unfold toggleScollListener. rewrite Hgb. destruct (getRoot s); simpl.
      - split; [done|]. change (scrollListeners b) with (scrollListeners a).
        by rewrite Hls.
      - split; [exact Hl|exact Hls]. }
    destruct Hlis as [-> ->]. by repeat split.
  - by repeat split.
Qed.

Lemma lifecycle_ok_refs (t r : option nat) (s : State) :
  lifecycle_ok s ->
  (isListeningScroll (set_root r (set_target t s)) = true ->
     hasWindow (set_root r (set_target t s)) = true
     /\ cleanup (set_root r (set_target t s)) = true)
  /\ (forall o x, observed (set_root r (set_target t s)) !! o = Some x ->
        resizeObserver (set_root r (set_target t s)) = Some o
        /\ cleanup (set_root r (set_target t s)) = true).
Proof.
  intros (J1 & J2 & J3 & J4). simpl. split; [|exact J2].
  intros Hl. destruct (J3 Hl) as [Hc [x [Hx _]]]. split; [|done].
  unfold getRoot in Hx. by destruct (hasWindow s).
Qed.

Lemma lifecycle_ok_watch (t r : option nat) (s : State) :
  mounted s = true -> lifecycle_ok s ->
  lifecycle_ok (watchTargetRoot (runCleanup (set_root r (set_target t s)))).
Proof.
  intros Hm Hok. destruct (lifecycle_ok_refs t r s Hok) as [J3' J2'].
  destruct (runCleanup_post _ J3' J2') as (Hl & Ho & Hc & Hmc & Ht & Hw & Hr & Hno).
  set (c := runCleanup (set_root r (set_target t s))) in *.
  destruct (watchTargetRoot_post c)
    as (Hc2 & Hm2 & Ht2 & Hw2 & Hr2 & Hro2 & Ho2 & Hl2 & Hls2 & _).
  unfold lifecycle_ok.
  rewrite (getRoot_ext c (watchTargetRoot c) Hw2 Hr2), Hc2, Hm2, Hmc, Ho2, Hro2, Hl2, Hls2, Ho, Hl.
  split; [done|]. split; [|split; [|done]].
  - intros o x. destruct (getRoot c) as [rc|]; [|by rewrite lookup_empty].
    intros [[<- _]|[_ Hx]]%lookup_insert_Some; [done|by rewrite lookup_empty in Hx].
  - intros Hon. split; [done|].
    destruct (isFixed c); [|done]. destruct (getRoot c) as [rc|]; [|done].
    exists rc. split; [done|]. apply elem_of_union. right. by apply elem_of_singleton.
Qed.

Lemma lifecycle_ok_unmount (s : State) :
  lifecycle_ok s ->
  lifecycle_ok (set_mounted false (runCleanup (resetListeners s)))
  /\ isListeningScroll (set_mounted false (runCleanup (resetListeners s))) = false
  /\ observed (set_mounted false (runCleanup (resetListeners s))) = ∅.
Proof.
  intros (J1 & J2 & J3 & J4).
  destruct (resetListeners_lifecycle s) as (Hl & Ho & Hc & Hm & Ht & Hw & Hr & Hro & Hno).
  { intros Hon. destruct (J3 Hon) as [_ [x [Hx _]]].
    unfold getRoot in Hx. by destruct (hasWindow s). }
  { intros o x Hx. by destruct (J2 o x Hx). }
  destruct (runCleanup_post (resetListeners s)) as (Hl2 & Ho2 & Hc2 & _).
  { rewrite Hl. discriminate. }
  { intros o x. by rewrite Ho, lookup_empty. }
  unfold lifecycle_ok. simpl. rewrite Hl2, Ho2, Hc2.
  split; [|done]. split; [done|]. split; [|split; [done|done]].
  intros o x. by rewrite lookup_empty.
Qed.

Lemma toggleFunctionalities_unregistered (s : State) :
  lifecycle_ok s -> mounted s = true -> cleanup s = false ->
  toggleFunctionalities s = s.
Proof.
  intros (J1 & J2 & J3 & J4) Hm Hc. unfold toggleFunctionalities.
  assert (isListeningScroll s = false) as ->.
  { destruct (isListeningScroll s); [|done]. destruct (J3 eq_refl). congruence. }
  unfold isFixed. by rewrite (J4 Hm Hc).
Qed.

Lemma lifecycle_ok_handle (e : Event) (s : State) :
  lifecycle_ok s -> lifecycle_ok (handle e s).
Proof.
  intros Hok. pose proof Hok as (J1 & J2 & J3 & J4).
  destruct e as [el y|el l|t|t| |el|o|t r| |]; cbn [handle].
  - apply (lifecycle_ok_same s); [by repeat split|done].
  - apply (lifecycle_ok_same s); [by repeat split|done].
  - apply (lifecycle_ok_same s); [by repeat split|done].
  - destruct (bool_decide _); [|done].
    apply (lifecycle_ok_same s); [apply onScroll_same_lifecycle|done].
  - apply (lifecycle_ok_same s); [apply animationFrame_same_lifecycle|done].
  - destruct (ontransitionend _) as [[]|]; [|done].
    apply (lifecycle_ok_same s); [apply hiddenAfterTransition_same_lifecycle|done].
  - destruct (observed s !! o) as [x|] eqn:Ho; [|done].
    destruct (J2 o x Ho) as [_ Hc]. unfold onResize.
    destruct (skipInitial s); [exact Hok|].
    by apply lifecycle_ok_toggleFunctionalities.
  - destruct (mounted s) eqn:Hm; [by apply lifecycle_ok_watch|].
    unfold lifecycle_ok, getRoot. simpl.
    assert (Hc : cleanup s = false).
    { destruct (cleanup s); [|done]. specialize (J1 eq_refl). congruence. }
    split; [intros; congruence|]. split; [exact J2|].
    split; [|intros; congruence].
    intros Hon. destruct (J3 Hon). congruence.
  - destruct (mounted s) eqn:Hm; [|done].
    destruct (cleanup s) eqn:Hc.
    + by apply lifecycle_ok_toggleFunctionalities.
    + by rewrite toggleFunctionalities_unregistered.
  - destruct (mounted s); [|done]. by apply lifecycle_ok_unmount.
Qed.

Lemma lifecycle_ok_step (e : Event) (s : State) :
  lifecycle_ok s -> lifecycle_ok (step e s).
Proof.
  intros Hok. unfold step.
  apply (lifecycle_ok_same (handle e s)); [apply flushVisible_same_lifecycle|].
  by apply lifecycle_ok_handle.
Qed.

Lemma reachable_lifecycle_ok (s : State) : reachable s -> lifecycle_ok s.
Proof.
  induction 1 as [window dom now|e s _ IH]; [|by apply lifecycle_ok_step].
  unfold lifecycle_ok. simpl. split; [done|]. split; [|done].
  intros o r. by rewrite lookup_empty.
Qed.

(** X6. In every reachable state a resize observer is connected only if it
    is the one created last, and only while the component is mounted: each
    watcher run disconnects the observer of the previous run, and teardown
    disconnects the last one. *)
Theorem one_observer_connected (s : State) :
  reachable s ->
  forall o r, observed s !! o = Some r -> resizeObserver s = Some o /\ mounted s = true.
Proof.
  intros Hreach o r Ho.
  destruct (reachable_lifecycle_ok s Hreach) as (J1 & J2 & _).
  destruct (J2 o r Ho) as [Hcur Hc]. split; [done|]. by apply J1.
Qed.

(** X7. In every reachable state, if [isListeningScroll] is true then the
    component is mounted and the handler is registered on the scroll root
    that the refs resolve to at that moment ([window] for the document). *)
Theorem listening_on_current_root (s : State) :
  reachable s ->
  isListeningScroll s = true ->
  mounted s = true
  /\ exists r, getRoot s = Some r /\ scrollRootOf r ∈ scrollListeners s.
Proof.
  intros Hreach Hon.
  destruct (reachable_lifecycle_ok s Hreach) as (J1 & _ & J3 & _).
  destruct (J3 Hon) as [Hc Hr]. split; [by apply J1|done].
Qed.

(** X8. A run of the target/root watcher in a mounted component with a
    window leaves exactly one resize observer connected, a new one that
    observes the scroll root, whether or not there is a target and whether
    or not it is pinned; the composable then listens exactly when the
    target is pinned, and an unpinned target requests no animation frame. *)
Theorem watcher_run_establishes (s : State) (t r : option nat) :
  reachable s -> mounted s = true -> hasWindow s = true ->
  let s0 := set_root r (set_target t s) in
  let s' := step (ChangeRefs t r) s in
  resizeObserver s' = Some (nextObserver s)
  /\ observed s' = {[ nextObserver s := default documentElement r ]}
  /\ isListeningScroll s' = isFixed s0
  /\ (isFixed s0 = true -> scrollRootOf (default documentElement r) ∈ scrollListeners s')
  /\ (isFixed s0 = false -> rafQueue s' = rafQueue s).
Proof.
  intros Hreach Hm Hw s0 s'.
  pose proof (reachable_lifecycle_ok s Hreach) as Hok.
  destruct (lifecycle_ok_refs t r s Hok) as [J3' J2'].
  destruct (runCleanup_post _ J3' J2') as (Hl & Ho & Hc & Hmc & Ht & Hwc & Hr & Hno).
  fold s0 in Hl, Ho, Hc, Hmc, Ht, Hwc, Hr, Hno.
  destruct (runCleanup_target_nodes s0) as [_ Hn].
  set (c := runCleanup s0) in *.
  assert (Hfix : isFixed c = isFixed s0) by (by rewrite (isFixed_ext _ _ Ht Hn)).
  assert (Hg : getRoot c = Some (default documentElement r)).
  { unfold getRoot. rewrite Hwc, Hr. simpl. rewrite Hw. by destruct r. }
  destruct (watchTargetRoot_post c)
    as (_ & _ & _ & _ & _ & Hro2 & Ho2 & Hl2 & Hls2 & _).
  rewrite Hg, Hfix in *.
  assert (Hs' : s' = flushVisible (watchTargetRoot c)).
  { unfold s', step. by rewrite handle_ChangeRefs, Hm. }
  destruct (flushVisible_same_lifecycle (watchTargetRoot c))
    as (_ & _ & _ & Hfl & Hfi & Hfo & _ & Hfro & _).
  rewrite Hs', Hfl, Hfi, Hfo, Hfro, Hro2, Ho2, Hl2, Hls2, Ho, Hno.
  split; [done|]. split; [done|]. split; [by destruct (isFixed s0)|]. split.
  - intros ->. apply elem_of_union. right. by apply elem_of_singleton.
  - intros Hnot.
    destruct (flushVisible_raf (watchTargetRoot c)) as (-> & _).
    unfold watchTargetRoot.
    destruct (addResizeObserver_target_nodes (set_cleanup true c)) as [Ht3 Hn3].
    rewrite (isFixed_ext _ _ Ht3 Hn3).
    assert (isFixed (set_cleanup true c) = false) as -> by (by rewrite <- Hnot, <- Hfix).
    simpl.
    assert (Hq : rafQueue (addResizeObserver (set_cleanup true c)) = rafQueue c).
    { unfold addResizeObserver. by destruct (getRoot _). }
    rewrite Hq. destruct (runCleanup_same_raf s0) as (Hqc & _). exact Hqc.
Qed.

Lemma toggleFunctionalities_skipInitial (s : State) :
  skipInitial (toggleFunctionalities s) = skipInitial s.
Proof.
  unfold toggleFunctionalities. destruct (isListeningScroll s).
  - destruct (negb _); [|done].
    destruct (toggleScollListener_fields true (removeStyles s))
      as (_ & _ & _ & _ & _ & _ & _ & _ & -> & _).
    by destruct (removeStyles_fields s)
      as [(_ & _ & _ & _ & _ & _ & _ & _ & _ & _ & ->) _].
  - destruct (isFixed s); [|done].
    by destruct (toggleScollListener_fields false s)
      as (_ & _ & _ & _ & _ & _ & _ & _ & -> & _).
Qed.

Lemma resetListeners_skipInitial (s : State) :
  skipInitial (resetListeners s) = skipInitial s.
Proof.
  unfold resetListeners, disconnectResizeObserver. simpl.
  destruct (resizeObserver _); simpl;
    by destruct (toggleScollListener_fields true s)
      as (_ & _ & _ & _ & _ & _ & _ & _ & -> & _).
Qed.

Lemma runCleanup_skipInitial (s : State) :
  skipInitial (runCleanup s) = skipInitial s.
Proof.
  unfold runCleanup. destruct (cleanup s); [|done]. simpl.
  apply resetListeners_skipInitial.
Qed.

Lemma skipInitial_step (e : Event) (s : State) :
  skipInitial s = false -> skipInitial (step e s) = false.
Proof.
  intros Hs. unfold step.
  destruct (flushVisible_same_lifecycle (handle e s))
    as (_ & _ & _ & _ & _ & _ & _ & _ & _ & _ & ->).
  destruct e as [el y|el l|t|t| |el|o|t r| |]; cbn [handle]; try exact Hs.
  - destruct (bool_decide _); [|done].
    by destruct (onScroll_same_lifecycle s)
      as (_ & _ & _ & _ & _ & _ & _ & _ & _ & _ & ->).
  - by destruct (animationFrame_same_lifecycle s)
      as (_ & _ & _ & _ & _ & _ & _ & _ & _ & _ & ->).
  - destruct (ontransitionend _) as [[]|]; [|done].
    by destruct (hiddenAfterTransition_same_lifecycle el s)
      as (_ & _ & _ & _ & _ & _ & _ & _ & _ & _ & ->).
  - destruct (observed s !! o); [|done]. unfold onResize. rewrite Hs.
    by rewrite toggleFunctionalities_skipInitial.
  - destruct (mounted s); [|done].
    destruct (watchTargetRoot_post (runCleanup (set_root r (set_target t s))))
      as (_ & _ & _ & _ & _ & _ & _ & _ & _ & ->).
    by rewrite runCleanup_skipInitial.
  - destruct (mounted s); [|done]. by rewrite toggleFunctionalities_skipInitial.
  - destruct (mounted s); [|done]. simpl.
    by rewrite runCleanup_skipInitial, resetListeners_skipInitial.
Qed.

Lemma skipInitial_run (es : list Event) (s : State) :
  skipInitial s = false -> skipInitial (run es s) = false.
Proof.
  revert s. induction es as [|e es IH]; intros s Hs; [done|].
  rewrite run_cons. by apply IH, skipInitial_step.
Qed.

(** X9. Only the first resize callback ever delivered is swallowed: it
    clears [skipInitial] and does nothing else; once [skipInitial] is false
    it stays false along every run, so every later callback, the first one
    of a later observer included, re-evaluates the pinned status. *)
Theorem first_resize_skipped (s : State) (o r : nat) :
  observed s !! o = Some r ->
  (skipInitial s = true -> handle (ResizeCallback o) s = set_skipInitial false s)
  /\ (skipInitial s = false ->
        handle (ResizeCallback o) s = toggleFunctionalities s
        /\ forall es : list Event, skipInitial (run es s) = false).
Proof.
  intros Ho. split.
  - intros Hsk. cbn [handle]. rewrite Ho. unfold onResize. by rewrite Hsk.
  - intros Hsk. split; [cbn [handle]; rewrite Ho; unfold onResize; by rewrite Hsk|].
    intros es. by apply skipInitial_run.
Qed.

(** ** A disarmed guard always has its sample in flight *)

(** Whenever the guard of a direction is disarmed a sample of that
    direction is pending, and no pending sample has counted more frames than
    the window. *)
Definition sampling_ok (s : State) : Prop :=
  (forall d, guard d s = false -> inFlight d s ≠ [])
  /\ (forall j d k a b m, (j, RafDelta d k a b m) ∈ tasks s ->
        m ≤ CAPTURE_DELTA_FRAME_COUNT).

Lemma sampling_ok_same (s s' : State) :
  same_raf s s' -> sampling_ok s -> sampling_ok s'.
Proof.
  intros (Hq & Hr & _ & _ & He & Hl) [K1 K2]. unfold sampling_ok, inFlight, tasks.
  rewrite Hq, Hr. split; [|exact K2].
  intros d Hd. apply K1. destruct d; simpl in *; congruence.
Qed.

Lemma samples_cons (d : Direction) (x : nat * RafTask) (q : list (nat * RafTask)) :
  samples d (x :: q)
  = if decide (directionOf x.2 = Some d) then x :: samples d q else samples d q.
Proof. unfold samples. by rewrite filter_cons. Qed.

Lemma sampling_ok_onScroll (s : State) : sampling_ok s -> sampling_ok (onScroll s).
Proof.
  intros [K1 K2].
  assert (Hstart : forall d, guard d s = true ->
            forall s1, rafQueue s1 = rafQueue s /\ rafRunning s1 = rafRunning s ->
            (forall d', d' ≠ d -> guard d' s1 = guard d' s) ->
            sampling_ok (set_prevTop (getScrollTop (captureDelta d s1)) (captureDelta d s1))).
  { intros d Hg s1 (Hq & Hr) Hother. split.
    - intros d' Hd'. unfold inFlight, captureDelta, requestAnimationFrame. simpl.
      rewrite Hq, Hr, app_assoc, samples_snoc. simpl.
      destruct (decide (Some d = Some d')) as [Heq|Hne].
      + by destruct (samples d' (rafRunning s ++ rafQueue s)).
      + rewrite app_nil_r. apply K1.
        assert (d' ≠ d) by congruence.
        rewrite <- (Hother d') by done.
        destruct d'; exact Hd'.
    - intros j d' k a b m. unfold tasks, captureDelta, requestAnimationFrame. simpl.
      rewrite Hq, Hr, app_assoc.
      intros [Hin|Hin%list_elem_of_singleton]%elem_of_app; [by apply (K2 j d' k a b)|].
      injection Hin as _ _ _ _ _ ->. lia. }
  unfold onScroll.
  destruct (le _ _); [apply (sampling_ok_same s); [by repeat split|by split]|].
  destruct (strict_ne _ _); [|apply (sampling_ok_same s); [by repeat split|by split]].
  destruct (lt _ _ && captureEnterDelta s) eqn:Hup.
  { apply andb_true_iff in Hup as [_ Hg].
    apply (Hstart Enter Hg); [by split|]. by intros []. }
  destruct (gt _ _ && captureLeaveDelta s) eqn:Hdown.
  { apply andb_true_iff in Hdown as [_ Hg].
    apply (Hstart Leave Hg); [by split|]. by intros []. }
  apply (sampling_ok_same s); [by repeat split|by split].
Qed.

(** The guards after one callback of a frame. *)
Lemma turn_guard (t : RafTask) (rest : list (nat * RafTask)) (s : State) (d' : Direction) :
  guard d' (turn t rest s)
  = match t with
    | RafDelta d _ _ _ m =>
        if Nat.eqb m CAPTURE_DELTA_FRAME_COUNT && bool_decide (d = d')
        then true else guard d' s
    | RestoreCheck => guard d' s
    end.
Proof.
  unfold turn.
  assert (Hfl : forall x, guard d' (flushVisible x) = guard d' x).
  { intros x. destruct (flushVisible_guards x) as [He Hl]. by destruct d'. }
  rewrite Hfl. destruct t as [|d k a b m]; simpl.
  - destruct (restorationCheck_same_raf (set_rafRunning rest s)) as (_ & _ & _ & _ & He & Hl).
    destruct d'; simpl; [exact He|exact Hl].
  - unfold rafDelta. destruct (Nat.eqb m CAPTURE_DELTA_FRAME_COUNT); simpl.
    + unfold cancelAnimationFrame, onCaptured.
      destruct d, d'; simpl; first [done|by destruct (ge _ _)].
    + by destruct d'.
Qed.

Lemma sampling_ok_turn (s : State) (j : nat) (t : RafTask) (rest : list (nat * RafTask)) :
  rafRunning s = (j, t) :: rest ->
  raf_wf s -> sampling_ok s -> sampling_ok (turn t rest s).
Proof.
  intros Hrun Hwf [K1 K2].
  destruct (turn_raf s j t rest Hrun Hwf) as [Hr Heff].
  assert (Hin : forall d', inFlight d' s
                = if decide (directionOf t = Some d')
                  then (j, t) :: samples d' (rest ++ rafQueue s)
                  else samples d' (rest ++ rafQueue s)).
  { intros d'. unfold inFlight. rewrite Hrun. simpl. by rewrite samples_cons. }
  assert (Hbound : forall j' d' k a b m,
            (j', RafDelta d' k a b m) ∈ rest ++ rafQueue s -> m ≤ CAPTURE_DELTA_FRAME_COUNT).
  { intros j' d' k a b m Hx. apply (K2 j' d' k a b). unfold tasks. rewrite Hrun.
    simpl. by right. }
  split.
  - intros d' Hd'. rewrite turn_guard in Hd'. unfold inFlight. rewrite Hr.
    destruct t as [|d k a b m].
    + destruct Heff as (-> & _). specialize (K1 d' Hd'). rewrite Hin in K1.
      by rewrite decide_False in K1 by done.
    + destruct (Nat.eqb_spec m CAPTURE_DELTA_FRAME_COUNT) as [->|Hne]; simpl in Hd'.
      * destruct Heff as (-> & _).
        destruct (bool_decide_reflect (d = d')) as [->|Hdd]; [done|].
        specialize (K1 d' Hd'). rewrite Hin in K1.
        rewrite decide_False in K1; [done|]. simpl. congruence.
      * destruct Heff as (-> & _). rewrite app_assoc, samples_snoc. simpl.
        destruct (decide (Some d = Some d')) as [Heq|Hdd].
        { by destruct (samples d' (rest ++ rafQueue s)). }
        rewrite app_nil_r. specialize (K1 d' Hd'). rewrite Hin in K1.
        by rewrite decide_False in K1 by done.
  - intros j' d' k' a' b' m'. unfold tasks. rewrite Hr.
    destruct t as [|d k a b m].
    + destruct Heff as (-> & _). apply Hbound.
    + destruct (Nat.eqb_spec m CAPTURE_DELTA_FRAME_COUNT) as [->|Hne].
      * destruct Heff as (-> & _). apply Hbound.
      * destruct Heff as (-> & _). rewrite app_assoc.
        intros [Hx|Hx%list_elem_of_singleton]%elem_of_app; [by apply (Hbound j' d' k' a' b')|].
        injection Hx as _ _ _ _ _ ->.
        assert (m ≤ CAPTURE_DELTA_FRAME_COUNT); [|lia].
        apply (K2 j d k a b). unfold tasks. rewrite Hrun. by left.
Qed.

Lemma sampling_ok_animationFrame (s : State) :
  idle s -> sampling_ok s -> sampling_ok (animationFrame s).
Proof.
  intros [Hwf Hrun] Hok. unfold animationFrame.
  pose proof (runCallbacks_invariant (fun x => raf_wf x /\ sampling_ok x)) as Hinv.
  apply Hinv.
  - intros s' j t rest Hr [Hwf' Hok']. split; [by apply (raf_wf_turn s' j)|].
    by apply (sampling_ok_turn s' j).
  - split.
    + unfold raf_wf, tasks in *. simpl. rewrite Hrun in Hwf. by rewrite app_nil_r.
    + destruct Hok as [K1 K2]. unfold sampling_ok, inFlight, tasks in *. simpl.
      rewrite Hrun in K1, K2. simpl in K1, K2. rewrite app_nil_r. by split.
Qed.

Lemma sampling_ok_step (e : Event) (s : State) :
  idle s -> sampling_ok s -> sampling_ok (step e s).
Proof.
  intros Hidle Hok. unfold step.
  apply (sampling_ok_same (handle e s)); [apply flushVisible_same_raf|].
  destruct e as [el y|el l|t|t| |el|o|t r| |]; cbn [handle].
  - by apply (sampling_ok_same s).
  - by apply (sampling_ok_same s).
  - by apply (sampling_ok_same s).
  - destruct (bool_decide _); [by apply sampling_ok_onScroll|done].
  - by apply sampling_ok_animationFrame.
  - destruct (ontransitionend _) as [[]|]; [|done].
    apply (sampling_ok_same s); [apply hiddenAfterTransition_same_raf|done].
  - destruct (observed s !! o); [|done].
    apply (sampling_ok_same s); [apply onResize_same_raf|done].
  - destruct (mounted s); [|by apply (sampling_ok_same s)].
    set (c := runCleanup (set_root r (set_target t s))).
    assert (Hc : sampling_ok c).
    { apply (sampling_ok_same (set_root r (set_target t s)));
        [apply runCleanup_same_raf|]. by apply (sampling_ok_same s). }
    destruct (watchTargetRoot_raf c) as [Hsame|(Hq & Hr & _ & _ & He & Hl)].
    + by apply (sampling_ok_same c).
    + destruct Hc as [K1 K2]. split.
      * intros d Hd. unfold inFlight. rewrite Hq, Hr, app_assoc, samples_snoc.
        cbn [directionOf snd]. rewrite decide_False by done.
        rewrite app_nil_r. apply K1. unfold guard in *.
        destruct d; [by rewrite <- He|by rewrite <- Hl].
      * intros j d k a b m. unfold tasks. rewrite Hq, Hr, app_assoc.
        intros [Hx|Hx%list_elem_of_singleton]%elem_of_app; [by apply (K2 j d k a b)|].
        discriminate.
  - destruct (mounted s); [|done].
    apply (sampling_ok_same s); [apply toggleFunctionalities_same_raf|done].
  - destruct (mounted s); [|done].
    apply (sampling_ok_same (runCleanup (resetListeners s))); [done|].
    apply (sampling_ok_same (resetListeners s)); [apply runCleanup_same_raf|].
    apply (sampling_ok_same s); [apply resetListeners_same_raf|done].
Qed.

Lemma reachable_sampling_ok (s : State) : reachable s -> sampling_ok s.
Proof.
  induction 1 as [window dom now|e s Hs IH].
  - split; [by intros []|]. intros j d k a b m. unfold tasks. simpl.
    by intros ?%elem_of_nil.
  - apply sampling_ok_step; [by apply reachable_idle|done].
Qed.

(** A disarmed guard has its sample: the only one of its direction, which
    has counted at most the window. *)
Lemma disarmed_sample (s : State) (d : Direction) :
  reachable s -> guard d s = false ->
  exists j k a b m,
    inFlight d s = [(j, RafDelta d k a b m)] /\ m ≤ CAPTURE_DELTA_FRAME_COUNT.
Proof.
  intros Hreach Hgd.
  destruct (reachable_idle s Hreach) as [Hwf _].
  destruct (reachable_sampling_ok s Hreach) as [K1 K2].
  pose proof Hwf as (_ & _ & _ & _ & _ & Hg). destruct (Hg d) as [Hlen _].
  specialize (K1 d Hgd).
  change (length (inFlight d s) ≤ 1) in Hlen.
  destruct (inFlight d s) as [|[j t] l] eqn:Hin; [done|].
  destruct l; [|simpl in Hlen; lia].
  assert (Hmem : (j, t) ∈ inFlight d s) by (rewrite Hin; by left).
  unfold inFlight, samples in Hmem.
  apply list_elem_of_filter in Hmem as [Hdir Hmem]. simpl in Hdir.
  destruct t as [|d' k a b m]; [done|]. injection Hdir as ->.
  exists j, k, a, b, m. split; [done|]. by apply (K2 j d k a b).
Qed.

(** X10. In every reachable state the guard of a direction is disarmed
    exactly when a sample of that direction is in flight; that sample is
    then the only one, and it has counted at most
    [CAPTURE_DELTA_FRAME_COUNT] frames. *)
Theorem guard_tracks_sample (s : State) (d : Direction) :
  reachable s ->
  (guard d s = true <-> inFlight d s = [])
  /\ (guard d s = false ->
        exists j k a b m,
          inFlight d s = [(j, RafDelta d k a b m)] /\ m ≤ CAPTURE_DELTA_FRAME_COUNT).
Proof.
  intros Hreach. split; [|by apply disarmed_sample].
  destruct (reachable_idle s Hreach) as [Hwf _].
  destruct (reachable_sampling_ok s Hreach) as [K1 _].
  pose proof Hwf as (_ & _ & _ & _ & _ & Hg). destruct (Hg d) as [_ Hnone].
  split; [exact Hnone|]. intros Hempty.
  destruct (guard d s) eqn:Hgd; [done|]. by destruct (K1 d Hgd).
Qed.

(** The frame at which a sampler has counted the whole window arms the
    guard of its direction. *)
Lemma frame_rearms (d : Direction) (k : nat) (a b : num) (s : State) :
  idle s ->
  at_phase d k a b (Sampling CAPTURE_DELTA_FRAME_COUNT) s ->
  guard d (step AnimationFrame s) = true.
Proof.
  intros [Hwf Hrun] [Hrep [j Hp]].
  set (s1 := set_rafRunning (rafQueue s) (set_rafQueue [] s)).
  set (I := fun x : State =>
              during_frame d k a b s CAPTURE_DELTA_FRAME_COUNT x
              /\ (pendingOf k (rafRunning x) = [] -> guard d x = true)).
  assert (Hstart : I s1).
  { unfold tasks in Hp. rewrite Hrun in Hp. simpl in Hp. split.
    - split; [|split; [by repeat split|]].
      + unfold raf_wf, tasks in *. simpl. rewrite Hrun in Hwf. by rewrite app_nil_r.
      + left. split; [done|]. split; [by exists j|done].
    - simpl. by rewrite Hp. }
  assert (Hturn : forall x j0 t0 rest,
            rafRunning x = (j0, t0) :: rest -> I x -> I (turn t0 rest x)).
  { intros x j0 t0 rest Hx [Hdf Hgx]. split; [by apply (during_frame_turn d k a b s _ x j0)|].
    destruct Hdf as (Hwfx & _ & Hcase).
    destruct (turn_raf x j0 t0 rest Hx Hwfx) as [-> _]. intros Hrest.
    rewrite turn_guard.
    unfold pendingOf in Hcase, Hgx. rewrite Hx, filter_cons in Hcase, Hgx.
    cbn [snd] in Hcase, Hgx. fold (pendingOf k rest) in Hcase, Hgx.
    destruct (decide (rafIdOf t0 = Some k)) as [Hmine|Hother].
    - destruct Hcase as [(_ & [j' Hj'] & _)|[Hnil _]]; [|done].
      injection Hj' as _ ->. by rewrite Nat.eqb_refl, bool_decide_eq_true_2.
    - specialize (Hgx Hrest). rewrite Hgx.
      destruct t0 as [|d0 k0 a0 b0 m0]; [done|]. by destruct (_ && _). }
  pose proof (runCallbacks_invariant I Hturn (length (rafQueue s)) s1 Hstart) as [_ Hend].
  assert (Hdrained : rafRunning (runCallbacks (length (rafQueue s)) s1) = [])
    by (by apply runCallbacks_drains).
  rewrite Hdrained in Hend. specialize (Hend eq_refl).
  change (guard d (flushVisible (runCallbacks (length (rafQueue s)) s1)) = true).
  destruct (flushVisible_guards (runCallbacks (length (rafQueue s)) s1)) as [He Hl].
  unfold guard in *. destruct d; [by rewrite He|by rewrite Hl].
Qed.

(** X11. A disarmed guard is armed again in bounded time: from any
    reachable state in which the guard of a direction is disarmed there is
    a number n of frames, at most the window size, such that after any
    events containing n frames the next frame arms the guard. *)
Theorem guard_rearmed_in_time (s : State) (d : Direction) :
  reachable s ->
  guard d s = false ->
  exists n, n ≤ CAPTURE_DELTA_FRAME_COUNT
    /\ forall es : list Event,
         frames es = n -> guard d (run (es ++ [AnimationFrame]) s) = true.
Proof.
  intros Hreach Hg.
  destruct (disarmed_sample s d Hreach Hg) as (j & k & a & b & m & Hin & Hm).
  pose proof (reachable_idle s Hreach) as Hidle.
  assert (Hmem : (j, RafDelta d k a b m) ∈ tasks s).
  { assert (Hx : (j, RafDelta d k a b m) ∈ inFlight d s) by (rewrite Hin; by left).
    unfold inFlight, samples in Hx. by apply list_elem_of_filter in Hx as [_ Hx]. }
  pose proof (pending_sampling s d j k a b m (proj1 Hidle) Hmem) as Hphase.
  exists (CAPTURE_DELTA_FRAME_COUNT - m). split; [lia|].
  intros es Hes. rewrite run_app. change (run [AnimationFrame] (run es s))
    with (step AnimationFrame (run es s)).
  apply (frame_rearms d k a b); [by apply idle_run|].
  replace CAPTURE_DELTA_FRAME_COUNT with (m + frames es) at 1 by lia.
  apply at_phase_run_sampling; [done|done|lia].
Qed.

(** ** A sample during which the page did not move *)

(** A number that is neither NaN nor an infinity. *)
Definition is_finite (y : num) : bool :=
  match y with
  | S754_zero _ | S754_finite _ _ _ => true
  | _ => false
  end.

Lemma sub_diag (y : num) : is_finite y = true -> sub y y = zero.
Proof.
  destruct y as [[]|[]| |sy my ey]; try discriminate; intros _; try reflexivity.
  cbv [sub SFsub]. by rewrite Z.sub_diag.
Qed.

Lemma div_zero_positive (e : num) : gt e zero = true -> div zero e = zero.
Proof. by destruct e as [[]|[]| |[] m x]. Qed.

(** X12. If the offset at the reporting tick equals the offset at which the
    sampler started, and the clock has advanced, the reported speed is +0;
    with a positive threshold such a report leaves the flag as it is. *)
Theorem standstill_sample (startMs startY : num) (s : State) :
  getScrollTop s = startY ->
  is_finite startY = true ->
  gt (sub (clock s) startMs) zero = true ->
  sampledSpeed startMs startY s = zero
  /\ forall (d : Direction) (s' : State),
       gt (threshold d) zero = true ->
       isVisible (onCaptured d (sampledSpeed startMs startY s) s') = isVisible s'.
Proof.
  intros Hy Hfin Hpos.
  assert (Hzero : sampledSpeed startMs startY s = zero).
  { unfold sampledSpeed. rewrite Hy, (sub_diag _ Hfin).
    change (abs zero) with zero. by apply div_zero_positive. }
  split; [exact Hzero|]. intros d s' Hthr. rewrite Hzero.
  destruct (onCaptured_spec d zero s') as [_ ->].
  assert (ge zero (threshold d) = false) as -> by (by apply gt_not_le).
  done.
Qed.

(** ** Teardown, once more *)

(** X13. [resetListeners] is idempotent: calling it any number of times in
    a row gives the state that one call gives.  It touches no element: no
    inline style is written or removed and no [ontransitionend] is cleared,
    so a header that is hidden at teardown keeps its leave styles.  The same
    holds for the whole unmount turn. *)
Theorem teardown_idempotent_keeps_elements (n : nat) (s : State) :
  Nat.iter (S n) resetListeners s = resetListeners s
  /\ nodes (resetListeners s) = nodes s
  /\ nodes (step Unmount s) = nodes s.
Proof.
  split; [apply resetListeners_iterate|]. split; [apply resetListeners_target_nodes|].
  unfold step. cbn [handle]. destruct (mounted s) eqn:Hm.
  - assert (Hoff : mounted (set_mounted false (runCleanup (resetListeners s))) = false)
      by done.
    unfold flushVisible. rewrite Hoff. simpl.
    destruct (runCleanup_target_nodes (resetListeners s)) as [_ ->].
    apply resetListeners_target_nodes.
  - unfold flushVisible. by rewrite Hm.
Qed.

(** ** The scroll handler's footprint *)

(** X14. A processed scroll event touches no element, listener or observer;
    it records the current offset in [prevTop] whatever branch it takes; and
    it requests at most one animation frame: either the callback queue is
    unchanged, or one new sample is appended, of a direction whose guard was
    armed and in which the offset moved.  Without movement, and in the top
    zone, nothing is requested. *)
Theorem onScroll_footprint (s : State) :
  nodes (onScroll s) = nodes s
  /\ same_lifecycle s (onScroll s)
  /\ prevTop (onScroll s) = getScrollTop s
  /\ (rafQueue (onScroll s) = rafQueue s
      \/ exists d, guard d s = true /\ moving d s = true
           /\ rafQueue (onScroll s)
              = rafQueue s
                ++ [(nextRaf s, RafDelta d (nextRaf s) (clock s) (getScrollTop s) 0)])
  /\ (moving Enter s = false -> moving Leave s = false ->
        rafQueue (onScroll s) = rafQueue s)
  /\ (le (getScrollTop s) (getHeaderHeight s) = true ->
        rafQueue (onScroll s) = rafQueue s).
Proof.
  split; [apply onScroll_nodes|]. split; [apply onScroll_same_lifecycle|].
  unfold onScroll, moving.
  destruct (le _ _); [simpl; by repeat split; try left|].
  destruct (strict_ne _ _); [|simpl; by repeat split; try left].
  destruct (lt (getScrollTop s) (prevTop s)) eqn:Hup; simpl.
  - destruct (captureEnterDelta s) eqn:Hg; simpl.
    + split; [done|]. split; [|done]. right. exists Enter. by repeat split.
    + destruct (gt _ _ && captureLeaveDelta s) eqn:Hdown.
      * apply andb_true_iff in Hdown as [Hdown _]. by rewrite (lt_not_gt _ _ Hup) in Hdown.
      * simpl. split; [done|]. split; [by left|]. by split.
  - destruct (gt (getScrollTop s) (prevTop s)) eqn:Hdown; simpl.
    + destruct (captureLeaveDelta s) eqn:Hg; simpl.
      * split; [done|]. split; [|done]. right. exists Leave. by repeat split.
      * split; [done|]. split; [by left|]. by split.
    + split; [done|]. split; [by left|]. by split.
Qed.

(** ** A margin that does not parse *)

(** X15. When [parseFloat] of the target's top or bottom margin is NaN, the
    header extent is NaN: no offset is in the top zone, so the scroll
    handler never forces the flag to true, and the restoration check never
    hides the header. *)
Theorem nan_margin (s : State) (el : nat) :
  target s = Some el ->
  is_nan (marginTop (nodes s !!! el)) || is_nan (marginBottom (nodes s !!! el)) = true ->
  is_nan (getHeaderHeight s) = true
  /\ le (getScrollTop s) (getHeaderHeight s) = false
  /\ restorationCheck s = s
  /\ isVisible (onScroll s) = isVisible s.
Proof.
  intros Ht Hnan.
  assert (Hh : getHeaderHeight s = nan).
  { unfold getHeaderHeight. rewrite Ht.
    destruct (marginTop (nodes s !!! el)) as [| | |];
      destruct (marginBottom (nodes s !!! el)) as [| | |]; try discriminate;
      unfold add, SFadd; by destruct (scrollHeight (nodes s !!! el)) as [[]|[]| |]. }
  rewrite Hh. split; [done|].
  assert (Hle : le (getScrollTop s) nan = false).
  { unfold le, SFleb. by destruct (getScrollTop s). }
  split; [exact Hle|]. split.
  - unfold restorationCheck. rewrite Hh.
    assert (gt (getScrollTop s) (mul nan one_point_two) = false) as ->; [|done].
    change (mul nan one_point_two) with nan. unfold gt, SFltb.
    by destruct (getScrollTop s).
  - unfold onScroll, captureDelta, requestAnimationFrame.
    rewrite Hh, Hle. destruct (strict_ne _ _); [|done].
    destruct (_ && _); [done|]. by destruct (_ && _).
Qed.

(** ** A frame in which one sampler reports *)

Lemma flushVisible_in_sync (s : State) :
  mounted s = false \/ isVisible s = watchedVisible s -> flushVisible s = s.
Proof.
  intros [Hm|Hv]; unfold flushVisible.
  - by rewrite Hm.
  - rewrite Hv. destruct (watchedVisible s); simpl; by rewrite andb_false_r.
Qed.

Lemma watchVisible_keeps (s : State) :
  isVisible (watchVisible s) = isVisible s
  /\ watchedVisible (watchVisible s) = watchedVisible s
  /\ mounted (watchVisible s) = mounted s.
Proof. unfold_styles. by case_ifs. Qed.

Lemma flushVisible_idempotent (s : State) :
  flushVisible (flushVisible s) = flushVisible s.
Proof.
  apply flushVisible_in_sync. unfold flushVisible.
  destruct (mounted s) eqn:Hm; simpl.
  - destruct (Bool.eqb (isVisible s) (watchedVisible s)) eqn:Heq; simpl.
    + right. by apply Bool.eqb_prop.
    + right. by destruct (watchVisible_keeps (set_watchedVisible (isVisible s) s))
        as (-> & -> & _).
  - by left.
Qed.

(** What the isVisible watcher writes when the flag has changed. *)
Lemma flushVisible_styles (s : State) :
  mounted s = true -> isVisible s ≠ watchedVisible s ->
  (isListeningScroll s = false -> nodes (flushVisible s) = nodes s)
  /\ (isListeningScroll s = true -> forall el, target s = Some el ->
        style (nodes (flushVisible s) !!! el)
        = (if isVisible s then spread (enterStyles mergedOptions) VISIBILITY_VISIBLE
           else leaveStyles mergedOptions) ∪ style (nodes s !!! el)
        /\ (isVisible s = false ->
              ontransitionend (nodes (flushVisible s) !!! el)
              = Some HiddenAfterTransition)).
Proof.
  intros Hm Hne. unfold flushVisible. rewrite Hm.
  assert (Bool.eqb (isVisible s) (watchedVisible s) = false) as ->.
  { destruct (isVisible s), (watchedVisible s); done. }
  simpl. unfold watchVisible. split.
  - intros Hl. simpl. by rewrite Hl.
  - intros Hl el Ht. simpl. rewrite Hl. simpl.
    destruct (isVisible s) eqn:Hv.
    + unfold onVisible, setStyles, assignStyle. simpl. rewrite Ht. simpl.
      by rewrite lookup_total_insert_same.
    + unfold onHidden, setStyles, assignStyle, armTransitionEnd. simpl. rewrite Ht.
      simpl. rewrite Ht. simpl. by rewrite !lookup_total_insert_same.
Qed.

(** X16. A frame whose only pending callback is a sampler that has counted
    the whole window: the sampler reports abs(startY - offset) / elapsed;
    after the frame the flag is the one its direction asks for if that
    speed is at least the threshold, and unchanged otherwise; the guard is
    armed and nothing is pending.  If the flag changed while the composable
    listens, the watcher has assigned to the target the enter styles with
    the visible visibility, or the leave styles with the completion handler
    armed. *)
Theorem reporting_frame (s : State) (j k : nat) (d : Direction) (a b : num) :
  rafQueue s = [(j, RafDelta d k a b CAPTURE_DELTA_FRAME_COUNT)] ->
  mounted s = true -> watchedVisible s = isVisible s ->
  let v := div (abs (sub b (getScrollTop s))) (sub (clock s) a) in
  let s' := step AnimationFrame s in
  isVisible s' = (if ge v (threshold d) then wanted d else isVisible s)
  /\ guard d s' = true
  /\ rafQueue s' = []
  /\ captured s' = captured s ++ [(k, d, v)]
  /\ (isListeningScroll s = true -> isVisible s' ≠ isVisible s ->
      forall el, target s = Some el ->
        style (nodes s' !!! el)
        = (if isVisible s' then spread (enterStyles mergedOptions) VISIBILITY_VISIBLE
           else leaveStyles mergedOptions) ∪ style (nodes s !!! el)
        /\ (isVisible s' = false ->
              ontransitionend (nodes s' !!! el) = Some HiddenAfterTransition)).
Proof.
  intros Hq Hm Hsync v s'.
  set (s0 := set_rafRunning [] (set_rafQueue [] s)).
  set (x := rafDelta d k a b CAPTURE_DELTA_FRAME_COUNT s0).
  assert (Hs' : s' = flushVisible x).
  { unfold s', step. cbn [handle]. unfold animationFrame. rewrite Hq. simpl.
    rewrite flushVisible_idempotent. reflexivity. }
  assert (Hx : x = cancelAnimationFrame k
                     (onCaptured d v (set_captured (captured s ++ [(k, d, v)]) s0))).
  { unfold x, rafDelta. by rewrite Nat.eqb_refl. }
  set (c := set_captured (captured s ++ [(k, d, v)]) s0) in *.
  destruct (onCaptured_spec d v c) as [Hg Hv].
  assert (Hfields : isVisible x = (if ge v (threshold d) then wanted d else isVisible s)
                    /\ guard d x = true /\ rafQueue x = []
                    /\ captured x = captured s ++ [(k, d, v)]
                    /\ nodes x = nodes s /\ target x = target s
                    /\ isListeningScroll x = isListeningScroll s
                    /\ mounted x = mounted s /\ watchedVisible x = watchedVisible s).
  { rewrite Hx. unfold cancelAnimationFrame. simpl.
    split; [exact Hv|]. split; [by destruct d|].
    unfold onCaptured. destruct d; simpl; destruct (ge v _); by repeat split. }
  destruct Hfields as (Hvx & Hgx & Hqx & Hcx & Hnx & Htx & Hlx & Hmx & Hwx).
  rewrite Hs', flushVisible_isVisible, Hvx.
  destruct (flushVisible_guards x) as [He Hl].
  destruct (flushVisible_raf x) as (-> & _ & _ & ->).
  split; [done|]. split.
  { unfold guard in *. destruct d; [by rewrite He|by rewrite Hl]. }
  split; [done|]. split; [done|].
  intros Hlis Hchg el Ht.
  assert (Hne : isVisible x ≠ watchedVisible x) by (by rewrite Hvx, Hwx, Hsync).
  rewrite <- Hmx in Hm. rewrite <- Hlx in Hlis. rewrite <- Htx in Ht.
  destruct (flushVisible_styles x Hm Hne) as [_ Hst].
  destruct (Hst Hlis el Ht) as [Hstyle Harm].
  rewrite Hvx, Hnx in Hstyle. rewrite Hvx in Harm. by split.
Qed.

End UseFixedHeader.

(** * The test command [scrollWithDelta] ([cypress/support/commands.ts]) *)

Module Commands.

(** The argument object; an absent field is [undefined] and takes its
    default. *)
Record ScrollWithDeltaOptions := {
  delta : num;
  scrollDown : option bool;
  minDuration : option num
}.

(** What the queued commands do: the callback given to [then] throws and
    the test fails before anything scrolls, or [cy.scrollTo(0, y, { duration })]
    runs. *)
Inductive Outcome :=
| Failed
| ScrollTo (y : num) (duration : num).

(** [if (x)] for a number or [undefined]: false for [undefined], zeros and
    NaN. *)
Definition truthy (x : option num) : bool :=
  match x with
  | None => false
  | Some (S754_zero _) => false
  | Some S754_nan => false
  | Some _ => true
  end.

(** [headerHeight] is what [$header.height()] returns. *)
Definition scrollWithDelta (o : ScrollWithDeltaOptions) (headerHeight : option num) : Outcome :=
  let scrollDown := default true (scrollDown o) in
  let minDuration := default (of_Z 1000) (minDuration o) in
  let distance := mul (delta o) minDuration in
  let duration := minDuration in
  if truthy headerHeight && lt distance (default zero headerHeight) then Failed
  else ScrollTo (if scrollDown then distance else mul (of_Z (-1)) distance) duration.

Lemma not_lt_le (a b : num) :
  is_nan a = false -> is_nan b = false -> lt a b = false -> le b a = true.
Proof.
  unfold lt, le, SFltb, SFleb. rewrite (SFcompare_antisym a b).
  destruct a as [[]|[]| |[] ma ea], b as [[]|[]| |[] mb eb]; try discriminate;
    intros _ _; simpl; try done;
    destruct (ea ?= eb)%Z; try done; by destruct (Pos.compare_cont Eq ma mb).
Qed.

(** X17. [scrollWithDelta] fails exactly when the header height is a
    non-zero number and the distance [delta * minDuration] is smaller.  So
    when it scrolls down a page whose header has a non-zero height, and the
    distance is a number, the page is scrolled at least the header's height,
    over [minDuration] milliseconds. *)
Theorem scrollWithDelta_covers_header (o : ScrollWithDeltaOptions) (h : num) :
  let minDuration := default (of_Z 1000) (minDuration o) in
  let distance := mul (delta o) minDuration in
  truthy (Some h) = true ->
  (scrollWithDelta o (Some h) = Failed <-> lt distance h = true)
  /\ (forall y duration,
        scrollWithDelta o (Some h) = ScrollTo y duration ->
        default true (scrollDown o) = true ->
        is_nan distance = false ->
        y = distance /\ duration = minDuration /\ le h y = true).
Proof.
  intros minDuration distance Hh. unfold scrollWithDelta. rewrite Hh.
  change (default zero (Some h)) with h. rewrite Bool.andb_true_l.
  fold minDuration. fold distance. split.
  - destruct (lt distance h); split; intros Hx; first [reflexivity|discriminate].
  - intros y duration Hres Hdown Hnan.
    destruct (lt distance h) eqn:Hlt; [discriminate|].
    rewrite Hdown in Hres. injection Hres as <- <-.
    split; [done|]. split; [done|]. apply not_lt_le; [done| |done].
    by destruct h.
Qed.

End Commands.

(** * Concrete runs *)

(** A page whose header, element 1, is 80px high and fixed; element 2 is a
    second header and element 3 a scroll container.  The thresholds are
    0.5 and 0.25 px/ms, and a sample spans two frames. *)

Definition half : num := div (of_Z 1) (of_Z 2).
Definition quarter : num := div (of_Z 1) (of_Z 4).

Definition options : Options :=
  {| enterStyles := {[ "transform" := "translateY(0px)" ]};
     leaveStyles := {[ "transform" := "translateY(-100%)" ]};
     enterDelta := half;
     leaveDelta := quarter |}.

Definition frameCount : nat := 2.

Definition pinned : Layout :=
  {| l_scrollHeight := of_Z 80; l_marginTop := zero; l_marginBottom := zero;
     l_position := "fixed"; l_display := "block" |}.

Definition page : State := initial true ∅ zero.

Abbreviation go := (run options frameCount).
Abbreviation next := (step options frameCount).

(** The header is mounted on a page that scrolls with the document. *)
Definition mountHeader : list Event :=
  [EnvLayout 1 pinned; ChangeRefs (Some 1) None].

(** The page is scrolled down to 300 and then to 600: the second scroll
    event starts a leave sample. *)
Definition scrollDown : list Event :=
  [EnvScrollTo 0 (of_Z 300); ScrollEvent Window;
   EnvScrollTo 0 (of_Z 600); ScrollEvent Window].

(** 300px further in 100ms, two frames. *)
Definition twoFrames : list Event :=
  [EnvScrollTo 0 (of_Z 900); EnvClock (of_Z 100); AnimationFrame; AnimationFrame].

(** At the third frame the sample reports 3 px/ms and the header hides. *)
Definition hideHeader : list Event := twoFrames ++ [AnimationFrame].

(** A scroll event going up starts an enter sample; then the page stands
    still and the clock does not advance for three frames. *)
Definition frozenScrollUp : list Event :=
  [EnvScrollTo 0 (of_Z 500); ScrollEvent Window;
   AnimationFrame; AnimationFrame; AnimationFrame].

(** The same, but the page moves on by 100px while the clock stands. *)
Definition instantScrollUp : list Event :=
  [EnvScrollTo 0 (of_Z 500); ScrollEvent Window; EnvScrollTo 0 (of_Z 400);
   AnimationFrame; AnimationFrame; AnimationFrame].

Definition laid_out_page : State := go [EnvLayout 1 pinned] page.
Definition mounted_page : State := go mountHeader page.
Definition sampling_page : State := go (mountHeader ++ scrollDown) page.
Definition hidden_page : State := go (mountHeader ++ scrollDown ++ hideHeader) page.

(** Hidden, and back at offset 50. *)
Definition back_at_top : State :=
  go (mountHeader ++ scrollDown ++ hideHeader ++ [EnvScrollTo 0 (of_Z 50)]) page.

(** A leave sample in flight, and the page 300px further down. *)
Definition still_sampling : State :=
  go (mountHeader ++ scrollDown ++ [EnvScrollTo 0 (of_Z 900)]) page.

(** Mounted, not yet scrolled by an event, at offset 300. *)
Definition first_scroll : State :=
  go (mountHeader ++ [EnvScrollTo 0 (of_Z 300)]) page.

(** Hidden, and the page 100px further down. *)
Definition further_down : State :=
  go (mountHeader ++ scrollDown ++ hideHeader ++ [EnvScrollTo 0 (of_Z 1000)]) page.

Lemma reachable_go (es : list Event) : reachable options frameCount (go es page).
Proof. unfold page. apply reachable_run, reachable_initial. Qed.

Example hidden_page_is_hidden :
  isVisible hidden_page = false
  /\ captured hidden_page = [(1%nat, Leave, of_Z 3)]
  /\ ontransitionend (nodes hidden_page !!! 1%nat) = Some HiddenAfterTransition.
Proof. vm_compute. repeat split. Qed.

(** With the header hidden and the page back at offset 50, a scroll event
    shows it. *)
Lemma top_zone_forces_visible_witness :
  Window ∈ scrollListeners back_at_top
  /\ le (getScrollTop back_at_top) (getHeaderHeight back_at_top) = true
  /\ isVisible back_at_top = false
  /\ isVisible (next (ScrollEvent Window) back_at_top) = true.
Proof.
  assert (Hin : Window ∈ scrollListeners back_at_top)
    by (apply (bool_decide_unpack (Window ∈ scrollListeners back_at_top));
        vm_compute; exact I).
  assert (Hle : le (getScrollTop back_at_top) (getHeaderHeight back_at_top) = true)
    by (vm_compute; reflexivity).
  split; [exact Hin|]. split; [exact Hle|]. split; [vm_compute; reflexivity|].
  exact (proj2 (proj2 (top_zone_forces_visible options frameCount back_at_top
                         Window Hin Hle))).
Defined.

Lemma one_sample_per_direction_witness :
  reachable options frameCount still_sampling
  /\ inFlight Leave still_sampling ≠ []
  /\ moving Leave still_sampling = true
  /\ length (inFlight Leave still_sampling) ≤ 1
  /\ rafQueue (onScroll still_sampling) = rafQueue still_sampling.
Proof.
  assert (Hr : reachable options frameCount still_sampling)
    by exact (reachable_go _).
  assert (Hin : inFlight Leave still_sampling ≠ []) by (vm_compute; discriminate).
  assert (Hm : moving Leave still_sampling = true) by (vm_compute; reflexivity).
  destruct (one_sample_per_direction options frameCount still_sampling Hr)
    as [[_ Hlen] Hsup].
  split; [exact Hr|]. split; [exact Hin|]. split; [exact Hm|]. split; [exact Hlen|].
  exact (proj1 (Hsup Leave Hin Hm)).
Defined.


(** The value of that report. *)
Example three_px_per_ms :
  reported 1 (go (twoFrames ++ [AnimationFrame]) sampling_page)
  = [(1%nat, Leave, of_Z 3)].
Proof. vm_compute. reflexivity. Qed.

(** A sample that reports NaN: the flag is false before and after, although
    the sample was an enter sample. *)
Lemma nan_sample_leaves_flag :
  isVisible hidden_page = false
  /\ reported 4 (go frozenScrollUp hidden_page) = [(4%nat, Enter, nan)]
  /\ isVisible (go frozenScrollUp hidden_page) = false
  /\ isVisible (go frozenScrollUp hidden_page) ≠ wanted Enter.
Proof. vm_compute. repeat split. discriminate. Qed.

Lemma degenerate_sample_witness :
  is_nan (threshold options Enter) = false
  /\ isVisible (onCaptured options Enter infinity hidden_page) = wanted Enter.
Proof.
  assert (Hthr : is_nan (threshold options Enter) = false) by reflexivity.
  split; [exact Hthr|].
  exact (proj1 (degenerate_sample options Enter hidden_page) Hthr).
Defined.

(** Such a sample in a run: the page moves while the clock stands. *)
Example infinite_sample_shows :
  reported 4 (go instantScrollUp hidden_page) = [(4%nat, Enter, infinity)]
  /\ isVisible (go instantScrollUp hidden_page) = true.
Proof. vm_compute. by split. Qed.

Lemma zero_prevTop_guard_witness :
  strict_eq (prevTop first_scroll) zero = true
  /\ gt (getScrollTop first_scroll) (getHeaderHeight first_scroll) = true
  /\ onScroll first_scroll = set_prevTop (getScrollTop first_scroll) first_scroll.
Proof.
  assert (Hz : strict_eq (prevTop first_scroll) zero = true)
    by (vm_compute; reflexivity).
  assert (Hgt : gt (getScrollTop first_scroll) (getHeaderHeight first_scroll) = true)
    by (vm_compute; reflexivity).
  split; [exact Hz|]. split; [exact Hgt|].
  exact (proj1 (zero_prevTop_guard first_scroll Hz) Hgt).
Defined.

Lemma guard_rearmed_witness :
  guard Leave further_down = true
  /\ le (getScrollTop further_down) (getHeaderHeight further_down) = false
  /\ strict_ne (prevTop further_down) zero = true
  /\ moving Leave further_down = true
  /\ rafQueue (onScroll further_down)
     = rafQueue further_down
       ++ [(nextRaf further_down,
            RafDelta Leave (nextRaf further_down) (clock further_down)
              (getScrollTop further_down) 0)]
  /\ guard Leave (onScroll further_down) = false.
Proof.
  assert (Hg : guard Leave further_down = true) by (vm_compute; reflexivity).
  assert (Ht : le (getScrollTop further_down) (getHeaderHeight further_down) = false)
    by (vm_compute; reflexivity).
  assert (Hp : strict_ne (prevTop further_down) zero = true)
    by (vm_compute; reflexivity).
  assert (Hm : moving Leave further_down = true) by (vm_compute; reflexivity).
  split; [exact Hg|]. split; [exact Ht|]. split; [exact Hp|]. split; [exact Hm|].
  exact (proj2 (guard_rearmed options Leave) further_down Hg Ht Hp Hm).
Defined.


(** The page is loaded at offset 200 with an 80px header: 200 > 96. *)
Definition loaded_scrolled : State :=
  go [EnvScrollTo 0 (of_Z 200)] (next (ChangeRefs (Some 1%nat) None) laid_out_page).


(** In that frame the header is hidden. *)
Example loaded_scrolled_hides :
  gt (getScrollTop loaded_scrolled)
     (mul (getHeaderHeight loaded_scrolled) one_point_two) = true
  /\ isVisible (handle options frameCount AnimationFrame loaded_scrolled) = false
  /\ style (nodes (handle options frameCount AnimationFrame loaded_scrolled) !!! 1%nat)
       !! "visibility" = Some "hidden".
Proof. vm_compute. repeat split. Qed.

(** The turn of the isVisible watcher that follows the restoration check,
    with the listener attached, calls [onHidden]. *)
Example restoration_then_watcher :
  ontransitionend (nodes loaded_scrolled !!! 1%nat) = None
  /\ ontransitionend
       (nodes (restorationCheck options loaded_scrolled) !!! 1%nat) = None
  /\ ontransitionend
       (nodes (handle options frameCount AnimationFrame loaded_scrolled) !!! 1%nat)
     = Some HiddenAfterTransition.
Proof. vm_compute. repeat split. Qed.




(** The scroll root changes from the document to element 3 while the
    listener is on [window]; the component is then unmounted.  The listener
    on [window] is still there, and scroll events dispatched at [window]
    still run the handler: they start a sample, and its report hides the
    header of the unmounted component. *)
Definition torn_down : State :=
  go (mountHeader ++ [ChangeRefs (Some 1%nat) (Some 3%nat); Unmount]) page.

Definition after_teardown : State :=
  go [EnvScrollTo 3 (of_Z 300); ScrollEvent Window;
      EnvScrollTo 3 (of_Z 600); ScrollEvent Window;
      EnvScrollTo 3 (of_Z 900); EnvClock (of_Z 100);
      AnimationFrame; AnimationFrame; AnimationFrame] torn_down.

Lemma teardown_leaves_old_root_listener :
  mounted torn_down = false
  /\ isVisible torn_down = true
  /\ isListeningScroll torn_down = false
  /\ observed torn_down = ∅
  /\ Window ∈ scrollListeners torn_down
  /\ handle options frameCount (ScrollEvent Window) torn_down = onScroll torn_down
  /\ isVisible after_teardown = false.
Proof.
  split; [vm_compute; reflexivity|]. split; [vm_compute; reflexivity|].
  split; [vm_compute; reflexivity|]. split; [vm_compute; reflexivity|].
  assert (Hin : Window ∈ scrollListeners torn_down)
    by (apply (bool_decide_unpack (Window ∈ scrollListeners torn_down));
        vm_compute; exact I).
  split; [exact Hin|]. split; [|vm_compute; reflexivity].
  unfold handle. by rewrite bool_decide_eq_true_2.
Qed.

(** * Concrete runs: styles, lifecycle and sampling *)

(** The same page, whose header has an inline colour of its own. *)
Definition styled_page : State :=
  initial true {[ 1%nat := set_style {[ "color" := "red" ]} blank ]} zero.

(** The header is mounted, the page scrolled down and the header hidden. *)
Definition mountAndHide : list Event := mountHeader ++ scrollDown ++ hideHeader.



(** A sample is in flight, the page stands at 600 and 100ms pass. *)
Definition waited_page : State := go [EnvClock (of_Z 100)] sampling_page.

(** The sampler has counted two frames. *)
Definition reporting_page : State := go twoFrames sampling_page.

(** The header's top margin does not parse. *)
Definition no_margin : Layout :=
  {| l_scrollHeight := of_Z 80; l_marginTop := nan; l_marginBottom := zero;
     l_position := "fixed"; l_display := "block" |}.

Definition nan_margin_page : State := go [EnvLayout 1 no_margin] hidden_page.


Lemma unmanaged_color : ~ managed options "color".
Proof.
  intros [[v Hv]|[[v Hv]|Hk]]; [vm_compute in Hv; discriminate Hv
                               |vm_compute in Hv; discriminate Hv
                               |discriminate Hk].
Defined.


Lemma show_hide_assign_witness :
  target hidden_page = Some 1%nat
  /\ style (nodes (onVisible options hidden_page) !!! 1%nat) !! "visibility"
     = Some "visible".
Proof.
  assert (Ht : target hidden_page = Some 1%nat) by (vm_compute; reflexivity).
  split; [exact Ht|].
  exact (proj1 (proj1 (show_hide_assign options hidden_page 1 Ht))).
Defined.

Lemma only_managed_written_witness :
  ~ managed options "color"
  /\ style (nodes styled_page !!! 1%nat) !! "color" = Some "red"
  /\ style (nodes (go mountAndHide styled_page) !!! 1%nat) !! "color"
     = style (nodes styled_page !!! 1%nat) !! "color".
Proof.
  split; [exact unmanaged_color|]. split; [vm_compute; reflexivity|].
  exact (only_managed_written options frameCount
           mountAndHide styled_page 1 "color"
           unmanaged_color).
Defined.



Lemma one_observer_connected_witness :
  reachable options frameCount mounted_page
  /\ observed mounted_page !! 0%nat = Some 0%nat
  /\ resizeObserver mounted_page = Some 0%nat
  /\ mounted mounted_page = true.
Proof.
  assert (Hr : reachable options frameCount mounted_page) by exact (reachable_go _).
  assert (Ho : observed mounted_page !! 0%nat = Some 0%nat)
    by (vm_compute; reflexivity).
  split; [exact Hr|]. split; [exact Ho|].
  exact (one_observer_connected options frameCount mounted_page Hr 0%nat 0%nat Ho).
Defined.

Lemma listening_on_current_root_witness :
  reachable options frameCount hidden_page
  /\ isListeningScroll hidden_page = true
  /\ mounted hidden_page = true
  /\ exists r, getRoot hidden_page = Some r
               /\ scrollRootOf r ∈ scrollListeners hidden_page.
Proof.
  assert (Hr : reachable options frameCount hidden_page) by exact (reachable_go _).
  assert (Hl : isListeningScroll hidden_page = true) by (vm_compute; reflexivity).
  split; [exact Hr|]. split; [exact Hl|].
  exact (listening_on_current_root options frameCount hidden_page Hr Hl).
Defined.

Lemma watcher_run_establishes_witness :
  reachable options frameCount laid_out_page
  /\ mounted laid_out_page = true
  /\ hasWindow laid_out_page = true
  /\ isFixed (set_root None (set_target (Some 1%nat) laid_out_page)) = true
  /\ resizeObserver (next (ChangeRefs (Some 1%nat) None) laid_out_page)
     = Some (nextObserver laid_out_page)
  /\ isListeningScroll (next (ChangeRefs (Some 1%nat) None) laid_out_page) = true
  /\ Window ∈ scrollListeners (next (ChangeRefs (Some 1%nat) None) laid_out_page).
Proof.
  assert (Hr : reachable options frameCount laid_out_page) by exact (reachable_go _).
  assert (Hm : mounted laid_out_page = true) by (vm_compute; reflexivity).
  assert (Hw : hasWindow laid_out_page = true) by (vm_compute; reflexivity).
  assert (Hf : isFixed (set_root None (set_target (Some 1%nat) laid_out_page)) = true)
    by (vm_compute; reflexivity).
  split; [exact Hr|]. split; [exact Hm|]. split; [exact Hw|]. split; [exact Hf|].
  destruct (watcher_run_establishes options frameCount laid_out_page (Some 1%nat) None
              Hr Hm Hw) as (Ho & _ & Hl & Hin & _).
  split; [exact Ho|]. split; [exact (eq_trans Hl Hf)|exact (Hin Hf)].
Defined.

Lemma first_resize_skipped_witness :
  observed mounted_page !! 0%nat = Some 0%nat
  /\ skipInitial mounted_page = true
  /\ handle options frameCount (ResizeCallback 0) mounted_page
     = set_skipInitial false mounted_page.
Proof.
  assert (Ho : observed mounted_page !! 0%nat = Some 0%nat)
    by (vm_compute; reflexivity).
  assert (Hs : skipInitial mounted_page = true) by (vm_compute; reflexivity).
  split; [exact Ho|]. split; [exact Hs|].
  exact (proj1 (first_resize_skipped options frameCount mounted_page 0 0 Ho) Hs).
Defined.

Lemma guard_tracks_sample_witness :
  reachable options frameCount sampling_page
  /\ guard Leave sampling_page = false
  /\ exists j k a b m,
       inFlight Leave sampling_page = [(j, RafDelta Leave k a b m)]
       /\ m ≤ frameCount.
Proof.
  assert (Hr : reachable options frameCount sampling_page) by exact (reachable_go _).
  assert (Hg : guard Leave sampling_page = false) by (vm_compute; reflexivity).
  split; [exact Hr|]. split; [exact Hg|].
  exact (proj2 (guard_tracks_sample options frameCount sampling_page Leave Hr) Hg).
Defined.

Lemma guard_rearmed_in_time_witness :
  reachable options frameCount sampling_page
  /\ guard Leave sampling_page = false
  /\ exists n, n ≤ frameCount
       /\ forall es : list Event,
            frames es = n -> guard Leave (go (es ++ [AnimationFrame]) sampling_page) = true.
Proof.
  assert (Hr : reachable options frameCount sampling_page) by exact (reachable_go _).
  assert (Hg : guard Leave sampling_page = false) by (vm_compute; reflexivity).
  split; [exact Hr|]. split; [exact Hg|].
  exact (guard_rearmed_in_time options frameCount sampling_page Leave Hr Hg).
Defined.

Lemma standstill_sample_witness :
  getScrollTop waited_page = of_Z 600
  /\ is_finite (of_Z 600) = true
  /\ gt (sub (clock waited_page) zero) zero = true
  /\ gt (threshold options Leave) zero = true
  /\ sampledSpeed zero (of_Z 600) waited_page = zero
  /\ isVisible (onCaptured options Leave (sampledSpeed zero (of_Z 600) waited_page)
                  waited_page) = isVisible waited_page.
Proof.
  assert (Hy : getScrollTop waited_page = of_Z 600) by (vm_compute; reflexivity).
  assert (Hfin : is_finite (of_Z 600) = true) by (vm_compute; reflexivity).
  assert (Hdt : gt (sub (clock waited_page) zero) zero = true)
    by (vm_compute; reflexivity).
  assert (Hthr : gt (threshold options Leave) zero = true) by (vm_compute; reflexivity).
  split; [exact Hy|]. split; [exact Hfin|]. split; [exact Hdt|]. split; [exact Hthr|].
  destruct (standstill_sample options zero (of_Z 600) waited_page Hy Hfin Hdt)
    as [Hz Hkeep].
  split; [exact Hz|exact (Hkeep Leave waited_page Hthr)].
Defined.

(** One pixel per millisecond for the default second, against an 80px
    header. *)
Definition one_px_per_ms : Commands.ScrollWithDeltaOptions :=
  {| Commands.delta := of_Z 1; Commands.scrollDown := None;
     Commands.minDuration := None |}.

Lemma scrollWithDelta_covers_header_witness :
  Commands.truthy (Some (of_Z 80)) = true
  /\ Commands.scrollWithDelta one_px_per_ms (Some (of_Z 80))
     = Commands.ScrollTo (of_Z 1000) (of_Z 1000)
  /\ le (of_Z 80) (of_Z 1000) = true.
Proof.
  assert (Ht : Commands.truthy (Some (of_Z 80)) = true) by (vm_compute; reflexivity).
  assert (Hs : Commands.scrollWithDelta one_px_per_ms (Some (of_Z 80))
               = Commands.ScrollTo (of_Z 1000) (of_Z 1000))
    by (vm_compute; reflexivity).
  split; [exact Ht|]. split; [exact Hs|].
  exact (proj2 (proj2 (proj2 (Commands.scrollWithDelta_covers_header one_px_per_ms
                                (of_Z 80) Ht)
                         (of_Z 1000) (of_Z 1000) Hs eq_refl eq_refl))).
Defined.

Lemma nan_margin_witness :
  target nan_margin_page = Some 1%nat
  /\ is_nan (marginTop (nodes nan_margin_page !!! 1%nat))
     || is_nan (marginBottom (nodes nan_margin_page !!! 1%nat)) = true
  /\ is_nan (getHeaderHeight nan_margin_page) = true
  /\ isVisible (onScroll nan_margin_page) = isVisible nan_margin_page.
Proof.
  assert (Ht : target nan_margin_page = Some 1%nat) by (vm_compute; reflexivity).
  assert (Hn : is_nan (marginTop (nodes nan_margin_page !!! 1%nat))
               || is_nan (marginBottom (nodes nan_margin_page !!! 1%nat)) = true)
    by (vm_compute; reflexivity).
  split; [exact Ht|]. split; [exact Hn|].
  destruct (nan_margin options nan_margin_page 1 Ht Hn) as (Hh & _ & _ & Hv).
  split; [exact Hh|exact Hv].
Defined.

Lemma reporting_frame_witness :
  rafQueue reporting_page = [(3%nat, RafDelta Leave 1 zero (of_Z 600) frameCount)]
  /\ mounted reporting_page = true
  /\ watchedVisible reporting_page = isVisible reporting_page
  /\ isVisible (next AnimationFrame reporting_page)
     = (if ge (div (abs (sub (of_Z 600) (getScrollTop reporting_page)))
                   (sub (clock reporting_page) zero))
              (threshold options Leave)
        then wanted Leave else isVisible reporting_page)
  /\ rafQueue (next AnimationFrame reporting_page) = [].
Proof.
  assert (Hq : rafQueue reporting_page
               = [(3%nat, RafDelta Leave 1 zero (of_Z 600) frameCount)])
    by (vm_compute; reflexivity).
  assert (Hm : mounted reporting_page = true) by (vm_compute; reflexivity).
  assert (Hs : watchedVisible reporting_page = isVisible reporting_page)
    by (vm_compute; reflexivity).
  split; [exact Hq|]. split; [exact Hm|]. split; [exact Hs|].
  destruct (reporting_frame options frameCount reporting_page 3 1 Leave zero
              (of_Z 600) Hq Hm Hs) as (Hv & _ & Hempty & _).
  split; [exact Hv|exact Hempty].
Defined.

(** The speed of that report is 3 px/ms, above a quarter: the header hides
    and the watcher assigns the leave styles. *)
Example reporting_frame_hides :
  isVisible (next AnimationFrame reporting_page) = false
  /\ style (nodes (next AnimationFrame reporting_page) !!! 1%nat) !! "transform"
     = Some "translateY(-100%)".
Proof. vm_compute. by split. Qed.
